(** * Cart reservation, visit confirmation and commission engine

    A shallow embedding of the reservation logic of the marketplace:
    the Cart model (models/Cart.js), the Commission model
    (models/Commission.js), the Rule and Notification models, the buyer
    and broker controllers, the buyer and broker routers and the two
    cleanup services.

    Conventions of the embedding.
    - Documents live in a [Store] that every handler threads through;
      a handler returns its HTTP response together with the store it
      leaves behind.
    - ObjectIds are compared through their string form, as the handlers
      do ([item.property.toString() === propertyId]).
    - A [Date] is its time value, an integer number of milliseconds.
      Every clock read of one handler run returns the same instant
      [now]; [setDate(getDate() + d)] adds [d] whole days, i.e. the
      server's zone has no daylight-saving shift.
    - Money (prices, rates, amounts) is kept in IEEE 754 binary64, the
      arithmetic of a JavaScript Number; limits and window lengths are
      whole numbers.
    - Fields that no reservation rule reads (titles, images, view
      counters, last_updated, total_value, confirmed_by on the property)
      are left out. *)

From Stdlib Require Import ZArith List Bool String Lia Floats DecimalString.
From Stdlib Require Import Ascii Permutation Sorted.
Import ListNotations.
Open Scope string_scope.
Open Scope list_scope.
Open Scope Z_scope.

(** ** Basic values *)

Definition ObjectId := string.
Definition Time := Z.

(** [24 * 60 * 60 * 1000] *)
Definition day_ms : Z := 24 * 60 * 60 * 1000.

(** [d.setDate(d.getDate() + days)] on the time value [d]. *)
Definition setDate_plus (d : Time) (days : Z) : Time := d + days * day_ms.

(** Template-literal rendering of a whole number. *)
Definition string_of_Z (z : Z) : string := NilZero.string_of_int (Z.to_int z).

(** What a rejected promise or a [throw] carries: a plain [Error] with
    its message, the engine's [TypeError], or a Mongoose validation error
    on a path of a model. *)
Inductive Exn :=
| Error (message : string)
| TypeError (message : string)
| ValidationError (model path : string).

(** The response of a handler: [res.status(status).json({success,
    message, ...})], or the [catch] block's
    [res.status(500).json({success: false, message: error.message})]. *)
Inductive Response :=
| Json (status : Z) (success : bool) (message : string)
| Caught (status : Z) (e : Exn).

(** The outcome of an async model method. *)
Inductive Outcome :=
| Resolved
| Threw (e : Exn).

(** ** Array helpers *)

Section ArrayHelpers.
Context {A : Type}.

(** [arr.findIndex(p)], [None] standing for [-1]. *)
Fixpoint findIndex (p : A -> bool) (l : list A) : option nat :=
  match l with
  | [] => None
  | x :: r => if p x then Some O
              else match findIndex p r with
                   | Some i => Some (S i)
                   | None => None
                   end
  end.

(** [arr.splice(i, 1)] *)
Fixpoint splice1 (i : nat) (l : list A) : list A :=
  match l, i with
  | [], _ => []
  | _ :: r, O => r
  | x :: r, S j => x :: splice1 j r
  end.

(** In-place update of [arr[i]]. *)
Fixpoint update_at (i : nat) (f : A -> A) (l : list A) : list A :=
  match l, i with
  | [], _ => []
  | x :: r, O => f x :: r
  | x :: r, S j => x :: update_at j f r
  end.

(** In-place update of the element [arr.find(p)] returns. *)
Fixpoint update_first (p : A -> bool) (f : A -> A) (l : list A) : list A :=
  match l with
  | [] => []
  | x :: r => if p x then f x :: r else x :: update_first p f r
  end.
End ArrayHelpers.

(** ** Cart model (models/Cart.js) *)

Inductive ItemStatus := Active | Expired | Purchased | Removed | Completed.

Inductive VisitStatus :=
| VPending | VScheduled | VConfirmed | VCompleted | VExpired | VCancelled.

(** [confirmation_method] enum of a cart item; a request carries a
    member of the enum. *)
Inductive Method := Otp | Qr | Manual | Scheduled.

Record Item := mkItem {
  item_property : ObjectId;
  item_added_at : Time;
  item_status : ItemStatus;
  item_visit_status : VisitStatus;
  item_visit_confirmed_at : option Time;
  item_confirmed_by : option ObjectId;
  item_confirmation_method : option Method;
  item_booking_window_start : option Time;
  item_booking_window_end : option Time;
  item_notes : option string
}.

Record Settings := mkSettings {
  max_properties : Z;
  visit_window_days : Z;
  booking_window_days : Z
}.

Record Cart := mkCart {
  buyer : ObjectId;
  items : list Item;
  settings : Settings
}.

Definition ItemStatus_eqb (a b : ItemStatus) : bool :=
  match a, b with
  | Active, Active | Expired, Expired | Purchased, Purchased
  | Removed, Removed | Completed, Completed => true
  | _, _ => false
  end.

Definition VisitStatus_eqb (a b : VisitStatus) : bool :=
  match a, b with
  | VPending, VPending | VScheduled, VScheduled | VConfirmed, VConfirmed
  | VCompleted, VCompleted | VExpired, VExpired | VCancelled, VCancelled => true
  | _, _ => false
  end.

Definition status_active (it : Item) : bool := ItemStatus_eqb (item_status it) Active.

(** [item.property.toString() === propertyId && item.status === 'active'] *)
Definition active_for (propertyId : ObjectId) (it : Item) : bool :=
  String.eqb (item_property it) propertyId && status_active it.

Definition set_items (c : Cart) (l : list Item) : Cart :=
  mkCart (buyer c) l (settings c).

Definition set_item_status (s : ItemStatus) (it : Item) : Item :=
  mkItem (item_property it) (item_added_at it) s (item_visit_status it)
         (item_visit_confirmed_at it) (item_confirmed_by it)
         (item_confirmation_method it) (item_booking_window_start it)
         (item_booking_window_end it) (item_notes it).

Definition set_item_visit_status (v : VisitStatus) (it : Item) : Item :=
  mkItem (item_property it) (item_added_at it) (item_status it) v
         (item_visit_confirmed_at it) (item_confirmed_by it)
         (item_confirmation_method it) (item_booking_window_start it)
         (item_booking_window_end it) (item_notes it).

(** [item.visit_status = 'expired'; item.status = 'expired';] *)
Definition expire_visit (it : Item) : Item :=
  set_item_status Expired (set_item_visit_status VExpired it).

(** A freshly pushed sub-document: the schema defaults fill [status] and
    [visit_status]; the caller may give [booking_window_end]. *)
Definition new_item (propertyId : ObjectId) (now : Time) (bwe : option Time) : Item :=
  mkItem propertyId now Active VPending None None None None bwe None.

Module CartModel.

(** [this.items.filter(item => item.status === 'active')] *)
Definition activeItems (this : Cart) : list Item := filter status_active (items this).

Definition isPropertyInCart (this : Cart) (propertyId : ObjectId) : bool :=
  existsb (active_for propertyId) (items this).

Definition limit_message (this : Cart) : string :=
  ("Cart limit reached. Maximum " ++ string_of_Z (max_properties (settings this))
    ++ " properties allowed.")%string.

(** [cartSchema.methods.addItem]; the second component is the document
    as persisted when the method settles. *)
Definition addItem (this : Cart) (propertyId : ObjectId) (now : Time)
  : Outcome * Cart :=
  if isPropertyInCart this propertyId then
    (Threw (Error "Property already in cart"), this)
  else if Z.of_nat (List.length (activeItems this)) >=? max_properties (settings this) then
    (Threw (Error (limit_message this)), this)
  else
    (Resolved, set_items this (items this ++ [new_item propertyId now None])).

(** [cartSchema.methods.removeItem] *)
Definition removeItem (this : Cart) (propertyId : ObjectId) : Outcome * Cart :=
  match findIndex (active_for propertyId) (items this) with
  | None => (Threw (Error "Property not found in cart"), this)
  | Some itemIndex =>
      (Resolved, set_items this (update_at itemIndex (set_item_status Removed) (items this)))
  end.

(** The assignments of a successful confirmation. *)
Definition confirm_item (confirmedBy : ObjectId) (method : Method) (now : Time)
           (days : Z) (it : Item) : Item :=
  mkItem (item_property it) (item_added_at it) (item_status it) VConfirmed
         (Some now) (Some confirmedBy) (Some method) (Some now)
         (Some (now + days * 24 * 60 * 60 * 1000)) (item_notes it).

(** [cartSchema.methods.confirmVisit] *)
Definition confirmVisit (this : Cart) (propertyId confirmedBy : ObjectId)
           (method : Method) (now : Time) : Outcome * Cart :=
  match find (active_for propertyId) (items this) with
  | None => (Threw (Error "Property not found in cart"), this)
  | Some item =>
      if VisitStatus_eqb (item_visit_status item) VConfirmed then
        (Threw (Error "Visit already confirmed"), this)
      else
        let visitExpiry :=
          setDate_plus (item_added_at item) (visit_window_days (settings this)) in
        if now >? visitExpiry then
          (Threw (Error "Visit window has expired"),
           set_items this (update_first (active_for propertyId) expire_visit (items this)))
        else
          (Resolved,
           set_items this
             (update_first (active_for propertyId)
                (confirm_item confirmedBy method now (booking_window_days (settings this)))
                (items this)))
  end.

(** The body of the [forEach] of [checkExpiredItems] on one item: the
    item afterwards and whether it set [updated]. *)
Definition check_item (now : Time) (visitWindowMs : Z) (item : Item) : Item * bool :=
  let '(item1, updated1) :=
    if status_active item && VisitStatus_eqb (item_visit_status item) VPending then
      if now - item_added_at item >? visitWindowMs
      then (expire_visit item, true) else (item, false)
    else (item, false) in
  let '(item2, updated2) :=
    match item_booking_window_end item1 with
    | Some booking_window_end =>
        if status_active item1 && VisitStatus_eqb (item_visit_status item1) VConfirmed then
          if now >? booking_window_end
          then (set_item_status Expired item1, true) else (item1, false)
        else (item1, false)
    | None => (item1, false)
    end in
  (item2, updated1 || updated2).

(** [cartSchema.methods.checkExpiredItems]: the document afterwards and
    the returned [updated]. *)
Definition checkExpiredItems (this : Cart) (now : Time) : Cart * bool :=
  let visitWindowMs := visit_window_days (settings this) * 24 * 60 * 60 * 1000 in
  let rs := map (check_item now visitWindowMs) (items this) in
  (set_items this (map fst rs), existsb snd rs).

(** [cartSchema.statics.cleanExpiredItems] over the whole collection:
    the collection afterwards and [totalUpdated]. *)
Fixpoint cleanExpiredItems (carts : list Cart) (now : Time) : list Cart * Z :=
  match carts with
  | [] => ([], 0)
  | cart :: rest =>
      let '(cart', updated) := checkExpiredItems cart now in
      let '(rest', n) := cleanExpiredItems rest now in
      (cart' :: rest', if updated then n + 1 else n)
  end.

End CartModel.

(** ** Property model (models/Property.js), the parts the engine reads *)

Inductive PropertyStatus :=
| draft | pending_approval | approved | live | rejected
| suspended | sold | rented | expired.

Definition PropertyStatus_eqb (a b : PropertyStatus) : bool :=
  match a, b with
  | draft, draft | pending_approval, pending_approval | approved, approved
  | live, live | rejected, rejected | suspended, suspended | sold, sold
  | rented, rented | expired, expired => true
  | _, _ => false
  end.

(** The [cart_status] sub-document: the lock mirror of the reservation. *)
Record CartStatus := mkCartStatus {
  in_cart : bool;
  buyer_id : option ObjectId;
  added_at : option Time;
  visit_confirmed : bool;
  visit_confirmed_at : option Time;
  booking_window_start : option Time;
  booking_window_end : option Time
}.

Inductive Role := seller_role | broker_role.

Definition Role_eqb (a b : Role) : bool :=
  match a, b with
  | seller_role, seller_role | broker_role, broker_role => true
  | _, _ => false
  end.

Record Property := mkProperty {
  prop_id : ObjectId;
  prop_status : PropertyStatus;
  price : float;
  seller : ObjectId;
  added_by_user : ObjectId;
  added_by_role : Role;
  broker : option ObjectId;
  cart_status : CartStatus;
  commission_adder_rate : float;
  commission_seller_rate : float
}.

Definition set_cart_status (cs : CartStatus) (p : Property) : Property :=
  mkProperty (prop_id p) (prop_status p) (price p) (seller p) (added_by_user p)
             (added_by_role p) (broker p) cs (commission_adder_rate p)
             (commission_seller_rate p).

(** [property.cart_status = { in_cart: true, buyer_id, added_at: new
    Date(), visit_confirmed: false }]: the nested path is overwritten. *)
Definition locked_by (buyerId : ObjectId) (now : Time) : CartStatus :=
  mkCartStatus true (Some buyerId) (Some now) false None None None.

(** [property.cart_status = { in_cart: false, buyer_id: null, added_at:
    null, visit_confirmed: false }] *)
Definition unlocked : CartStatus :=
  mkCartStatus false None None false None None None.

(** The update [{ 'cart_status.in_cart': false, 'cart_status.buyer_id':
    null }]: two dotted paths are set, the others stay. *)
Definition clear_holder (cs : CartStatus) : CartStatus :=
  mkCartStatus false None (added_at cs) (visit_confirmed cs)
               (visit_confirmed_at cs) (booking_window_start cs)
               (booking_window_end cs).

(** ** Rule model (models/Rule.js) *)

Record Rule := mkRule {
  rule_type : string;
  value : Z;
  is_active : bool
}.

(** ** Notification model (models/Notification.js) *)

Record Notification := mkNotification {
  n_user : ObjectId;
  n_type : string;
  n_title : string;
  n_property_id : ObjectId
}.

(** The [enum] of [type] in the notification schema. *)
Definition notification_types : list string :=
  [ "property_approved"; "property_rejected"; "property_added_to_cart";
    "visit_reminder"; "booking_window_expiring"; "cart_item_expired";
    "commission_earned"; "edit_permission_granted"; "property_lock";
    "property_unlock"; "system_alert"; "payment_received" ].

(** ** Commission model (models/Commission.js) *)

Inductive CommissionStatus := com_pending | com_approved | com_paid | com_cancelled.

Record Commission := mkCommission {
  com_broker : ObjectId;
  com_property : ObjectId;
  property_price : float;
  commission_type : string;
  rate : float;
  amount : float;
  com_status : CommissionStatus;
  com_notes : option string;
  created_by : option ObjectId
}.

(** JavaScript's [x || d] on a Number: [0], [-0] and [NaN] are falsy. *)
Definition or_else (x d : float) : float :=
  if (PrimFloat.eqb x 0 || PrimFloat.is_nan x)%bool then d else x.

(** The Number a whole rule value denotes. *)
Definition float_of_Z (z : Z) : float :=
  SF2Prim (binary_normalize prec emax z 0 false).

Module CommissionModel.

(** [{ rate, amount }] *)
Record Calculated := mkCalculated { calc_rate : float; calc_amount : float }.

(** [commissionSchema.statics.calculateCommission]; an omitted rate
    argument ([None]) takes the parameter default. *)
Definition calculateCommission (propertyPrice : float) (commissionType : string)
           (adderRate sellerRate : option float) : Exn + Calculated :=
  let adderRate := match adderRate with Some r => r | None => 1.5%float end in
  let sellerRate := match sellerRate with Some r => r | None => 2.5%float end in
  let rate :=
    if String.eqb commissionType "adder" then Some adderRate
    else if String.eqb commissionType "seller" then Some sellerRate
    else if String.eqb commissionType "adder_seller" then Some (adderRate + sellerRate)%float
    else None in
  match rate with
  | None => inl (Error "Invalid commission type")
  | Some rate =>
      let amount := ((propertyPrice * rate) / 100)%float in
      inr (mkCalculated rate amount)
  end.

(** Schema validation of a new commission: [property_price] and
    [amount] have [min: 0], [rate] has [min: 0, max: 100],
    [commission_type] is one of the enum. *)
Definition valid (c : Commission) : option string :=
  if negb (PrimFloat.leb 0 (property_price c)) then Some "property_price"
  else if negb (existsb (String.eqb (commission_type c)) ["adder"; "seller"; "adder_seller"])
  then Some "commission_type"
  else if negb (PrimFloat.leb 0 (rate c) && PrimFloat.leb (rate c) 100) then Some "rate"
  else if negb (PrimFloat.leb 0 (amount c)) then Some "amount"
  else None.

End CommissionModel.

(** The whole numbers [lo], [lo + 1], ..., [n] of them. *)
Definition whole_numbers (lo : Z) (n : nat) : list Z :=
  map (fun i => lo + Z.of_nat i) (seq 0 n).

(** The prices in whole lakhs (1,00,000) up to 10 crore. *)
Definition lakh_prices : list float :=
  map (fun k => float_of_Z (k * 100000)) (whole_numbers 1 1000).

(** The rates from 0 to 100 in steps of 0.5. *)
Definition half_step_rates : list float :=
  map (fun h => (float_of_Z h / 2)%float) (whole_numbers 0 201).

(** Whether [p * (a + s) / 100] and [p * a / 100 + p * s / 100] are
    the same Number. *)
Definition amounts_add_up (p a s : float) : bool :=
  PrimFloat.Leibniz.eqb ((p * (a + s)) / 100)%float
                        ((p * a) / 100 + (p * s) / 100)%float.

(** ** The store: the five collections *)

Record Store := mkStore {
  properties : list Property;
  carts : list Cart;
  rules : list Rule;
  commissions : list Commission;
  notifications : list Notification
}.

Definition set_properties (st : Store) (l : list Property) : Store :=
  mkStore l (carts st) (rules st) (commissions st) (notifications st).

Definition set_carts (st : Store) (l : list Cart) : Store :=
  mkStore (properties st) l (rules st) (commissions st) (notifications st).

Definition has_id (propertyId : ObjectId) (p : Property) : bool :=
  String.eqb (prop_id p) propertyId.

Definition of_buyer (buyerId : ObjectId) (c : Cart) : bool :=
  String.eqb (buyer c) buyerId.

(** [Property.findById(propertyId)] *)
Definition findById (st : Store) (propertyId : ObjectId) : option Property :=
  find (has_id propertyId) (properties st).

(** [property.save()] after an assignment to [cart_status], and
    [Property.findByIdAndUpdate(id, ...)] on [cart_status] paths: the
    stored document's [cart_status] becomes [f] of what is stored. *)
Definition update_cart_status (st : Store) (propertyId : ObjectId)
           (f : CartStatus -> CartStatus) : Store :=
  set_properties st
    (update_first (has_id propertyId)
       (fun p => set_cart_status (f (cart_status p)) p) (properties st)).

(** [Cart.findOne({ buyer: buyerId })] *)
Definition findCart (st : Store) (buyerId : ObjectId) : option Cart :=
  find (of_buyer buyerId) (carts st).

(** [cart.save()] of a document that was found in the collection; the
    stored document is addressed by its buyer, which the schema's
    unique index makes as good as its [_id]. *)
Definition save_cart (st : Store) (cart : Cart) : Store :=
  set_carts st (update_first (of_buyer (buyer cart)) (fun _ => cart) (carts st)).

(** [Rule.getRule(ruleType, conditions)]: the conditions are ignored. *)
Definition getRule (st : Store) (ruleType : string) : option Rule :=
  find (fun r => String.eqb (rule_type r) ruleType && is_active r) (rules st).

(** [rule?.value || d] *)
Definition value_or (r : option Rule) (d : Z) : Z :=
  match r with
  | Some r => if value r =? 0 then d else value r
  | None => d
  end.

(** [Notification.createNotification(userId, type, title, message,
    { property_id })]: [create] validates [type] against the enum. *)
Definition createNotification (st : Store) (userId : ObjectId) (type title : string)
           (propertyId : ObjectId) : Outcome * Store :=
  if existsb (String.eqb type) notification_types then
    (Resolved,
     mkStore (properties st) (carts st) (rules st) (commissions st)
             (notifications st ++ [mkNotification userId type title propertyId]))
  else (Threw (ValidationError "Notification" "type"), st).

(** [Commission.create(doc)] *)
Definition createCommission (st : Store) (c : Commission) : Outcome * Store :=
  match CommissionModel.valid c with
  | Some path => (Threw (ValidationError "Commission" path), st)
  | None =>
      (Resolved,
       mkStore (properties st) (carts st) (rules st) (commissions st ++ [c])
               (notifications st))
  end.

(** ** Handler bodies: store passing with exceptions *)

(** The body of an async handler: it reads and writes the store and
    either produces a value or throws; what was written before a throw
    stays written. *)
Definition Action (A : Type) : Type := Store -> (Exn + A) * Store.

Definition ret {A : Type} (a : A) : Action A := fun st => (inr a, st).

Definition bind {A B : Type} (m : Action A) (k : A -> Action B) : Action B :=
  fun st =>
    match m st with
    | (inl e, st') => (inl e, st')
    | (inr a, st') => k a st'
    end.

Definition throw {A : Type} (e : Exn) : Action A := fun st => (inl e, st).

(** A read-only query. *)
Definition query {A : Type} (f : Store -> A) : Action A := fun st => (inr (f st), st).

(** A write that cannot fail. *)
Definition write (f : Store -> Store) : Action unit := fun st => (inr tt, f st).

(** [await] of a model call that may reject. *)
Definition await (f : Store -> Outcome * Store) : Action unit :=
  fun st =>
    match f st with
    | (Resolved, st') => (inr tt, st')
    | (Threw e, st') => (inl e, st')
    end.

Notation "x <- m ;; k" := (bind m (fun x => k))
  (at level 61, m at next level, right associativity).
Notation "m ;;; k" := (bind m (fun _ => k))
  (at level 61, right associativity).

(** [try { body } catch (error) { handler(error) }] *)
Definition try_catch (body : Action Response) (handler : Exn -> Response)
  : Store -> Response * Store :=
  fun st =>
    match body st with
    | (inl e, st') => (handler e, st')
    | (inr r, st') => (r, st')
    end.

(** [res.status(500).json({ success: false, message: error.message })] *)
Definition status500 (e : Exn) : Response := Caught 500 e.

(** Validation of the [settings] of a new cart: [max_properties] in
    1..10, [visit_window_days] in 1..30, [booking_window_days] in 1..180. *)
Definition settings_invalid (s : Settings) : option string :=
  if negb ((1 <=? max_properties s) && (max_properties s <=? 10))
  then Some "settings.max_properties"
  else if negb ((1 <=? visit_window_days s) && (visit_window_days s <=? 30))
  then Some "settings.visit_window_days"
  else if negb ((1 <=? booking_window_days s) && (booking_window_days s <=? 180))
  then Some "settings.booking_window_days"
  else None.

(** [Cart.create({ buyer, settings })] *)
Definition createCart (buyerId : ObjectId) (s : Settings) : Action Cart :=
  match settings_invalid s with
  | Some path => throw (ValidationError "Cart" path)
  | None =>
      let cart := mkCart buyerId [] s in
      write (fun st => set_carts st (carts st ++ [cart])) ;;; ret cart
  end.

(** ** Buyer controller (controllers/buyerController.js) *)

Module BuyerController.

(** [cart.canAddProperty()]: the Cart schema defines the methods
    [isPropertyInCart], [addItem], [removeItem], [scheduleVisit],
    [confirmVisit] and [checkExpiredItems] and no [canAddProperty], so
    the call of the undefined property throws. *)
Definition canAddProperty (cart : Cart) : Action bool :=
  throw (TypeError "cart.canAddProperty is not a function").

(** The filter [{ _id: propertyId, status: 'live',
    'cart_status.in_cart': false }] *)
Definition available (propertyId : ObjectId) (p : Property) : bool :=
  has_id propertyId p && PropertyStatus_eqb (prop_status p) live
  && negb (in_cart (cart_status p)).

(** First await of [addToCart]: [Property.findOne] with the filter. *)
Definition addToCart_find (propertyId : ObjectId) : Action (option Property) :=
  query (fun st => find (available propertyId) (properties st)).

Definition capacity_message (cart : Cart) : string :=
  ("You can only add " ++ string_of_Z (max_properties (settings cart))
    ++ " properties to cart. Please remove some items first.")%string.

(** The rest of [addToCart], entered with the document the first await
    returned. *)
Definition addToCart_rest (userId propertyId : ObjectId) (now : Time)
           (property : Property) : Action Response :=
  found <- query (fun st => findCart st userId) ;;
  cart <- match found with
          | Some cart => ret cart
          | None =>
              cartRules <- query (fun st => getRule st "cart_max_properties") ;;
              visitRule <- query (fun st => getRule st "visit_window_days") ;;
              bookingRule <- query (fun st => getRule st "booking_window_days") ;;
              createCart userId
                (mkSettings (value_or cartRules 5) (value_or visitRule 7)
                            (value_or bookingRule 60))
          end ;;
  canAdd <- canAddProperty cart ;;
  if negb canAdd then
    ret (Json 400 false (capacity_message cart))
  else
    let cart' :=
      set_items cart
        (items cart ++
         [new_item propertyId now
            (Some (now + booking_window_days (settings cart) * 24 * 60 * 60 * 1000))]) in
    write (fun st => save_cart st cart') ;;;
    write (fun st => update_cart_status st (prop_id property)
                       (fun _ => locked_by userId now)) ;;;
    await (fun st => createNotification st userId "property_added_to_cart"
                       "Property Added to Cart" (prop_id property)) ;;;
    await (fun st => createNotification st (seller property) "property_lock"
                       "Property Locked" (prop_id property)) ;;;
    match broker property with
    | Some b => await (fun st => createNotification st b "property_lock"
                                   "Property in Buyer Cart" (prop_id property))
    | None => ret tt
    end ;;;
    ret (Json 200 true "Property added to cart successfully").

(** What [addToCart] does once the first await has settled. *)
Definition addToCart_after (userId propertyId : ObjectId) (now : Time)
           (property : option Property) : Action Response :=
  match property with
  | None => ret (Json 404 false "Property not available for cart")
  | Some property => addToCart_rest userId propertyId now property
  end.

(** [exports.addToCart] *)
Definition addToCart (userId propertyId : ObjectId) (now : Time)
  : Store -> Response * Store :=
  try_catch
    (property <- addToCart_find propertyId ;;
     addToCart_after userId propertyId now property)
    status500.

(** [exports.removeFromCart] *)
Definition removeFromCart (userId propertyId : ObjectId)
  : Store -> Response * Store :=
  try_catch
    (cart <- query (fun st => findCart st userId) ;;
     match cart with
     | None => ret (Json 404 false "Cart not found")
     | Some cart =>
         match findIndex (active_for propertyId) (items cart) with
         | None => ret (Json 404 false "Item not found in cart")
         | Some itemIndex =>
             write (fun st => save_cart st (set_items cart (splice1 itemIndex (items cart)))) ;;;
             write (fun st => update_cart_status st propertyId clear_holder) ;;;
             property <- query (fun st => findById st propertyId) ;;
             match property with
             | Some property =>
                 await (fun st => createNotification st (seller property) "property_unlock"
                                    "Property Unlocked" (prop_id property))
             | None => ret tt
             end ;;;
             ret (Json 200 true "Property removed from cart")
         end
     end)
    status500.

(** The assignments of [confirmVisit] to the cart item. *)
Definition confirm_item (userId : ObjectId) (now : Time) (it : Item) : Item :=
  mkItem (item_property it) (item_added_at it) (item_status it) VConfirmed
         (Some now) (Some userId) (item_confirmation_method it) (Some now)
         (item_booking_window_end it) (item_notes it).

(** The update of the property's mirror in [confirmVisit]. *)
Definition confirm_lock (now : Time) (bwe : option Time) (cs : CartStatus) : CartStatus :=
  mkCartStatus (in_cart cs) (buyer_id cs) (added_at cs) true (Some now) (Some now) bwe.

(** [exports.confirmVisit] *)
Definition confirmVisit (userId propertyId : ObjectId) (now : Time)
  : Store -> Response * Store :=
  try_catch
    (cart <- query (fun st => findCart st userId) ;;
     match cart with
     | None => ret (Json 404 false "Cart not found")
     | Some cart =>
         match find (active_for propertyId) (items cart) with
         | None => ret (Json 404 false "Property not found in cart")
         | Some cartItem =>
             let visitExpiry :=
               setDate_plus (item_added_at cartItem) (visit_window_days (settings cart)) in
             if now >? visitExpiry then
               ret (Json 400 false "Visit window has expired")
             else
               write (fun st =>
                 save_cart st
                   (set_items cart
                      (update_first (active_for propertyId) (confirm_item userId now)
                                    (items cart)))) ;;;
               write (fun st =>
                 update_cart_status st propertyId
                   (confirm_lock now (item_booking_window_end cartItem))) ;;;
               property <- query (fun st => findById st propertyId) ;;
               match property with
               | Some property =>
                   await (fun st => createNotification st userId "visit_confirmed"
                                      "Visit Confirmed" (prop_id property)) ;;;
                   await (fun st => createNotification st (seller property) "visit_confirmed"
                                      "Visit Confirmed" (prop_id property)) ;;;
                   match broker property with
                   | Some b => await (fun st => createNotification st b "visit_confirmed"
                                                  "Visit Confirmed" (prop_id property))
                   | None => ret tt
                   end
               | None => ret tt
               end ;;;
               ret (Json 200 true "Visit confirmed successfully")
         end
     end)
    status500.

End BuyerController.

(** ** Broker controller (controllers/brokerController.js) *)

Module BrokerController.

(** The assignments of [confirmVisit] to the cart item. *)
Definition confirm_item (userId : ObjectId) (now : Time) (it : Item) : Item :=
  mkItem (item_property it) (item_added_at it) (item_status it) VConfirmed
         (Some now) (Some userId) (item_confirmation_method it) (Some now)
         (item_booking_window_end it) (item_notes it).

(** The assignments of [confirmVisit] to [property.cart_status]. *)
Definition confirm_lock (now : Time) (cs : CartStatus) : CartStatus :=
  mkCartStatus (in_cart cs) (buyer_id cs) (added_at cs) true (Some now) (Some now)
               (booking_window_end cs).

(** The seller commission of [confirmVisit]: the rate is
    [sellerRule?.value || 2]. *)
Definition seller_commission (userId : ObjectId) (property : Property)
           (sellerRule : option Rule) : Commission :=
  let rate := float_of_Z (value_or sellerRule 2) in
  mkCommission userId (prop_id property) (price property) "seller" rate
               ((price property * rate) / 100)%float com_pending None None.

(** [exports.confirmVisit]; [userId] is the broker of the session. *)
Definition confirmVisit (userId propertyId buyerId : ObjectId) (now : Time)
  : Store -> Response * Store :=
  try_catch
    (cart <- query (fun st => findCart st buyerId) ;;
     match cart with
     | None => ret (Json 404 false "Cart not found")
     | Some cart =>
         match find (active_for propertyId) (items cart) with
         | None => ret (Json 404 false "Property not found in cart")
         | Some cartItem =>
             property <- query (fun st => findById st propertyId) ;;
             match property with
             | None => throw (TypeError "Cannot read properties of null (reading 'broker')")
             | Some property =>
                 match broker property with
                 | None =>
                     throw (TypeError "Cannot read properties of undefined (reading 'toString')")
                 | Some b =>
                     if negb (String.eqb b userId) then
                       ret (Json 403 false "Not authorized to confirm visit for this property")
                     else
                       write (fun st =>
                         save_cart st
                           (set_items cart
                              (update_first (active_for propertyId)
                                            (confirm_item userId now) (items cart)))) ;;;
                       write (fun st =>
                         update_cart_status st (prop_id property) (confirm_lock now)) ;;;
                       (if negb (String.eqb (added_by_user property) userId) then
                          sellerRule <- query (fun st => getRule st "commission_seller") ;;
                          await (fun st =>
                            createCommission st (seller_commission userId property sellerRule))
                        else ret tt) ;;;
                       await (fun st => createNotification st buyerId "visit_confirmed"
                                          "Visit Confirmed by Broker" (prop_id property)) ;;;
                       await (fun st => createNotification st (seller property) "visit_confirmed"
                                          "Visit Confirmed" (prop_id property)) ;;;
                       ret (Json 200 true "Visit confirmed successfully")
                 end
             end
         end
     end)
    status500.

End BrokerController.

(** ** Broker router (routes/broker.js): POST /api/visits/:propertyId/confirm *)

Module BrokerRoutes.

(** The filter [{ 'items.property': propertyId, 'items.status':
    'active' }]: each condition is met by some element of the array. *)
Definition in_active_cart (propertyId : ObjectId) (c : Cart) : bool :=
  existsb (fun it => String.eqb (item_property it) propertyId) (items c)
  && existsb status_active (items c).

Definition confirm_item (userId : ObjectId) (method : Method) (notes : option string)
           (now : Time) (it : Item) : Item :=
  mkItem (item_property it) (item_added_at it) (item_status it) VConfirmed
         (Some now) (Some userId) (Some method) (Some now)
         (Some (now + 60 * 24 * 60 * 60 * 1000)) notes.

Definition confirm_lock (now : Time) (cs : CartStatus) : CartStatus :=
  mkCartStatus (in_cart cs) (buyer_id cs) (added_at cs) true (Some now) (Some now)
               (Some (now + 60 * 24 * 60 * 60 * 1000)).

(** The commission document of the route, from what
    [Commission.calculateCommission] returned. *)
Definition seller_commission (userId : ObjectId) (property : Property)
           (commissionData : CommissionModel.Calculated) : Commission :=
  mkCommission userId (prop_id property) (price property) "seller"
               (CommissionModel.calc_rate commissionData)
               (CommissionModel.calc_amount commissionData) com_pending
               (Some "Visit confirmed by broker for property sale") (Some userId).

(** The handler; [userId] is the broker of the session. *)
Definition confirm (userId propertyId : ObjectId) (method : Method)
           (notes : option string) (now : Time) : Store -> Response * Store :=
  try_catch
    (property <- query (fun st =>
        find (fun p => has_id propertyId p
                       && match broker p with
                          | Some b => String.eqb b userId
                          | None => false
                          end) (properties st)) ;;
     match property with
     | None => ret (Json 404 false "Property not found or you are not the assigned broker")
     | Some property =>
         cart <- query (fun st => find (in_active_cart propertyId) (carts st)) ;;
         match cart with
         | None => ret (Json 400 false "Property not found in any active cart")
         | Some cart =>
             match find (active_for propertyId) (items cart) with
             | None => ret (Json 400 false "Cart item not found")
             | Some cartItem =>
                 let visitExpiry := setDate_plus (item_added_at cartItem) 7 in
                 if now >? visitExpiry then
                   ret (Json 400 false "Visit window has expired")
                 else
                   write (fun st =>
                     save_cart st
                       (set_items cart
                          (update_first (active_for propertyId)
                             (confirm_item userId method notes now) (items cart)))) ;;;
                   write (fun st =>
                     update_cart_status st (prop_id property) (confirm_lock now)) ;;;
                   (if negb (String.eqb (added_by_user property) userId)
                       || negb (Role_eqb (added_by_role property) broker_role)
                    then
                      match CommissionModel.calculateCommission
                              (price property) "seller"
                              (Some (or_else (commission_adder_rate property) 1.5))
                              (Some (or_else (commission_seller_rate property) 2.5)) with
                      | inl e => throw e
                      | inr commissionData =>
                          await (fun st =>
                            createCommission st
                              (seller_commission userId property commissionData))
                      end
                    else ret tt) ;;;
                   ret (Json 200 true "Visit confirmed successfully. Commission recorded.")
             end
         end
     end)
    status500.

End BrokerRoutes.

(** ** Buyer router (routes/buyer.js): POST /api/cart/add and /api/cart/remove *)

Module BuyerRoutes.

Definition limit_message (cart : Cart) : string :=
  ("Cart limit reached (max " ++ string_of_Z (max_properties (settings cart))
    ++ " properties)")%string.

(** The part of the add handler before its first write: every check. *)
Definition add_checks (userId propertyId : ObjectId)
  : Action (Response + Property * Cart * bool) :=
  if String.eqb propertyId "" then ret (inl (Json 400 false "Property ID is required"))
  else
    property <- query (fun st => findById st propertyId) ;;
    match property with
    | None => ret (inl (Json 404 false "Property not found"))
    | Some property =>
        if in_cart (cart_status property) then
          ret (inl (Json 400 false "Property is already in another buyer's cart"))
        else if negb (PropertyStatus_eqb (prop_status property) live) then
          ret (inl (Json 400 false "Property is not available for cart"))
        else
          found <- query (fun st => findCart st userId) ;;
          let cart := match found with
                      | Some cart => cart
                      | None => mkCart userId [] (mkSettings 5 7 60)
                      end in
          let isNew := match found with Some _ => false | None => true end in
          let activeItems := filter status_active (items cart) in
          if Z.of_nat (List.length activeItems) >=? max_properties (settings cart) then
            ret (inl (Json 400 false (limit_message cart)))
          else if existsb (fun it => String.eqb (item_property it) propertyId) activeItems then
            ret (inl (Json 400 false "Property is already in your cart"))
          else ret (inr (property, cart, isNew))
    end.

(** The writes of the add handler: the property's lock first, the cart
    second (inserted when [new Cart] made it). *)
Definition add_writes (userId propertyId : ObjectId) (now : Time)
           (property : Property) (cart : Cart) (isNew : bool) : Action Response :=
  write (fun st => update_cart_status st (prop_id property)
                     (fun _ => locked_by userId now)) ;;;
  let cart' := set_items cart (items cart ++ [new_item propertyId now None]) in
  write (fun st => if isNew then set_carts st (carts st ++ [cart'])
                   else save_cart st cart') ;;;
  ret (Json 200 true "Property added to cart. You have 7 days to schedule a visit.").

(** What the add handler does once its checks have settled. *)
Definition add_after (userId propertyId : ObjectId) (now : Time)
           (checked : Response + Property * Cart * bool) : Action Response :=
  match checked with
  | inl response => ret response
  | inr (property, cart, isNew) => add_writes userId propertyId now property cart isNew
  end.

(** [console.error(...); res.status(500).json({ success: false,
    message: 'Failed to add to cart' })] *)
Definition add_failed (e : Exn) : Response := Json 500 false "Failed to add to cart".

(** The add handler. *)
Definition add (userId propertyId : ObjectId) (now : Time)
  : Store -> Response * Store :=
  try_catch
    (checked <- add_checks userId propertyId ;;
     add_after userId propertyId now checked)
    add_failed.

(** The remove handler. *)
Definition remove (userId propertyId : ObjectId) : Store -> Response * Store :=
  try_catch
    (if String.eqb propertyId "" then ret (Json 400 false "Property ID is required")
     else
       cart <- query (fun st => findCart st userId) ;;
       match cart with
       | None => ret (Json 400 false "Cart not found")
       | Some cart =>
           match findIndex (active_for propertyId) (items cart) with
           | None => ret (Json 400 false "Property not found in cart")
           | Some itemIndex =>
               write (fun st =>
                 save_cart st
                   (set_items cart
                      (update_at itemIndex (set_item_status Removed) (items cart)))) ;;;
               write (fun st => update_cart_status st propertyId (fun _ => unlocked)) ;;;
               ret (Json 200 true "Property removed from cart")
           end
       end)
    (fun _ => Json 500 false "Failed to remove from cart").

End BuyerRoutes.

(** ** Cleanup services *)

(** [field: { $lt: bound }] on an optional date. *)
Definition lt_date (field : option Time) (bound : Time) : bool :=
  match field with
  | Some t => t <? bound
  | None => false
  end.

(** The filter [{ in_cart: true, visit_confirmed: false, added_at:
    { $lt: sevenDaysAgo } }] on [cart_status]. *)
Definition visit_window_lapsed (sevenDaysAgo : Time) (p : Property) : bool :=
  in_cart (cart_status p) && negb (visit_confirmed (cart_status p))
  && lt_date (added_at (cart_status p)) sevenDaysAgo.

(** The filter [{ in_cart: true, visit_confirmed: true,
    booking_window_end: { $lt: now } }] on [cart_status]. *)
Definition booking_window_lapsed (now : Time) (p : Property) : bool :=
  in_cart (cart_status p) && visit_confirmed (cart_status p)
  && lt_date (booking_window_end (cart_status p)) now.

(** Unlock what the filter selects: [in_cart = false], [buyer_id = null]. *)
Definition unlock_where (sel : Property -> bool) (l : list Property) : list Property :=
  map (fun p => if sel p then set_cart_status (clear_holder (cart_status p)) p else p) l.

Module SimpleCleanupService.

(** [cleanupExpiredItems]: two [Property.updateMany]. *)
Definition cleanupExpiredItems (now : Time) (st : Store) : Store :=
  let sevenDaysAgo := now - 7 * 24 * 60 * 60 * 1000 in
  let st1 := set_properties st (unlock_where (visit_window_lapsed sevenDaysAgo) (properties st)) in
  set_properties st1 (unlock_where (booking_window_lapsed now) (properties st1)).

End SimpleCleanupService.

Module CartCleanupService.

(** [cleanupExpiredItems]: [Cart.cleanExpiredItems()], then the
    properties past the seven days are unlocked one by one. *)
Definition cleanupExpiredItems (now : Time) (st : Store) : Store :=
  let st1 := set_carts st (fst (CartModel.cleanExpiredItems (carts st) now)) in
  let sevenDaysAgo := now - 7 * 24 * 60 * 60 * 1000 in
  set_properties st1 (unlock_where (visit_window_lapsed sevenDaysAgo) (properties st1)).

End CartCleanupService.

(** ** Requests in flight

    A handler whose body first reads ([reads]) and, after that await
    has settled, checks what it read and writes ([writes]).  Between the
    two the event loop may run another request.  Each phase is taken as
    one atomic step, so every interleaving below is one the real
    handlers admit. *)

Inductive Phase (A : Type) :=
| Issued
| HasRead (x : A)
| Answered (r : Response).
Arguments Issued {A}.
Arguments HasRead {A} x.
Arguments Answered {A} r.

(** One step of a request in flight. *)
Definition step {A : Type} (reads : Action A) (writes : A -> Action Response)
           (handler : Exn -> Response) (ph : Phase A) (st : Store)
  : Phase A * Store :=
  match ph with
  | Issued =>
      match reads st with
      | (inl e, st') => (Answered (handler e), st')
      | (inr x, st') => (HasRead x, st')
      end
  | HasRead x =>
      let '(r, st') := try_catch (writes x) handler st in (Answered r, st')
  | Answered r => (Answered r, st)
  end.

(** Whose turn it is. *)
Inductive Turn := FirstRequest | SecondRequest.

(** Two requests of one handler run under a schedule. *)
Fixpoint run {A : Type} (reads1 reads2 : Action A)
         (writes1 writes2 : A -> Action Response) (handler : Exn -> Response)
         (schedule : list Turn) (ph1 ph2 : Phase A) (st : Store)
  : Phase A * Phase A * Store :=
  match schedule with
  | [] => (ph1, ph2, st)
  | FirstRequest :: rest =>
      let '(ph1', st') := step reads1 writes1 handler ph1 st in
      run reads1 reads2 writes1 writes2 handler rest ph1' ph2 st'
  | SecondRequest :: rest =>
      let '(ph2', st') := step reads2 writes2 handler ph2 st in
      run reads1 reads2 writes1 writes2 handler rest ph1 ph2' st'
  end.

(** Two POST /api/cart/add requests of the buyer router for one property. *)
Definition run_add (userA userB propertyId : ObjectId) (nowA nowB : Time)
           (schedule : list Turn) (st : Store)
  : Phase (Response + Property * Cart * bool)
    * Phase (Response + Property * Cart * bool) * Store :=
  run (BuyerRoutes.add_checks userA propertyId)
      (BuyerRoutes.add_checks userB propertyId)
      (BuyerRoutes.add_after userA propertyId nowA)
      (BuyerRoutes.add_after userB propertyId nowB)
      BuyerRoutes.add_failed schedule Issued Issued st.

(** The first request runs to completion, then the second. *)
Definition one_after_the_other : list Turn :=
  [FirstRequest; FirstRequest; SecondRequest; SecondRequest].

(** Both requests read before either writes. *)
Definition reads_before_writes : list Turn :=
  [FirstRequest; SecondRequest; FirstRequest; SecondRequest].

(** ** The engine as a transition system *)

(** The operations of the reservation engine: reserve, confirm a visit
    and release through the buyer controller, the broker controller and
    the two routers, and a run of either cleanup service. *)
Inductive Request :=
| BuyerAddToCart (userId propertyId : ObjectId)
| BuyerRemoveFromCart (userId propertyId : ObjectId)
| BuyerConfirmVisit (userId propertyId : ObjectId)
| BrokerConfirmVisit (userId propertyId buyerId : ObjectId)
| RouteConfirm (userId propertyId : ObjectId) (method : Method) (notes : option string)
| RouteAdd (userId propertyId : ObjectId)
| RouteRemove (userId propertyId : ObjectId)
| SimpleCleanup
| CartCleanup.

(** The store after a request served at time [now]. *)
Definition serve (rq : Request) (now : Time) (st : Store) : Store :=
  match rq with
  | BuyerAddToCart userId propertyId =>
      snd (BuyerController.addToCart userId propertyId now st)
  | BuyerRemoveFromCart userId propertyId =>
      snd (BuyerController.removeFromCart userId propertyId st)
  | BuyerConfirmVisit userId propertyId =>
      snd (BuyerController.confirmVisit userId propertyId now st)
  | BrokerConfirmVisit userId propertyId buyerId =>
      snd (BrokerController.confirmVisit userId propertyId buyerId now st)
  | RouteConfirm userId propertyId method notes =>
      snd (BrokerRoutes.confirm userId propertyId method notes now st)
  | RouteAdd userId propertyId => snd (BuyerRoutes.add userId propertyId now st)
  | RouteRemove userId propertyId => snd (BuyerRoutes.remove userId propertyId st)
  | SimpleCleanup => SimpleCleanupService.cleanupExpiredItems now st
  | CartCleanup => CartCleanupService.cleanupExpiredItems now st
  end.

(** The interactive requests, as opposed to the two sweeps. *)
Definition interactive (rq : Request) : bool :=
  match rq with
  | SimpleCleanup | CartCleanup => false
  | _ => true
  end.

(** States reachable from [st0] by requests served one at a time. *)
Inductive reachable (st0 : Store) : Store -> Prop :=
| reachable_start : reachable st0 st0
| reachable_serve : forall (st : Store) (rq : Request) (now : Time),
    reachable st0 st -> reachable st0 (serve rq now st).

(** States reachable by interactive requests alone. *)
Inductive reachable_interactively (st0 : Store) : Store -> Prop :=
| interactively_start : reachable_interactively st0 st0
| interactively_serve : forall (st : Store) (rq : Request) (now : Time),
    interactive rq = true ->
    reachable_interactively st0 st -> reachable_interactively st0 (serve rq now st).

(** What the database guarantees: [_id] is unique among the properties
    and [buyer] is unique among the carts (the schema's unique index). *)
Definition well_formed (st : Store) : Prop :=
  NoDup (map prop_id (properties st)) /\ NoDup (map buyer (carts st)).

(** The number of active items that reference a property, over all
    carts. *)
Definition active_refs (cs : list Cart) (propertyId : ObjectId) : nat :=
  list_sum (map (fun c => List.length (filter (active_for propertyId) (items c))) cs).

(** The lock mirror agrees with the reservations: a property's
    [in_cart] is true exactly when one active item references it, and
    no property is referenced by two. *)
Definition lock_agrees (st : Store) : Prop :=
  forall p : Property,
    In p (properties st) ->
    (in_cart (cart_status p) = true <-> active_refs (carts st) (prop_id p) = 1%nat)
    /\ (active_refs (carts st) (prop_id p) <= 1)%nat.

(** The invariant as the specification states it: the flag is true if and only
    if exactly one active item references the property. *)
Definition flag_iff_one_active (st : Store) : Prop :=
  forall p : Property,
    In p (properties st) ->
    (in_cart (cart_status p) = true <-> active_refs (carts st) (prop_id p) = 1%nat).

(** How the items of a cart may change when no item leaves a non-active
    status: an item that is not active stays as it is and where it is
    relative to the others; an active item may change or be spliced
    out; new items may be pushed. *)
Inductive items_step : list Item -> list Item -> Prop :=
| items_pushed : forall l' : list Item, items_step [] l'
| items_kept : forall (it it' : Item) (l l' : list Item),
    (status_active it = false -> it' = it) ->
    items_step l l' -> items_step (it :: l) (it' :: l')
| items_spliced : forall (it : Item) (l l' : list Item),
    status_active it = true ->
    items_step l l' -> items_step (it :: l) l'.

(** The same over the cart collection: every cart stays its buyer's and
    its items change as above; new carts may be created. *)
Inductive carts_step : list Cart -> list Cart -> Prop :=
| carts_created : forall l' : list Cart, carts_step [] l'
| carts_kept : forall (c c' : Cart) (l l' : list Cart),
    buyer c' = buyer c ->
    items_step (items c) (items c') ->
    carts_step l l' -> carts_step (c :: l) (c' :: l').

(** ** The scenarios of the specification as stores *)

(** Property P of the scenarios: live, unlocked, priced 10,00,000,
    listed by its seller, with an assigned broker and no per-property
    commission rates (the schema default 0). *)
Definition scenario_property : Property :=
  mkProperty "P" live 1000000 "seller" "seller" seller_role (Some "broker")
             unlocked 0 0.

(** A store with P alone: no carts, no rules. *)
Definition scenario_store : Store := mkStore [scenario_property] [] [] [] [].

(** [n] days in milliseconds. *)
Definition days (n : Z) : Time := n * day_ms.

(** Scenario store after buyer A reserved P at t = 0 through POST
    /api/cart/add. *)
Definition reserved_store : Store :=
  snd (BuyerRoutes.add "buyerA" "P" 0 scenario_store).

(** The reserved scenario store after buyer A removed P through the buyer
    controller. *)
Definition released_store : Store :=
  snd (BuyerController.removeFromCart "buyerA" "P" reserved_store).

(** A live, unlocked property of the scenario's seller and broker. *)
Definition listed (id : ObjectId) : Property :=
  mkProperty id live 1000000 "seller" "seller" seller_role (Some "broker")
             unlocked 0 0.

(** Six live properties, P1 to P5 and P: no carts, no rules. *)
Definition six_properties_store : Store :=
  mkStore (map listed ["P1"; "P2"; "P3"; "P4"; "P5"; "P"]) [] [] [] [].

(** Scenario D: buyer A reserved P1 to P5 at t = 0 through POST
    /api/cart/add and so holds five active reservations with the
    limit 5; P is live and unlocked. *)
Definition full_store : Store :=
  fold_left (fun st id => snd (BuyerRoutes.add "buyerA" id 0 st))
            ["P1"; "P2"; "P3"; "P4"; "P5"] six_properties_store.

(** Buyer A's cart in Scenario D. *)
Definition full_cart : Cart :=
  mkCart "buyerA"
         [ new_item "P1" 0 None; new_item "P2" 0 None; new_item "P3" 0 None;
           new_item "P4" 0 None; new_item "P5" 0 None ]
         (mkSettings 5 7 60).

(** Three live properties and an active rule that sets the cart limit
    to 2. *)
Definition limit_two_store : Store :=
  mkStore (map listed ["P1"; "P2"; "P3"]) []
          [mkRule "cart_max_properties" 2 true] [] [].

(** Scenario A: the reserved scenario store after the cart cleanup
    service ran on day 8. *)
Definition swept_store : Store :=
  serve CartCleanup (days 8) reserved_store.

(** The reserved scenario store after the simple cleanup service ran on
    day 8. *)
Definition simply_swept_store : Store :=
  serve SimpleCleanup (days 8) reserved_store.

(** * The rest of the models, routes and controllers *)

(** ** Cart model: the virtuals and [scheduleVisit] *)

(** [visit_type] enum of a cart item; a request carries a member of the
    enum. *)
Inductive VisitType := in_person | virtual_visit | broker_accompanied.

(** The [visitData] argument of [scheduleVisit]. *)
Record VisitData := mkVisitData {
  vd_scheduled_date : option Time;
  vd_scheduled_time : option string;
  vd_visit_type : option VisitType;
  vd_phone_number : option string;
  vd_special_requests : option string;
  vd_notes : option string
}.

Module CartSchema.

(** [cartSchema.virtual('activeItems')] *)
Definition activeItems (this : Cart) : Z :=
  Z.of_nat (List.length (filter status_active (items this))).

(** [cartSchema.virtual('pendingVisits')] *)
Definition pendingVisits (this : Cart) : Z :=
  Z.of_nat (List.length
    (filter (fun item => status_active item
                         && VisitStatus_eqb (item_visit_status item) VPending)
            (items this))).

(** [cartSchema.virtual('confirmedVisits')] *)
Definition confirmedVisits (this : Cart) : Z :=
  Z.of_nat (List.length
    (filter (fun item => status_active item
                         && VisitStatus_eqb (item_visit_status item) VConfirmed)
            (items this))).

(** The assignments of a successful scheduling.  [visit_status] and
    [notes] are fields of [Item]; [scheduled_date], [scheduled_time],
    [visit_type], [phone_number] and [special_requests] are written to
    fields of the sub-document that [Item] leaves out. *)
Definition schedule_item (visitData : VisitData) (it : Item) : Item :=
  mkItem (item_property it) (item_added_at it) (item_status it) VScheduled
         (item_visit_confirmed_at it) (item_confirmed_by it)
         (item_confirmation_method it) (item_booking_window_start it)
         (item_booking_window_end it) (vd_notes visitData).

(** [cartSchema.methods.scheduleVisit] *)
Definition scheduleVisit (this : Cart) (propertyId : ObjectId)
           (visitData : VisitData) (now : Time) : Outcome * Cart :=
  match find (active_for propertyId) (items this) with
  | None => (Threw (Error "Property not found in cart"), this)
  | Some item =>
      let visitExpiry :=
        setDate_plus (item_added_at item) (visit_window_days (settings this)) in
      if now >? visitExpiry then
        (Threw (Error "Visit window has expired"),
         set_items this (update_first (active_for propertyId) expire_visit (items this)))
      else
        (Resolved,
         set_items this
           (update_first (active_for propertyId) (schedule_item visitData) (items this)))
  end.

End CartSchema.

(** The cart holds no more active items than its [max_properties]. *)
Definition within_limit (c : Cart) : Prop :=
  CartSchema.activeItems c <= max_properties (settings c).

(** No property has two active items in the cart. *)
Definition one_item_each (c : Cart) : Prop :=
  forall propertyId : ObjectId,
    (List.length (filter (active_for propertyId) (items c)) <= 1)%nat.

(** ** Buyer router (routes/buyer.js): scheduling a visit and the cart count *)

(** What a page route answers: [res.status(status).render('error',
    { title, message })], or the page it was asked for with the
    [daysLeft] it shows. *)
Inductive Page :=
| ErrorPage (status : Z) (title message : string)
| VisitPage (daysLeft : Z).

(** [Math.ceil(ms / (1000 * 60 * 60 * 24))] of a difference of two time
    values.  The division is exact in whole numbers for every
    difference below 2^53, where the quotient of the two Numbers
    rounds to a value on the same side of every whole number. *)
Definition ceil_days (ms : Z) : Z := - ((- ms) / (1000 * 60 * 60 * 24)).

Module BuyerVisitRoutes.

(** POST /api/visit/schedule.  Of the four assignments to the item
    only [visit_status] names a path of the item schema;
    [visit_scheduled], [visit_date] and [visit_notes] are no paths of
    it and are not persisted by [cart.save()]. *)
Definition schedule (userId propertyId visitDate visitTime : string)
           (notes : option string) : Store -> Response * Store :=
  try_catch
    (if String.eqb propertyId "" || String.eqb visitDate "" || String.eqb visitTime ""
     then ret (Json 400 false "Visit date and time are required")
     else
       cart <- query (fun st => findCart st userId) ;;
       match cart with
       | None => ret (Json 400 false "Cart not found")
       | Some cart =>
           match find (active_for propertyId) (items cart) with
           | None => ret (Json 400 false "Property not found in cart")
           | Some cartItem =>
               write (fun st =>
                 save_cart st
                   (set_items cart
                      (update_first (active_for propertyId)
                         (set_item_visit_status VScheduled) (items cart)))) ;;;
               ret (Json 200 true "Visit scheduled successfully")
           end
       end)
    (fun _ => Json 500 false "Failed to schedule visit").

(** GET /api/cart/count: the [cartCount] of the answer. *)
Definition cart_count (userId : ObjectId) (st : Store) : Z :=
  match findCart st userId with
  | Some cart => Z.of_nat (List.length (filter status_active (items cart)))
  | None => 0
  end.

(** The filter [{ buyer, 'items.property': propertyId, 'items.status':
    'active' }]: each condition on the items is met by some element. *)
Definition holds_in_cart (userId propertyId : ObjectId) (c : Cart) : bool :=
  of_buyer userId c
  && existsb (fun it => String.eqb (item_property it) propertyId) (items c)
  && existsb status_active (items c).

(** GET /schedule-visit/:propertyId *)
Definition schedule_visit_page (userId propertyId : ObjectId) (now : Time)
           (st : Store) : Page :=
  match findById st propertyId with
  | None => ErrorPage 404 "Property Not Found" "The requested property does not exist."
  | Some property =>
      match find (holds_in_cart userId (prop_id property)) (carts st) with
      | None => ErrorPage 400 "Cannot Schedule Visit"
                          "Property must be in your cart to schedule a visit."
      | Some cart =>
          match find (fun item => String.eqb (item_property item) (prop_id property))
                     (items cart) with
          | None => ErrorPage 400 "Cannot Schedule Visit"
                              "Property not found in your cart."
          | Some cartItem =>
              let visitExpiry := setDate_plus (item_added_at cartItem) 7 in
              let daysLeft := ceil_days (visitExpiry - now) in
              if daysLeft <=? 0 then
                ErrorPage 400 "Visit Window Expired"
                  "The 7-day visit window has expired. Property has been removed from your cart."
              else VisitPage daysLeft
          end
      end
  end.

End BuyerVisitRoutes.

(** Every cart of the store is within its limit. *)
Definition carts_within_limits (st : Store) : Prop :=
  forall c : Cart, In c (carts st) -> within_limit c.

(** The operations of the engine together with the scheduling of a
    visit, each with the time it is served at. *)
Inductive Call :=
| Engine (rq : Request) (now : Time)
| ScheduleVisit (userId propertyId visitDate visitTime : string) (notes : option string).

Definition call (st : Store) (c : Call) : Store :=
  match c with
  | Engine rq now => serve rq now st
  | ScheduleVisit userId propertyId visitDate visitTime notes =>
      snd (BuyerVisitRoutes.schedule userId propertyId visitDate visitTime notes st)
  end.

(** Every call but the buyer controller's [addToCart], whose capacity
    check calls a method the Cart model does not define. *)
Definition in_sources (c : Call) : bool :=
  match c with
  | Engine (BuyerAddToCart _ _) _ => false
  | _ => true
  end.

(** ** Seller router (routes/seller.js): unlocking and deleting a property *)

(** [arr] without its first element that satisfies [p]: what is left of
    a collection after [findByIdAndDelete]. *)
Fixpoint remove_first {A : Type} (p : A -> bool) (l : list A) : list A :=
  match l with
  | [] => []
  | x :: r => if p x then r else x :: remove_first p r
  end.

Module SellerRoutes.

(** The filter [{ _id: id, seller: req.user.id }] *)
Definition owned (userId id : ObjectId) (p : Property) : bool :=
  has_id id p && String.eqb (seller p) userId.

(** [propertyObj.isVisitPending()]: the Property schema
    (models/Property.js) defines no method of that name, so the call
    throws a TypeError. *)
Definition isVisitPending (propertyObj : Property) : Action bool :=
  throw (TypeError "propertyObj.isVisitPending is not a function").

(** [propertyObj.isBookingWindowActive()]: not defined by the Property
    schema either. *)
Definition isBookingWindowActive (propertyObj : Property) : Action bool :=
  throw (TypeError "propertyObj.isBookingWindowActive is not a function").

(** POST /api/properties/:id/unlock *)
Definition unlock (userId id : ObjectId) : Store -> Response * Store :=
  try_catch
    (property <- query (fun st => find (owned userId id) (properties st)) ;;
     match property with
     | None => ret (Json 404 false "Property not found")
     | Some property =>
         if negb (in_cart (cart_status property)) then
           ret (Json 400 false "Property is not locked in cart")
         else
           visitPending <- isVisitPending property ;;
           blocked <- (if visitPending : bool then ret true
                       else isBookingWindowActive property) ;;
           if blocked : bool then
             ret (Json 400 false
                    "Cannot unlock property while visit/booking window is active")
           else
             write (fun st => update_cart_status st (prop_id property)
                                (fun _ => unlocked)) ;;;
             ret (Json 200 true "Property unlocked successfully")
     end)
    (fun _ => Json 500 false "Failed to unlock property").

(** POST /properties/:id/delete; the images of the property, which the
    handler removes from the image host first, are outside the store. *)
Definition delete (userId id : ObjectId) : Store -> Response * Store :=
  try_catch
    (property <- query (fun st => find (owned userId id) (properties st)) ;;
     match property with
     | None => ret (Json 404 false "Property not found")
     | Some property =>
         if in_cart (cart_status property) then
           ret (Json 400 false "Cannot delete property while it is in a buyer's cart")
         else
           write (fun st => set_properties st (remove_first (has_id id) (properties st))) ;;;
           ret (Json 200 true "Property deleted successfully")
     end)
    (fun _ => Json 500 false "Failed to delete property").

End SellerRoutes.

(** How a run of a cleanup service may leave a property: untouched, or,
    if it was locked, with [in_cart] and [buyer_id] cleared. *)
Definition released (p p' : Property) : Prop :=
  p' = p
  \/ (in_cart (cart_status p) = true
      /\ p' = set_cart_status (clear_holder (cart_status p)) p).

(** ** Property model (models/Property.js): the approval lifecycle *)

(** A JavaScript string whose length and white space matter (the
    reason of a rejection or suspension): the sequence of its UTF-16
    code units, which is what [length] counts. *)
Definition JsString : Type := list Z.

(** The code units of a string of ASCII characters. *)
Definition js (s : string) : JsString :=
  map (fun c => Z.of_nat (Ascii.nat_of_ascii c)) (list_ascii_of_string s).

(** The white space and line terminators [String.prototype.trim]
    strips: TAB, LF, VT, FF, CR, the space, U+00A0, U+1680, U+2000 to
    U+200A, U+2028, U+2029, U+202F, U+205F, U+3000 and U+FEFF. *)
Definition is_space (c : Z) : bool :=
  ((9 <=? c) && (c <=? 13)) || (c =? 32) || (c =? 160) || (c =? 5760)
  || ((8192 <=? c) && (c <=? 8202)) || (c =? 8232) || (c =? 8233)
  || (c =? 8239) || (c =? 8287) || (c =? 12288) || (c =? 65279).

Fixpoint trim_start (l : JsString) : JsString :=
  match l with
  | [] => []
  | c :: r => if is_space c then trim_start r else l
  end.

(** [s.trim()] *)
Definition trim (s : JsString) : JsString :=
  rev (trim_start (rev (trim_start s))).

(** [!reason || reason.trim().length < 10]; a reason, when given, is a
    string, and the empty string is falsy. *)
Definition reason_too_short (reason : option JsString) : bool :=
  match reason with
  | None => true
  | Some r =>
      match r with [] => true | _ :: _ => false end
      || (Z.of_nat (List.length (trim r)) <? 10)
  end.

Definition set_status (s : PropertyStatus) (p : Property) : Property :=
  mkProperty (prop_id p) s (price p) (seller p) (added_by_user p)
             (added_by_role p) (broker p) (cart_status p) (commission_adder_rate p)
             (commission_seller_rate p).

Module PropertyModel.

Inductive Visibility := public | private | hidden.

Inductive ApprovalStatus :=
| approval_pending | approval_approved | approval_rejected | needs_revision.

(** An element of [images]. *)
Record Image := mkImage {
  url : string;
  is_primary : bool;
  order : option Z;
  image_approved : bool
}.

(** The Property document with its approval fields: [doc] holds the
    paths the reservation engine reads ([status] among them), the other
    fields are the paths of approval, visibility and media. *)
Record Listing := mkListing {
  doc : Property;
  approval_status : ApprovalStatus;
  approved_by : option ObjectId;
  approved_at : option Time;
  rejection_reason : option JsString;
  rejected_by : option ObjectId;
  rejected_at : option Time;
  suspension_reason : option JsString;
  suspended_by : option ObjectId;
  suspended_at : option Time;
  suspension_end : option Time;
  visibility : Visibility;
  is_visible : bool;
  listing_is_active : bool;
  submitted_at : option Time;
  live_at : option Time;
  expires_at : Time;
  images : list Image;
  edit_permissions_enabled : bool
}.

Definition status (this : Listing) : PropertyStatus := prop_status (doc this).

(** ** The hooks *)

Definition set_primary (b : bool) (img : Image) : Image :=
  mkImage (url img) b (order img) (image_approved img).

(** The [forEach] that leaves only the first primary image primary. *)
Fixpoint keep_first_primary (foundFirst : bool) (l : list Image) : list Image :=
  match l with
  | [] => []
  | img :: r =>
      if is_primary img then
        if foundFirst then set_primary false img :: keep_first_primary true r
        else img :: keep_first_primary true r
      else img :: keep_first_primary foundFirst r
  end.

(** [if (img.order === undefined || img.order === null) img.order =
    index] over the array, from [index]. *)
Fixpoint fill_order (index : Z) (l : list Image) : list Image :=
  match l with
  | [] => []
  | img :: r =>
      mkImage (url img) (is_primary img)
              (match order img with Some o => Some o | None => Some index end)
              (image_approved img)
      :: fill_order (index + 1) r
  end.

Definition order_of (img : Image) : Z :=
  match order img with Some o => o | None => 0 end.

(** [images.sort((a, b) => a.order - b.order)]: the sort is stable, an
    image stays before the later images of the same order. *)
Fixpoint insert_by_order (img : Image) (sorted : list Image) : list Image :=
  match sorted with
  | [] => [img]
  | x :: r => if order_of img <=? order_of x then img :: sorted
              else x :: insert_by_order img r
  end.

Definition sort_by_order (l : list Image) : list Image :=
  fold_right insert_by_order [] l.

(** [propertySchema.pre('validate')]: the hook on the images. *)
Definition validate_images (l : list Image) : list Image :=
  match l with
  | [] => []
  | first :: rest =>
      let primaryImages := filter is_primary l in
      let l1 :=
        match primaryImages with
        | [] => set_primary true first :: rest
        | [_] => l
        | _ => keep_first_primary false l
        end in
      sort_by_order (fill_order 0 l1)
  end.

(** The second [propertySchema.pre('save')]: visibility and approval
    status follow the status; [modified] is [this.isModified('status')]. *)
Definition pre_save (modified : bool) (now : Time) (this : Listing) : Listing :=
  let s := status this in
  mkListing (doc this)
    (match s with
     | draft | pending_approval => approval_pending
     | approved => approval_approved
     | rejected => approval_rejected
     | _ => approval_status this
     end)
    (approved_by this)
    (match approved_at this with
     | Some t => Some t
     | None => if modified && PropertyStatus_eqb s approved then Some now else None
     end)
    (rejection_reason this) (rejected_by this) (rejected_at this)
    (suspension_reason this) (suspended_by this) (suspended_at this)
    (suspension_end this)
    (match s with live => public | approved => private | _ => hidden end)
    (PropertyStatus_eqb s live)
    (listing_is_active this) (submitted_at this)
    (match live_at this with
     | Some t => Some t
     | None => if modified && PropertyStatus_eqb s live then Some now else None
     end)
    (expires_at this) (images this) (edit_permissions_enabled this).

Definition set_images (l : list Image) (this : Listing) : Listing :=
  mkListing (doc this) (approval_status this) (approved_by this) (approved_at this)
    (rejection_reason this) (rejected_by this) (rejected_at this)
    (suspension_reason this) (suspended_by this) (suspended_at this)
    (suspension_end this) (visibility this) (is_visible this)
    (listing_is_active this) (submitted_at this) (live_at this) (expires_at this)
    l (edit_permissions_enabled this).

(** [this.save()] of a document loaded as [original]: the hook on the
    images, then the hook on the status.  (The hook on the slug returns
    at once, no method below touching the title; the validators of the
    paths left out are taken to pass.) *)
Definition save (original this : Listing) (now : Time) : Listing :=
  pre_save (negb (PropertyStatus_eqb (status original) (status this))) now
           (set_images (validate_images (images this)) this).

(** ** The methods *)

(** [propertySchema.methods.submitForApproval] *)
Definition submitForApproval (this : Listing) (now : Time) : Exn + Listing :=
  if negb (PropertyStatus_eqb (status this) draft) then
    inl (Error "Only draft properties can be submitted for approval")
  else
    inr (save this
           (mkListing (set_status pending_approval (doc this))
              (approval_status this) (approved_by this) (approved_at this)
              (rejection_reason this) (rejected_by this) (rejected_at this)
              (suspension_reason this) (suspended_by this) (suspended_at this)
              (suspension_end this) (visibility this) (is_visible this)
              (listing_is_active this) (Some now) (live_at this) (expires_at this)
              (images this) (edit_permissions_enabled this))
           now).

(** The [options] of [approve]. *)
Record ApproveOptions := mkApproveOptions {
  autoApproveImages : bool;
  autoGoLive : bool
}.

(** [propertySchema.methods.approve] *)
Definition approve (this : Listing) (adminId : ObjectId) (options : ApproveOptions)
           (now : Time) : Exn + Listing :=
  if negb (PropertyStatus_eqb (status this) pending_approval) then
    inl (Error "Only pending properties can be approved")
  else
    inr (save this
           (mkListing
              (set_status (if autoGoLive options then live else approved) (doc this))
              (approval_status this) (Some adminId) (Some now)
              (rejection_reason this) (rejected_by this) (rejected_at this)
              (suspension_reason this) (suspended_by this) (suspended_at this)
              (suspension_end this) (visibility this) (is_visible this)
              (listing_is_active this) (submitted_at this)
              (if autoGoLive options then Some now else live_at this)
              (expires_at this)
              (if autoApproveImages options
               then map (fun img => mkImage (url img) (is_primary img) (order img) true)
                        (images this)
               else images this)
              (edit_permissions_enabled this))
           now).

(** [propertySchema.methods.reject] *)
Definition reject (this : Listing) (adminId : ObjectId) (reason : option JsString)
           (now : Time) : Exn + Listing :=
  if negb (PropertyStatus_eqb (status this) pending_approval) then
    inl (Error "Only pending properties can be rejected")
  else if reason_too_short reason then
    inl (Error "Rejection reason must be at least 10 characters")
  else
    inr (save this
           (mkListing (set_status rejected (doc this))
              (approval_status this) (approved_by this) (approved_at this)
              (option_map trim reason) (Some adminId) (Some now)
              (suspension_reason this) (suspended_by this) (suspended_at this)
              (suspension_end this) (visibility this) (is_visible this)
              (listing_is_active this) (submitted_at this) (live_at this)
              (expires_at this) (images this) (edit_permissions_enabled this))
           now).

(** [propertySchema.methods.suspend] *)
Definition suspend (this : Listing) (adminId : ObjectId) (reason : option JsString)
           (suspensionEnd : option Time) (now : Time) : Exn + Listing :=
  if negb (PropertyStatus_eqb (status this) approved
           || PropertyStatus_eqb (status this) live) then
    inl (Error "Only approved or live properties can be suspended")
  else if reason_too_short reason then
    inl (Error "Suspension reason must be at least 10 characters")
  else
    inr (save this
           (mkListing (set_status suspended (doc this))
              (approval_status this) (approved_by this) (approved_at this)
              (rejection_reason this) (rejected_by this) (rejected_at this)
              (option_map trim reason) (Some adminId) (Some now) suspensionEnd
              (visibility this) (is_visible this)
              (listing_is_active this) (submitted_at this) (live_at this)
              (expires_at this) (images this) (edit_permissions_enabled this))
           now).

(** [propertySchema.methods.unsuspend]: the schema has no path
    [previous_status], so [this.previous_status || 'approved'] is
    ['approved']. *)
Definition unsuspend (this : Listing) (adminId : ObjectId) (now : Time)
  : Exn + Listing :=
  if negb (PropertyStatus_eqb (status this) suspended) then
    inl (Error "Only suspended properties can be unsuspended")
  else
    inr (save this
           (mkListing (set_status approved (doc this))
              (approval_status this) (approved_by this) (approved_at this)
              (rejection_reason this) (rejected_by this) (rejected_at this)
              None None None None
              (visibility this) (is_visible this)
              (listing_is_active this) (submitted_at this) (live_at this)
              (expires_at this) (images this) (edit_permissions_enabled this))
           now).

(** [propertySchema.methods.makeLive] *)
Definition makeLive (this : Listing) (now : Time) : Exn + Listing :=
  if negb (PropertyStatus_eqb (status this) approved) then
    inl (Error "Only approved properties can be made live")
  else
    inr (save this
           (mkListing (set_status live (doc this))
              (approval_status this) (approved_by this) (approved_at this)
              (rejection_reason this) (rejected_by this) (rejected_at this)
              (suspension_reason this) (suspended_by this) (suspended_at this)
              (suspension_end this) (visibility this) (is_visible this)
              (listing_is_active this) (submitted_at this) (Some now)
              (expires_at this) (images this) (edit_permissions_enabled this))
           now).

(** [propertySchema.methods.isVisibleToPublic] *)
Definition isVisibleToPublic (this : Listing) (now : Time) : bool :=
  is_visible this && listing_is_active this
  && PropertyStatus_eqb (status this) live
  && match visibility this with public => true | _ => false end
  && (now <? expires_at this).

(** [propertySchema.methods.canSellerEdit] *)
Definition canSellerEdit (this : Listing) (sellerId : ObjectId) : bool :=
  String.eqb (seller (doc this)) sellerId
  && negb (in_cart (cart_status (doc this)))
  && (PropertyStatus_eqb (status this) draft
      || PropertyStatus_eqb (status this) rejected
      || PropertyStatus_eqb (status this) pending_approval)
  && negb (edit_permissions_enabled this).

(** A call of one of the six lifecycle methods. *)
Inductive MethodCall :=
| SubmitForApproval
| Approve (adminId : ObjectId) (options : ApproveOptions)
| Reject (adminId : ObjectId) (reason : option JsString)
| Suspend (adminId : ObjectId) (reason : option JsString) (suspensionEnd : option Time)
| Unsuspend (adminId : ObjectId)
| MakeLive.

Definition invoke (this : Listing) (c : MethodCall) (now : Time) : Exn + Listing :=
  match c with
  | SubmitForApproval => submitForApproval this now
  | Approve adminId options => approve this adminId options now
  | Reject adminId reason => reject this adminId reason now
  | Suspend adminId reason suspensionEnd => suspend this adminId reason suspensionEnd now
  | Unsuspend adminId => unsuspend this adminId now
  | MakeLive => makeLive this now
  end.

(** The stored document after a call: what was saved, or the document
    as it was when the method threw. *)
Definition after (this : Listing) (call : MethodCall * Time) : Listing :=
  match invoke this (fst call) (snd call) with
  | inr saved => saved
  | inl _ => this
  end.

End PropertyModel.

(** Property P of the scenarios as a listing just submitted: pending
    approval, hidden, open for ninety days, with three images of which
    none is marked primary and the orders are 2, none and 0. *)
Definition submitted_listing : PropertyModel.Listing :=
  PropertyModel.mkListing (set_status pending_approval scenario_property)
    PropertyModel.approval_pending None None None None None None None None None
    PropertyModel.hidden false true (Some 0) None (days 90)
    [ PropertyModel.mkImage "a.jpg" false (Some 2) false;
      PropertyModel.mkImage "b.jpg" false None false;
      PropertyModel.mkImage "c.jpg" false (Some 0) false ]
    false.

(** ** Commission model (models/Commission.js): approval, payment, override *)

Definition CommissionStatus_eqb (a b : CommissionStatus) : bool :=
  match a, b with
  | com_pending, com_pending | com_approved, com_approved
  | com_paid, com_paid | com_cancelled, com_cancelled => true
  | _, _ => false
  end.

(** The status as the schema's enum spells it. *)
Definition status_name (s : CommissionStatus) : string :=
  match s with
  | com_pending => "pending"
  | com_approved => "approved"
  | com_paid => "paid"
  | com_cancelled => "cancelled"
  end.

(** [if (notes) this.notes = notes]: an empty string is falsy. *)
Definition or_notes (notes old : option string) : option string :=
  match notes with
  | Some n => if String.eqb n "" then old else Some n
  | None => old
  end.

(** A value given where a document holds an ObjectId.  The filter of
    [find], [findOne] or [countDocuments] is cast to the schema, so
    there a string matches the ObjectId it spells; the stages of
    [aggregate] are sent as they are, and there only an ObjectId
    matches an ObjectId. *)
Inductive IdValue :=
| object_id (id : ObjectId)
| id_string (s : string).

(** Equality in a [$match] stage of a stored ObjectId and a value. *)
Definition id_matches (stored : ObjectId) (given : IdValue) : bool :=
  match given with
  | object_id id => String.eqb stored id
  | id_string _ => false
  end.

Module CommissionSchema.

(** [payment_method] enum; a request carries a member of the enum. *)
Inductive PaymentMethod := bank_transfer | cheque | cash | online.

(** The Commission document with its audit trail: [commission] holds
    the paths the reservation engine writes, the other fields are the
    paths of approval, payment and override. *)
Record Document := mkDocument {
  commission : Commission;
  approved_by : option ObjectId;
  approved_at : option Time;
  paid_by : option ObjectId;
  paid_at : option Time;
  payment_date : option Time;
  payment_method : option PaymentMethod;
  transaction_id : option string;
  is_override : bool;
  original_rate : option float;
  override_reason : option string
}.

Definition status (this : Document) : CommissionStatus := com_status (commission this).

Definition set_status_notes (s : CommissionStatus) (notes : option string)
           (c : Commission) : Commission :=
  mkCommission (com_broker c) (com_property c) (property_price c) (commission_type c)
               (rate c) (amount c) s notes (created_by c).

(** [this.save()]: the schema's validators run on the document. *)
Definition save (this : Document) : Exn + Document :=
  match CommissionModel.valid (commission this) with
  | Some path => inl (ValidationError "Commission" path)
  | None => inr this
  end.

(** [commissionSchema.methods.approve] *)
Definition approve (this : Document) (approvedBy : ObjectId) (notes : option string)
           (now : Time) : Exn + Document :=
  if negb (CommissionStatus_eqb (status this) com_pending) then
    inl (Error ("Commission is already " ++ status_name (status this))%string)
  else
    save (mkDocument
            (set_status_notes com_approved (or_notes notes (com_notes (commission this)))
                              (commission this))
            (Some approvedBy) (Some now)
            (paid_by this) (paid_at this) (payment_date this) (payment_method this)
            (transaction_id this) (is_override this) (original_rate this)
            (override_reason this)).

(** [commissionSchema.methods.markAsPaid] *)
Definition markAsPaid (this : Document) (paidBy : ObjectId)
           (paymentMethod : option PaymentMethod) (transactionId notes : option string)
           (now : Time) : Exn + Document :=
  if negb (CommissionStatus_eqb (status this) com_approved) then
    inl (Error "Commission must be approved before marking as paid")
  else
    save (mkDocument
            (set_status_notes com_paid (or_notes notes (com_notes (commission this)))
                              (commission this))
            (approved_by this) (approved_at this)
            (Some paidBy) (Some now) (Some now) paymentMethod transactionId
            (is_override this) (original_rate this) (override_reason this)).

(** [commissionSchema.methods.override] *)
Definition override (this : Document) (newRate : float) (reason : string)
           (updatedBy : ObjectId) : Exn + Document :=
  let c := commission this in
  save (mkDocument
          (mkCommission (com_broker c) (com_property c) (property_price c)
             (commission_type c) newRate ((property_price c * newRate) / 100)%float
             (com_status c)
             (Some ("Commission overridden by " ++ updatedBy ++ ": " ++ reason)%string)
             (created_by c))
          (approved_by this) (approved_at this) (paid_by this) (paid_at this)
          (payment_date this) (payment_method this) (transaction_id this)
          true
          (if is_override this then original_rate this else Some (rate c))
          (Some reason)).

(** A call of one of the three methods, with the time it is made at. *)
Inductive MethodCall :=
| Approve (approvedBy : ObjectId) (notes : option string) (now : Time)
| MarkAsPaid (paidBy : ObjectId) (paymentMethod : option PaymentMethod)
             (transactionId notes : option string) (now : Time)
| Override (newRate : float) (reason : string) (updatedBy : ObjectId).

Definition invoke (this : Document) (c : MethodCall) : Exn + Document :=
  match c with
  | Approve approvedBy notes now => approve this approvedBy notes now
  | MarkAsPaid paidBy paymentMethod transactionId notes now =>
      markAsPaid this paidBy paymentMethod transactionId notes now
  | Override newRate reason updatedBy => override this newRate reason updatedBy
  end.

(** The stored document after a call: what was saved, or the document
    as it was when the method threw or the save was rejected. *)
Definition after (this : Document) (c : MethodCall) : Document :=
  match invoke this c with
  | inr saved => saved
  | inl _ => this
  end.

(** A commission as [Commission.create] stores it: no trail yet. *)
Definition created (c : Commission) : Document :=
  mkDocument c None None None None None None None false None None.

(** [{ amount, count }] of one status in the result of
    [getBrokerTotal]. *)
Record Total := mkTotal { total_amount : float; total_count : Z }.

(** The object [getBrokerTotal] returns: one entry per status that
    occurs. *)
Record Summary := mkSummary {
  sum_pending : option Total;
  sum_approved : option Total;
  sum_paid : option Total;
  sum_cancelled : option Total
}.

Section BrokerTotal.

(** The [$sum] accumulator of the database over the amounts of a
    group: how it rounds is the database's matter. *)
Variable db_sum : list float -> float.

(** The [$group] stage for one status: the sum of the amounts and the
    number of the matching documents; no group when none matches. *)
Definition group_of (s : CommissionStatus) (l : list Commission) : option Total :=
  match filter (fun c => CommissionStatus_eqb (com_status c) s) l with
  | [] => None
  | matching =>
      Some (mkTotal (db_sum (map amount matching)) (Z.of_nat (List.length matching)))
  end.

(** [commissionSchema.statics.getBrokerTotal]: the [$match] on
    [{ broker: brokerId }] is part of a pipeline and so not cast. *)
Definition getBrokerTotal (st : Store) (brokerId : IdValue)
           (status : option CommissionStatus) : Summary :=
  let matched :=
    filter (fun c => id_matches (com_broker c) brokerId
                     && match status with
                        | Some s => CommissionStatus_eqb (com_status c) s
                        | None => true
                        end)
           (commissions st) in
  mkSummary (group_of com_pending matched) (group_of com_approved matched)
            (group_of com_paid matched) (group_of com_cancelled matched).

End BrokerTotal.

End CommissionSchema.

(** ** Broker router (routes/broker.js): the dashboard and the lists *)

(** [Array.from(new Set(ids))]: the ids in the order of their first
    occurrence; [seen] are the ids already in the set. *)
Fixpoint set_from (seen ids : list ObjectId) : list ObjectId :=
  match ids with
  | [] => []
  | id :: rest =>
      if existsb (String.eqb id) seen then set_from seen rest
      else id :: set_from (id :: seen) rest
  end.

Module BrokerPages.

(** The filter [{ 'added_by.user': userId, 'added_by.role': 'broker' }] *)
Definition added_by_me (userId : ObjectId) (p : Property) : bool :=
  String.eqb (added_by_user p) userId && Role_eqb (added_by_role p) broker_role.

(** The filter [{ broker: userId }] *)
Definition assigned_to_me (userId : ObjectId) (p : Property) : bool :=
  match broker p with
  | Some b => String.eqb b userId
  | None => false
  end.

(** GET /dashboard: [uniqueProperties]; an entry is [None] where
    [find] returns [undefined]. *)
Definition uniqueProperties (userId : ObjectId) (st : Store) : list (option Property) :=
  let addedProperties := filter (added_by_me userId) (properties st) in
  let assignedProperties := filter (assigned_to_me userId) (properties st) in
  let allProperties := addedProperties ++ assignedProperties in
  map (fun id => find (has_id id) allProperties)
      (set_from [] (map prop_id allProperties)).

(** GET /dashboard: [stats.totalProperties] *)
Definition dashboard_totalProperties (userId : ObjectId) (st : Store) : Z :=
  Z.of_nat (List.length (uniqueProperties userId st)).

(** GET /dashboard and GET /api/stats:
    [Commission.getBrokerTotal(req.user.id)].  [req.user] is the
    session's [user] object, read back from the session store, and its
    [id] is a string. *)
Definition commissionSummary (db_sum : list float -> float) (userId : ObjectId)
           (st : Store) : CommissionSchema.Summary :=
  CommissionSchema.getBrokerTotal db_sum st (id_string userId) None.

(** GET /dashboard: [stats.totalCommissions], from the summary
    [getBrokerTotal] returned: [Object.values(commissionSummary)
    .reduce((sum, item) => sum + (item.count || 0), 0)]. *)
Definition totalCommissions (commissionSummary : CommissionSchema.Summary) : Z :=
  fold_left
    (fun sum item =>
       match item with
       | Some total => sum + CommissionSchema.total_count total
       | None => sum
       end)
    [ CommissionSchema.sum_pending commissionSummary;
      CommissionSchema.sum_approved commissionSummary;
      CommissionSchema.sum_paid commissionSummary;
      CommissionSchema.sum_cancelled commissionSummary ]
    0.

(** GET /api/stats: [addedProperties], [assignedProperties] and
    [totalProperties]. *)
Definition stats_addedProperties (userId : ObjectId) (st : Store) : Z :=
  Z.of_nat (List.length (filter (added_by_me userId) (properties st))).

Definition stats_assignedProperties (userId : ObjectId) (st : Store) : Z :=
  Z.of_nat (List.length
    (filter (fun p => assigned_to_me userId p
                      && negb (Role_eqb (added_by_role p) broker_role))
            (properties st))).

Definition stats_totalProperties (userId : ObjectId) (st : Store) : Z :=
  stats_addedProperties userId st + stats_assignedProperties userId st.

(** GET /commissions: the [totals] accumulator. *)
Record Totals := mkTotals {
  totalAmount : float;
  totalCount : Z;
  pendingAmount : float;
  pendingCount : Z;
  approvedAmount : float;
  approvedCount : Z;
  paidAmount : float;
  paidCount : Z
}.

(** The callback of the [reduce]. *)
Definition totals_step (acc : Totals) (commission : Commission) : Totals :=
  let acc1 :=
    mkTotals (totalAmount acc + amount commission)%float (totalCount acc + 1)
             (pendingAmount acc) (pendingCount acc)
             (approvedAmount acc) (approvedCount acc)
             (paidAmount acc) (paidCount acc) in
  match com_status commission with
  | com_pending =>
      mkTotals (totalAmount acc1) (totalCount acc1)
               (pendingAmount acc1 + amount commission)%float (pendingCount acc1 + 1)
               (approvedAmount acc1) (approvedCount acc1)
               (paidAmount acc1) (paidCount acc1)
  | com_approved =>
      mkTotals (totalAmount acc1) (totalCount acc1)
               (pendingAmount acc1) (pendingCount acc1)
               (approvedAmount acc1 + amount commission)%float (approvedCount acc1 + 1)
               (paidAmount acc1) (paidCount acc1)
  | com_paid =>
      mkTotals (totalAmount acc1) (totalCount acc1)
               (pendingAmount acc1) (pendingCount acc1)
               (approvedAmount acc1) (approvedCount acc1)
               (paidAmount acc1 + amount commission)%float (paidCount acc1 + 1)
  | com_cancelled => acc1
  end.

(** GET /commissions: [totals] over the commissions the query found. *)
Definition totals (commissions : list Commission) : Totals :=
  fold_left totals_step commissions (mkTotals 0 0 0 0 0 0 0 0).

End BrokerPages.

(** The trail of a commission agrees with its status: an approved one
    names who approved it and when, a paid one names that and also who
    paid it and when. *)
Definition trail_agrees (d : CommissionSchema.Document) : Prop :=
  match CommissionSchema.status d with
  | com_pending | com_cancelled => True
  | com_approved =>
      CommissionSchema.approved_by d <> None /\ CommissionSchema.approved_at d <> None
  | com_paid =>
      CommissionSchema.approved_by d <> None /\ CommissionSchema.approved_at d <> None
      /\ CommissionSchema.paid_by d <> None /\ CommissionSchema.paid_at d <> None
  end.

(** The order of the statuses along the life of a commission. *)
Definition status_rank (s : CommissionStatus) : Z :=
  match s with
  | com_pending => 0
  | com_approved => 1
  | com_paid => 2
  | com_cancelled => 3
  end.

(** What relates a commission to the one it was before any override,
    [d0]: the price is the same; rate and amount are the same while no
    override was saved, and afterwards [original_rate] remembers the
    rate of [d0] and the amount follows the rate in force. *)
Definition overridden_from (d0 d : CommissionSchema.Document) : Prop :=
  property_price (CommissionSchema.commission d)
  = property_price (CommissionSchema.commission d0)
  /\ if CommissionSchema.is_override d
     then CommissionSchema.original_rate d = Some (rate (CommissionSchema.commission d0))
          /\ amount (CommissionSchema.commission d)
             = ((property_price (CommissionSchema.commission d0)
                 * rate (CommissionSchema.commission d)) / 100)%float
     else rate (CommissionSchema.commission d) = rate (CommissionSchema.commission d0)
          /\ amount (CommissionSchema.commission d)
             = amount (CommissionSchema.commission d0).

(** The number of commissions of a status in a list. *)
Definition count_status (s : CommissionStatus) (l : list Commission) : Z :=
  Z.of_nat (List.length (filter (fun c => CommissionStatus_eqb (com_status c) s) l)).

(** Whether an id is among those seen. *)
Definition seen_in (seen : list ObjectId) (id : ObjectId) : bool :=
  existsb (String.eqb id) seen.

(** The properties assigned to a broker that another broker added. *)
Definition added_by_another_broker (userId : ObjectId) (p : Property) : bool :=
  BrokerPages.assigned_to_me userId p
  && Role_eqb (added_by_role p) broker_role
  && negb (BrokerPages.added_by_me userId p).

(** A second live property of the same seller and broker, and a store
    with P and Q: no carts, no rules. *)
Definition second_property : Property :=
  mkProperty "Q" live 2000000 "seller" "seller" seller_role (Some "broker")
             unlocked 0 0.

Definition two_property_store : Store :=
  mkStore [scenario_property; second_property] [] [] [] [].

(** Buyer A reserved P, released it, and reserved Q; then buyer B
    reserved P: A's cart holds a removed item for P and an active one
    for Q, B's cart holds the active item for P. *)
Definition passed_on_store : Store :=
  fold_left call
    [ Engine (RouteAdd "buyerA" "P") 0;
      Engine (RouteRemove "buyerA" "P") 0;
      Engine (RouteAdd "buyerA" "Q") 0;
      Engine (RouteAdd "buyerB" "P") 0 ]
    two_property_store.

(** ** Admin controller (controllers/adminController.js): decisions on a listing *)

(** [req.params]: the values Express binds to the named segments of
    the route's path. *)
Definition Params : Type := list (string * ObjectId).

(** [req.params[name]], [None] for [undefined]. *)
Definition param (name : string) (params : Params) : option ObjectId :=
  match find (fun kv => String.eqb (fst kv) name) params with
  | Some kv => Some (snd kv)
  | None => None
  end.

Module AdminController.

(** The Property collection with its approval fields, and the store
    (for the notifications) beside it. *)
Definition State : Type := list PropertyModel.Listing * Store.

(** [Property.findById(propertyId)]; for an undefined id Mongoose
    looks for [_id: null] and finds nothing. *)
Definition findListing (listings : list PropertyModel.Listing)
           (propertyId : option ObjectId) : option PropertyModel.Listing :=
  match propertyId with
  | Some id => find (fun l => has_id id (PropertyModel.doc l)) listings
  | None => None
  end.

(** The collection after a method of the model saved [saved]. *)
Definition stored (listings : list PropertyModel.Listing) (saved : PropertyModel.Listing)
  : list PropertyModel.Listing :=
  update_first (fun l => has_id (prop_id (PropertyModel.doc saved)) (PropertyModel.doc l))
               (fun _ => saved) listings.

(** [try { await Notification.createNotification(...) } catch
    (notifError) { console.error(...) }]: a rejected create is logged
    and dropped. *)
Definition notify (st : Store) (userId : ObjectId) (type title : string)
           (propertyId : ObjectId) : Store :=
  snd (createNotification st userId type title propertyId).

(** [exports.approveProperty]; [propertyId], [autoGoLive] and
    [autoApproveImages] are fields of [req.body], the latter two with
    the defaults [false] and [true]. *)
Definition approveProperty (adminId : ObjectId) (propertyId : option ObjectId)
           (autoGoLive autoApproveImages : option bool) (now : Time) (s : State)
  : Response * State :=
  let autoGoLive := match autoGoLive with Some b => b | None => false end in
  let autoApproveImages := match autoApproveImages with Some b => b | None => true end in
  let '(listings, st) := s in
  match findListing listings propertyId with
  | None => (Json 404 false "Property not found", s)
  | Some property =>
      if negb (PropertyStatus_eqb (PropertyModel.status property) pending_approval) then
        (Json 400 false "Property is not pending approval", s)
      else
        match PropertyModel.approve property adminId
                (PropertyModel.mkApproveOptions autoApproveImages autoGoLive) now with
        | inl e => (Caught 500 e, s)
        | inr saved =>
            (Json 200 true
               (if autoGoLive then "Property approved and made live successfully"
                else "Property approved successfully"),
             (stored listings saved,
              notify st (seller (PropertyModel.doc saved)) "property_approved"
                     "Property Approved" (prop_id (PropertyModel.doc saved))))
        end
  end.

(** [exports.rejectProperty]; the id is [req.params.propertyId], the
    reason a field of [req.body]. *)
Definition rejectProperty (adminId : ObjectId) (params : Params)
           (reason : option JsString) (now : Time) (s : State) : Response * State :=
  let propertyId := param "propertyId" params in
  let '(listings, st) := s in
  if reason_too_short reason then
    (Json 400 false "Rejection reason must be at least 10 characters", s)
  else
    match findListing listings propertyId with
    | None => (Json 404 false "Property not found", s)
    | Some property =>
        if negb (PropertyStatus_eqb (PropertyModel.status property) pending_approval) then
          (Json 400 false "Property is not pending approval", s)
        else
          match PropertyModel.reject property adminId reason now with
          | inl e => (Caught 500 e, s)
          | inr saved =>
              (Json 200 true "Property rejected successfully",
               (stored listings saved,
                notify st (seller (PropertyModel.doc saved)) "property_rejected"
                       "Property Rejected" (prop_id (PropertyModel.doc saved))))
          end
    end.

(** [exports.suspendProperty]; the id is [req.params.propertyId]. *)
Definition suspendProperty (adminId : ObjectId) (params : Params)
           (reason : option JsString) (suspension_end : option Time) (now : Time)
           (s : State) : Response * State :=
  let propertyId := param "propertyId" params in
  let '(listings, st) := s in
  if reason_too_short reason then
    (Json 400 false "Suspension reason must be at least 10 characters", s)
  else
    match findListing listings propertyId with
    | None => (Json 404 false "Property not found", s)
    | Some property =>
        if negb (PropertyStatus_eqb (PropertyModel.status property) approved
                 || PropertyStatus_eqb (PropertyModel.status property) live) then
          (Json 400 false "Only approved or live properties can be suspended", s)
        else
          match PropertyModel.suspend property adminId reason suspension_end now with
          | inl e => (Caught 500 e, s)
          | inr saved =>
              (Json 200 true "Property suspended successfully",
               (stored listings saved, st))
          end
    end.

(** [exports.makePropertyLive]; the id is [req.params.propertyId]. *)
Definition makePropertyLive (params : Params) (now : Time) (s : State)
  : Response * State :=
  let propertyId := param "propertyId" params in
  let '(listings, st) := s in
  match findListing listings propertyId with
  | None => (Json 404 false "Property not found", s)
  | Some property =>
      if negb (PropertyStatus_eqb (PropertyModel.status property) approved) then
        (Json 400 false "Only approved properties can be made live", s)
      else
        match PropertyModel.makeLive property now with
        | inl e => (Caught 500 e, s)
        | inr saved =>
            (Json 200 true "Property is now live",
             (stored listings saved,
              notify st (seller (PropertyModel.doc saved)) "property_live"
                     "Property Now Live" (prop_id (PropertyModel.doc saved))))
        end
  end.

End AdminController.

(** ** Admin router (routes/admin.js): the property routes *)

Module AdminRoutes.

(** The parameters of a path [/api/properties/:id/...]. *)
Definition params_of (id : ObjectId) : Params := [("id", id)].

(** [router.post('/api/properties/:id/reject',
    adminController.rejectProperty)] *)
Definition reject (adminId id : ObjectId) (reason : option JsString) (now : Time)
  : AdminController.State -> Response * AdminController.State :=
  AdminController.rejectProperty adminId (params_of id) reason now.

(** [router.post('/api/properties/:id/suspend',
    adminController.suspendProperty)] *)
Definition suspend (adminId id : ObjectId) (reason : option JsString)
           (suspension_end : option Time) (now : Time)
  : AdminController.State -> Response * AdminController.State :=
  AdminController.suspendProperty adminId (params_of id) reason suspension_end now.

(** [router.post('/api/properties/:id/make-live',
    adminController.makePropertyLive)] *)
Definition make_live (id : ObjectId) (now : Time)
  : AdminController.State -> Response * AdminController.State :=
  AdminController.makePropertyLive (params_of id) now.

End AdminRoutes.

(** ** The countdown of the pages (public/js/script.js) *)

(** What [CountdownTimer.update] shows. *)
Inductive Countdown :=
| EXPIRED
| Remaining (days hours minutes seconds : Z).

(** [CountdownTimer.prototype.update] at the instant [now]; the
    divisions and remainders are exact in whole numbers for every
    distance below 2^53. *)
Definition countdown_update (endTime now : Time) : Countdown :=
  let distance := endTime - now in
  if distance <? 0 then EXPIRED
  else
    Remaining (distance / (1000 * 60 * 60 * 24))
              ((distance mod (1000 * 60 * 60 * 24)) / (1000 * 60 * 60))
              ((distance mod (1000 * 60 * 60)) / (1000 * 60))
              ((distance mod (1000 * 60)) / 1000).

(** * Properties *)

(** Unfolds the store-passing combinators of a handler body. *)
Ltac open_handler :=
  unfold try_catch, bind, query, write, await, ret, throw; cbv beta iota.

(** ** Commission calculation *)

Lemma whole_numbers_in :
  forall (lo : Z) (n : nat) (z : Z),
    lo <= z < lo + Z.of_nat n -> In z (whole_numbers lo n).
Proof.
  intros lo n z Hz. unfold whole_numbers. apply in_map_iff.
  exists (Z.to_nat (z - lo)). split; [lia|]. apply in_seq. lia.
Qed.

(** Over the prices in whole lakhs up to 10 crore and the rates in
    steps of 0.5 up to 100 every product and quotient is exact. *)
Lemma amounts_add_up_on_the_grid :
  forallb (fun p =>
    forallb (fun a => forallb (fun s => amounts_add_up p a s) half_step_rates)
            half_step_rates) lakh_prices = true.
Proof. vm_compute. reflexivity. Qed.

(** C10 (as amended). For every price [p] and rates [a], [s] (an omitted
    rate taking its default 1.5 or 2.5), [calculateCommission] returns
    for 'adder' the rate [a] and the amount [p * a / 100], for 'seller'
    the rate [s] and the amount [p * s / 100], and for 'adder_seller'
    the rate [a + s] (so rates add up) and the amount
    [p * (a + s) / 100], all in binary64 arithmetic; for any other type
    it throws 'Invalid commission type'.  For a price of a whole number
    of lakhs up to 10 crore and rates that are multiples of 0.5 from 0
    to 100 the 'adder_seller' amount is exactly the sum of the 'adder'
    and the 'seller' amount. *)
Theorem calculateCommission_by_type :
  (forall (p : float) (adderRate sellerRate : option float),
     let a := match adderRate with Some r => r | None => 1.5%float end in
     let s := match sellerRate with Some r => r | None => 2.5%float end in
     CommissionModel.calculateCommission p "adder" adderRate sellerRate
       = inr (CommissionModel.mkCalculated a ((p * a) / 100)%float)
     /\ CommissionModel.calculateCommission p "seller" adderRate sellerRate
       = inr (CommissionModel.mkCalculated s ((p * s) / 100)%float)
     /\ CommissionModel.calculateCommission p "adder_seller" adderRate sellerRate
       = inr (CommissionModel.mkCalculated (a + s)%float ((p * (a + s)) / 100)%float)
     /\ (forall ty : string,
           ty <> "adder" -> ty <> "seller" -> ty <> "adder_seller" ->
           CommissionModel.calculateCommission p ty adderRate sellerRate
             = inl (Error "Invalid commission type")))
  /\ (forall lakhs halvesA halvesS : Z,
        1 <= lakhs <= 1000 -> 0 <= halvesA <= 200 -> 0 <= halvesS <= 200 ->
        let p := float_of_Z (lakhs * 100000) in
        let a := (float_of_Z halvesA / 2)%float in
        let s := (float_of_Z halvesS / 2)%float in
        exists x y z : CommissionModel.Calculated,
          CommissionModel.calculateCommission p "adder" (Some a) (Some s) = inr x
          /\ CommissionModel.calculateCommission p "seller" (Some a) (Some s) = inr y
          /\ CommissionModel.calculateCommission p "adder_seller" (Some a) (Some s) = inr z
          /\ CommissionModel.calc_amount z
             = (CommissionModel.calc_amount x + CommissionModel.calc_amount y)%float).
Proof.
  split.
  - intros p adderRate sellerRate a s.
    repeat split; try reflexivity.
    intros ty Ha Hs Has.
    unfold CommissionModel.calculateCommission.
    apply String.eqb_neq in Ha, Hs, Has.
    now rewrite Ha, Hs, Has.
  - intros lakhs halvesA halvesS Hp Ha Hs p a s.
    do 3 eexists. split; [reflexivity|]. split; [reflexivity|].
    split; [reflexivity|]. cbn [CommissionModel.calc_amount].
    apply FloatAxioms.Leibniz.eqb_spec.
    pose proof amounts_add_up_on_the_grid as G.
    rewrite forallb_forall in G.
    assert (Hin : In p lakh_prices).
    { unfold lakh_prices.
      apply (in_map (fun k => float_of_Z (k * 100000))).
      apply whole_numbers_in. lia. }
    specialize (G p Hin). rewrite forallb_forall in G.
    assert (Hina : In a half_step_rates).
    { unfold half_step_rates.
      apply (in_map (fun h => (float_of_Z h / 2)%float)).
      apply whole_numbers_in. lia. }
    specialize (G a Hina). rewrite forallb_forall in G.
    assert (Hins : In s half_step_rates).
    { unfold half_step_rates.
      apply (in_map (fun h => (float_of_Z h / 2)%float)).
      apply whole_numbers_in. lia. }
    exact (G s Hins).
Qed.

(** Scenario B on the grid: 10 lakh with the rates 1 and 2. *)
Lemma calculateCommission_by_type_witness :
  exists x y z : CommissionModel.Calculated,
    CommissionModel.calculateCommission (float_of_Z (10 * 100000)) "adder"
      (Some (float_of_Z 2 / 2)%float) (Some (float_of_Z 4 / 2)%float) = inr x
    /\ CommissionModel.calculateCommission (float_of_Z (10 * 100000)) "seller"
         (Some (float_of_Z 2 / 2)%float) (Some (float_of_Z 4 / 2)%float) = inr y
    /\ CommissionModel.calculateCommission (float_of_Z (10 * 100000)) "adder_seller"
         (Some (float_of_Z 2 / 2)%float) (Some (float_of_Z 4 / 2)%float) = inr z
    /\ CommissionModel.calc_amount z
       = (CommissionModel.calc_amount x + CommissionModel.calc_amount y)%float.
Proof.
  destruct calculateCommission_by_type as [_ H].
  apply (H 10 2 4); lia.
Defined.

(** C10 (counterexample). For the price 1010 and the rates 1 and 2 the
    'adder_seller' amount is 3030 / 100 = 30.3, while the 'adder' and
    'seller' amounts 10.1 and 20.2 sum to 30.299999999999997 in
    binary64: the amounts do not add up. *)
Lemma adder_seller_amount_is_not_the_sum :
  exists a s b : CommissionModel.Calculated,
    CommissionModel.calculateCommission 1010 "adder" (Some 1%float) (Some 2%float) = inr a
    /\ CommissionModel.calculateCommission 1010 "seller" (Some 1%float) (Some 2%float) = inr s
    /\ CommissionModel.calculateCommission 1010 "adder_seller" (Some 1%float) (Some 2%float) = inr b
    /\ CommissionModel.calc_amount b
       <> (CommissionModel.calc_amount a + CommissionModel.calc_amount s)%float.
Proof.
  do 3 eexists. repeat split; try reflexivity.
  intro H. apply (f_equal Prim2SF) in H. vm_compute in H. discriminate H.
Qed.

(** For the price and the rates of Scenario B the three amounts are
    exact and do add up: 30,000 = 10,000 + 20,000. *)
Lemma scenario_B_amounts_add_up :
  CommissionModel.calculateCommission 1000000 "adder_seller" (Some 1%float) (Some 2%float)
  = inr (CommissionModel.mkCalculated 3 30000)
  /\ CommissionModel.calculateCommission 1000000 "adder" (Some 1%float) (Some 2%float)
     = inr (CommissionModel.mkCalculated 1 10000)
  /\ CommissionModel.calculateCommission 1000000 "seller" (Some 1%float) (Some 2%float)
     = inr (CommissionModel.mkCalculated 2 20000)
  /\ (10000 + 20000 = 30000)%float.
Proof. repeat split. Qed.

(** C8 (the code at the failing input). Scenario B through the broker
    router: buyer A holds P (10,00,000, no rule, no per-property rate)
    and the assigned broker, who did not list P, confirms the visit on
    day 3.  The recorded seller commission has rate 2.5 and amount
    25,000, not 2 and 20,000. *)
Lemma route_confirm_records_two_and_a_half_percent :
  BrokerRoutes.confirm "broker" "P" Manual None (days 3) reserved_store
  = (Json 200 true "Visit confirmed successfully. Commission recorded.",
     snd (BrokerRoutes.confirm "broker" "P" Manual None (days 3) reserved_store))
  /\ commissions (snd (BrokerRoutes.confirm "broker" "P" Manual None (days 3) reserved_store))
     = [ mkCommission "broker" "P" 1000000 "seller" 2.5 25000 com_pending
           (Some "Visit confirmed by broker for property sale") (Some "broker") ].
Proof. split; reflexivity. Qed.

(** The sibling path, [brokerController.confirmVisit], on the same
    input records rate 2 and amount 20,000. *)
Lemma controller_confirm_records_two_percent :
  commissions (snd (BrokerController.confirmVisit "broker" "P" "buyerA" (days 3) reserved_store))
  = [ mkCommission "broker" "P" 1000000 "seller" 2 20000 com_pending None None ].
Proof. reflexivity. Qed.

(** Whenever [brokerController.confirmVisit] records a commission, it is
    the seller commission at the rule's rate, 2 when no active
    'commission_seller' rule is found (or its value is 0), with amount
    [price * rate / 100]. *)
Lemma controller_seller_commission_amount :
  forall (userId : ObjectId) (property : Property) (sellerRule : option Rule),
    let c := BrokerController.seller_commission userId property sellerRule in
    commission_type c = "seller"
    /\ rate c = float_of_Z (value_or sellerRule 2)
    /\ amount c = ((price property * rate c) / 100)%float
    /\ (sellerRule = None -> rate c = 2%float).
Proof.
  intros userId property sellerRule c. repeat split.
  intros ->. reflexivity.
Qed.

(** C7 (the code at the failing input). The broker confirms the same
    reservation twice through [brokerController.confirmVisit]: the
    second call is not refused and two seller commissions exist. *)
Lemma controller_confirm_twice_records_two_commissions :
  let st1 := snd (BrokerController.confirmVisit "broker" "P" "buyerA" (days 3) reserved_store) in
  let st2 := snd (BrokerController.confirmVisit "broker" "P" "buyerA" (days 4) st1) in
  map commission_type (commissions st1) = ["seller"]
  /\ map commission_type (commissions st2) = ["seller"; "seller"]
  /\ map com_property (commissions st2) = ["P"; "P"].
Proof. repeat split. Qed.

(** The same through the broker router. *)
Lemma route_confirm_twice_records_two_commissions :
  let st1 := snd (BrokerRoutes.confirm "broker" "P" Manual None (days 3) reserved_store) in
  let st2 := snd (BrokerRoutes.confirm "broker" "P" Manual None (days 4) st1) in
  map commission_type (commissions st2) = ["seller"; "seller"].
Proof. reflexivity. Qed.


(** ** Array helpers *)

Section ArrayFacts.
Context {A : Type}.
Variable p : A -> bool.

Lemma find_split :
  forall (l : list A) (x : A),
    find p l = Some x ->
    exists l1 l2, l = l1 ++ x :: l2 /\ p x = true /\ find p l1 = None.
Proof.
  induction l as [|y l IH]; intros x H; simpl in H; [discriminate|].
  destruct (p y) eqn:Hy.
  - injection H as <-. exists [], l. auto.
  - destruct (IH x H) as (l1 & l2 & -> & Hx & Hn).
    exists (y :: l1), l2. simpl. rewrite Hy. auto.
Qed.

Lemma find_app_first :
  forall (l1 l2 : list A) (x : A),
    find p l1 = None -> p x = true -> find p (l1 ++ x :: l2) = Some x.
Proof.
  induction l1 as [|y l1 IH]; intros l2 x Hn Hx; simpl.
  - now rewrite Hx.
  - simpl in Hn. destruct (p y); [discriminate|]. now apply IH.
Qed.

Lemma find_app_none :
  forall (l1 l2 : list A), find p l1 = None -> find p (l1 ++ l2) = find p l2.
Proof.
  induction l1 as [|y l1 IH]; intros l2 Hn; simpl; [reflexivity|].
  simpl in Hn. destruct (p y); [discriminate|]. now apply IH.
Qed.

Lemma update_first_app :
  forall (f : A -> A) (l1 l2 : list A) (x : A),
    find p l1 = None -> p x = true ->
    update_first p f (l1 ++ x :: l2) = l1 ++ f x :: l2.
Proof.
  induction l1 as [|y l1 IH]; intros l2 x Hn Hx; simpl.
  - now rewrite Hx.
  - simpl in Hn. destruct (p y); [discriminate|]. now rewrite IH.
Qed.

Lemma update_first_absent :
  forall (f : A -> A) (l : list A), find p l = None -> update_first p f l = l.
Proof.
  induction l as [|y l IH]; intros Hn; simpl; [reflexivity|].
  simpl in Hn. destruct (p y); [discriminate|]. now rewrite IH.
Qed.

Lemma findIndex_split :
  forall (l : list A) (i : nat),
    findIndex p l = Some i ->
    exists l1 x l2,
      l = l1 ++ x :: l2 /\ List.length l1 = i /\ p x = true /\ find p l1 = None.
Proof.
  induction l as [|y l IH]; intros i H; simpl in H; [discriminate|].
  destruct (p y) eqn:Hy.
  - injection H as <-. exists [], y, l. auto.
  - destruct (findIndex p l) as [j|]; [|discriminate].
    injection H as <-.
    destruct (IH j eq_refl) as (l1 & x & l2 & -> & Hl & Hx & Hn).
    exists (y :: l1), x, l2. simpl. rewrite Hy, Hl. auto.
Qed.

Lemma findIndex_none_find :
  forall (l : list A), findIndex p l = None <-> find p l = None.
Proof.
  induction l as [|y l IH]; simpl; [tauto|].
  destruct (p y); [split; discriminate|].
  destruct IH as [IH1 IH2].
  destruct (findIndex p l); split; intro H; try discriminate; auto.
  specialize (IH2 H). discriminate.
Qed.

Lemma splice1_app :
  forall (l1 l2 : list A) (x : A), splice1 (List.length l1) (l1 ++ x :: l2) = l1 ++ l2.
Proof. induction l1 as [|y l1 IH]; intros; simpl; [reflexivity|now rewrite IH]. Qed.

Lemma update_at_app :
  forall (f : A -> A) (l1 l2 : list A) (x : A),
    update_at (List.length l1) f (l1 ++ x :: l2) = l1 ++ f x :: l2.
Proof. induction l1 as [|y l1 IH]; intros; simpl; [reflexivity|now rewrite IH]. Qed.

End ArrayFacts.

(** ** Store facts *)

Lemma findCart_buyer :
  forall (st : Store) (userId : ObjectId) (cart : Cart),
    findCart st userId = Some cart -> buyer cart = userId.
Proof.
  intros st userId cart H. apply find_some in H as [_ H].
  now apply String.eqb_eq in H.
Qed.

Lemma items_set_items :
  forall (c : Cart) (l : list Item), items (set_items c l) = l.
Proof. reflexivity. Qed.

(** After [cart.save()] the buyer's document is the saved one. *)
Lemma findCart_save_cart :
  forall (st : Store) (userId : ObjectId) (cart cart' : Cart),
    findCart st userId = Some cart -> buyer cart' = userId ->
    findCart (save_cart st cart') userId = Some cart'.
Proof.
  intros st userId cart cart' H Hb. unfold findCart, save_cart in *. simpl.
  destruct (find_split _ _ _ H) as (l1 & l2 & -> & Hx & Hn).
  rewrite Hb. rewrite update_first_app by assumption.
  apply find_app_first; [assumption|].
  unfold of_buyer. rewrite Hb. apply String.eqb_refl.
Qed.

(** ** Confirmation past the visit window *)

(** C3 (as amended). For an active reservation whose visit is not
    confirmed and whose visit window has elapsed, the buyer controller's
    [confirmVisit] answers 400 'Visit window has expired' and confirms
    nothing: the cart and the property's lock stay as they were.
    [Cart.confirmVisit] throws 'Visit window has expired' and persists
    the item as expired ([status] and [visit_status]); it has no access
    to the property's lock. *)
Theorem confirmVisit_past_window_is_refused :
  forall (st : Store) (userId propertyId : ObjectId) (now : Time)
         (cart : Cart) (item : Item),
    findCart st userId = Some cart ->
    find (active_for propertyId) (items cart) = Some item ->
    item_visit_status item <> VConfirmed ->
    now > setDate_plus (item_added_at item) (visit_window_days (settings cart)) ->
    BuyerController.confirmVisit userId propertyId now st
      = (Json 400 false "Visit window has expired", st)
    /\ forall (confirmedBy : ObjectId) (method : Method),
         exists l1 l2 : list Item,
           items cart = l1 ++ item :: l2
           /\ CartModel.confirmVisit cart propertyId confirmedBy method now
              = (Threw (Error "Visit window has expired"),
                 set_items cart (l1 ++ expire_visit item :: l2))
           /\ item_status (expire_visit item) = Expired
           /\ item_visit_status (expire_visit item) = VExpired.
Proof.
  intros st userId propertyId now cart item Hcart Hitem Hvs Hnow.
  apply Z.gtb_gt in Hnow.
  split.
  - unfold BuyerController.confirmVisit, try_catch, bind, query, ret.
    rewrite Hcart, Hitem, Hnow. reflexivity.
  - intros confirmedBy method.
    destruct (find_split _ _ _ Hitem) as (l1 & l2 & Hl & Hx & Hn).
    exists l1, l2. split; [assumption|]. split; [|split; reflexivity].
    unfold CartModel.confirmVisit. rewrite Hitem.
    destruct (VisitStatus_eqb (item_visit_status item) VConfirmed) eqn:E.
    + destruct (item_visit_status item); simpl in E; try discriminate.
      now elim Hvs.
    + rewrite Hnow. rewrite Hl at 1.
      now rewrite update_first_app.
Qed.

(** The reservation of the scenario store: buyer A's cart and its item. *)
Lemma reserved_store_cart :
  findCart reserved_store "buyerA"
  = Some (mkCart "buyerA" [new_item "P" 0 None] (mkSettings 5 7 60)).
Proof. reflexivity. Qed.

Lemma confirmVisit_past_window_is_refused_witness :
  BuyerController.confirmVisit "buyerA" "P" (days 8) reserved_store
    = (Json 400 false "Visit window has expired", reserved_store)
  /\ forall (confirmedBy : ObjectId) (method : Method),
       exists l1 l2 : list Item,
         [new_item "P" 0 None] = l1 ++ new_item "P" 0 None :: l2
         /\ CartModel.confirmVisit
              (mkCart "buyerA" [new_item "P" 0 None] (mkSettings 5 7 60))
              "P" confirmedBy method (days 8)
            = (Threw (Error "Visit window has expired"),
               set_items
                 (mkCart "buyerA" [new_item "P" 0 None] (mkSettings 5 7 60))
                 (l1 ++ expire_visit (new_item "P" 0 None) :: l2))
         /\ item_status (expire_visit (new_item "P" 0 None)) = Expired
         /\ item_visit_status (expire_visit (new_item "P" 0 None)) = VExpired.
Proof.
  apply (confirmVisit_past_window_is_refused reserved_store "buyerA" "P" (days 8)
           (mkCart "buyerA" [new_item "P" 0 None] (mkSettings 5 7 60))
           (new_item "P" 0 None)).
  - reflexivity.
  - reflexivity.
  - discriminate.
  - reflexivity.
Defined.

(** C3 (counterexample). Buyer A reserved P at t = 0 with a 7-day visit
    window and did not confirm.  On day 8 the buyer controller's
    [confirmVisit] answers 'Visit window has expired', yet the item is
    still active and the property's lock is still held. *)
Lemma confirmVisit_past_window_releases_nothing :
  fst (BuyerController.confirmVisit "buyerA" "P" (days 8) reserved_store)
    = Json 400 false "Visit window has expired"
  /\ map (fun c => map item_status (items c))
         (carts (snd (BuyerController.confirmVisit "buyerA" "P" (days 8) reserved_store)))
     = [[Active]]
  /\ map (fun p => in_cart (cart_status p))
         (properties (snd (BuyerController.confirmVisit "buyerA" "P" (days 8) reserved_store)))
     = [true].
Proof. repeat split. Qed.

(** ** Release: the only match *)

Lemma find_none_filter :
  forall (A : Type) (p : A -> bool) (l : list A),
    find p l = None <-> filter p l = [].
Proof.
  intros A p l. induction l as [|y l IH]; simpl; [tauto|].
  destruct (p y); [split; discriminate|exact IH].
Qed.

(** Once the only match is spliced out, or no longer matches, nothing
    matches. *)
Lemma sole_match_gone :
  forall (A : Type) (p : A -> bool) (l1 l2 : list A) (x : A) (mid : list A),
    (List.length (filter p (l1 ++ x :: l2)) <= 1)%nat ->
    p x = true -> find p l1 = None -> find p mid = None ->
    find p (l1 ++ mid ++ l2) = None.
Proof.
  intros A p l1 l2 x mid Hone Hx Hn Hmid.
  rewrite filter_app in Hone. simpl in Hone. rewrite Hx in Hone.
  rewrite length_app in Hone. simpl in Hone.
  assert (Hl2 : filter p l2 = []) by (destruct (filter p l2); [reflexivity|simpl in Hone; lia]).
  apply find_none_filter. rewrite !filter_app.
  apply find_none_filter in Hn, Hmid. now rewrite Hn, Hmid, Hl2.
Qed.

Lemma removed_item_not_active :
  forall (propertyId : ObjectId) (it : Item),
    active_for propertyId (set_item_status Removed it) = false.
Proof. intros. unfold active_for. simpl. apply andb_false_r. Qed.

(** ** Capacity *)

Lemma value_or_nonzero :
  forall (r : option Rule) (d : Z), d <> 0 -> value_or r d <> 0.
Proof.
  intros [r|] d Hd; simpl; [|assumption].
  destruct (Z.eqb_spec (value r) 0); assumption.
Qed.

(** What [addToCart] answers and writes, case by case. *)
Lemma addToCart_unavailable :
  forall (st : Store) (userId propertyId : ObjectId) (now : Time),
    find (BuyerController.available propertyId) (properties st) = None ->
    BuyerController.addToCart userId propertyId now st
    = (Json 404 false "Property not available for cart", st).
Proof.
  intros st userId propertyId now Hav.
  unfold BuyerController.addToCart, BuyerController.addToCart_after, try_catch, bind,
    BuyerController.addToCart_find, query.
  now rewrite Hav.
Qed.

(** For an available property the capacity check throws, after the
    buyer's first cart, if the buyer had none, was created empty. *)
Lemma addToCart_available :
  forall (st : Store) (userId propertyId : ObjectId) (now : Time) (property : Property),
    find (BuyerController.available propertyId) (properties st) = Some property ->
    match findCart st userId with
    | Some cart =>
        BuyerController.addToCart userId propertyId now st
        = (Caught 500 (TypeError "cart.canAddProperty is not a function"), st)
    | None =>
        let s := mkSettings (value_or (getRule st "cart_max_properties") 5)
                            (value_or (getRule st "visit_window_days") 7)
                            (value_or (getRule st "booking_window_days") 60) in
        match settings_invalid s with
        | Some path =>
            BuyerController.addToCart userId propertyId now st
            = (Caught 500 (ValidationError "Cart" path), st)
        | None =>
            BuyerController.addToCart userId propertyId now st
            = (Caught 500 (TypeError "cart.canAddProperty is not a function"),
               set_carts st (carts st ++ [mkCart userId [] s]))
        end
    end.
Proof.
  intros st userId propertyId now property Hav.
  unfold BuyerController.addToCart, BuyerController.addToCart_after, try_catch, bind,
    BuyerController.addToCart_find, query.
  rewrite Hav. unfold BuyerController.addToCart_rest, bind, query.
  destruct (findCart st userId) as [cart|] eqn:Hcart; [reflexivity|].
  cbv zeta. unfold createCart.
  destruct (settings_invalid _) as [path|]; reflexivity.
Qed.

(** [addToCart] never answers success and never touches a property or
    an item: it answers 404 or 500, and the carts afterwards are the
    carts before, with at most an empty cart appended for a buyer who
    had none. *)
Lemma addToCart_never_reserves :
  forall (st : Store) (userId propertyId : ObjectId) (now : Time),
    (fst (BuyerController.addToCart userId propertyId now st)
     = Json 404 false "Property not available for cart"
     \/ exists e : Exn,
          fst (BuyerController.addToCart userId propertyId now st) = Caught 500 e)
    /\ properties (snd (BuyerController.addToCart userId propertyId now st)) = properties st
    /\ (carts (snd (BuyerController.addToCart userId propertyId now st)) = carts st
        \/ exists s : Settings,
             findCart st userId = None
             /\ 1 <= max_properties s
             /\ carts (snd (BuyerController.addToCart userId propertyId now st))
                = carts st ++ [mkCart userId [] s]).
Proof.
  intros st userId propertyId now.
  destruct (find (BuyerController.available propertyId) (properties st))
    as [property|] eqn:Hav.
  - pose proof (addToCart_available st userId propertyId now property Hav) as H.
    destruct (findCart st userId) as [cart|] eqn:Hcart.
    + rewrite H. simpl. split; [right; eexists; reflexivity|]. auto.
    + cbv zeta in H. destruct (settings_invalid _) as [path|] eqn:Hvalid.
      * rewrite H. simpl. split; [right; eexists; reflexivity|]. auto.
      * rewrite H. simpl. split; [right; eexists; reflexivity|].
        split; [reflexivity|]. right. eexists. split; [reflexivity|].
        split; [|reflexivity].
        unfold settings_invalid in Hvalid. cbn [max_properties] in *.
        destruct (1 <=? value_or (getRule st "cart_max_properties") 5) eqn:E;
          [|discriminate].
        apply Z.leb_le in E. exact E.
  - rewrite addToCart_unavailable by assumption. simpl. auto.
Qed.

(** POST /api/cart/add at the limit: the capacity rejection, and no
    state change. *)
Lemma route_add_at_capacity :
  forall (st : Store) (userId propertyId : ObjectId) (now : Time)
         (property : Property) (cart : Cart),
    propertyId <> "" ->
    findById st propertyId = Some property ->
    in_cart (cart_status property) = false ->
    prop_status property = live ->
    findCart st userId = Some cart ->
    Z.of_nat (List.length (CartModel.activeItems cart)) = max_properties (settings cart) ->
    BuyerRoutes.add userId propertyId now st
    = (Json 400 false (BuyerRoutes.limit_message cart), st).
Proof.
  intros st userId propertyId now property cart Hid Hprop Hfree Hlive Hcart Hfull.
  unfold BuyerRoutes.add, BuyerRoutes.add_checks, BuyerRoutes.add_after.
  open_handler.
  apply String.eqb_neq in Hid. rewrite Hid, Hprop, Hfree, Hlive. simpl.
  rewrite Hcart. unfold CartModel.activeItems in Hfull. rewrite Hfull.
  assert (E : (max_properties (settings cart) >=? max_properties (settings cart)) = true)
    by (apply Z.geb_le; lia).
  now rewrite E.
Qed.

(** What POST /api/cart/add answers and writes when the buyer's cart is
    at the limit, and that below the limit it never answers the limit
    rejection. *)
Lemma route_add_capacity :
  forall (st : Store) (userId propertyId : ObjectId) (now : Time) (cart : Cart),
    findCart st userId = Some cart ->
    (Z.of_nat (List.length (CartModel.activeItems cart)) = max_properties (settings cart) ->
     snd (BuyerRoutes.add userId propertyId now st) = st
     /\ (forall property,
           propertyId <> "" -> findById st propertyId = Some property ->
           in_cart (cart_status property) = false -> prop_status property = live ->
           fst (BuyerRoutes.add userId propertyId now st)
           = Json 400 false (BuyerRoutes.limit_message cart)))
    /\ (Z.of_nat (List.length (CartModel.activeItems cart)) < max_properties (settings cart) ->
        fst (BuyerRoutes.add userId propertyId now st)
        <> Json 400 false (BuyerRoutes.limit_message cart)).
Proof.
  intros st userId propertyId now cart Hcart. unfold CartModel.activeItems.
  split.
  - intros Hfull. split.
    + unfold BuyerRoutes.add, BuyerRoutes.add_checks, BuyerRoutes.add_after.
      open_handler.
      destruct (String.eqb propertyId ""); [reflexivity|].
      destruct (findById st propertyId) as [property|]; [|reflexivity].
      destruct (in_cart (cart_status property)); [reflexivity|].
      destruct (negb (PropertyStatus_eqb (prop_status property) live)); [reflexivity|].
      cbv beta iota. rewrite Hcart, Hfull.
      assert (E : (max_properties (settings cart) >=? max_properties (settings cart)) = true)
        by (apply Z.geb_le; lia).
      now rewrite E.
    + intros property Hid Hprop Hfree Hlive.
      rewrite (route_add_at_capacity st userId propertyId now property cart); auto.
  - intros Hroom.
    unfold BuyerRoutes.add, BuyerRoutes.add_checks, BuyerRoutes.add_after,
      BuyerRoutes.add_writes, BuyerRoutes.limit_message.
    open_handler.
    destruct (String.eqb propertyId ""); [simpl; discriminate|].
    destruct (findById st propertyId) as [property|]; [|simpl; discriminate].
    destruct (in_cart (cart_status property)); [simpl; discriminate|].
    destruct (negb (PropertyStatus_eqb (prop_status property) live)); [simpl; discriminate|].
    cbv beta iota. rewrite Hcart.
    assert (E : (Z.of_nat (List.length (filter status_active (items cart)))
                 >=? max_properties (settings cart)) = false).
    { destruct (Z.geb_spec (Z.of_nat (List.length (filter status_active (items cart))))
                  (max_properties (settings cart))); [lia|reflexivity]. }
    rewrite E.
    destruct (existsb _ _); simpl; discriminate.
Qed.

(** X29. The buyer router and the Cart model enforce the cart's limit.
    A buyer whose count of active reservations equals the
    [settings.max_properties] of the cart: POST
    /api/cart/add changes no state and, for a property
    that passes the availability checks, answers the capacity rejection
    400 'Cart limit reached (max N properties)'; [Cart.addItem]
    persists nothing and throws 'Cart limit reached. Maximum N
    properties allowed.' (or 'Property already in cart' for a
    duplicate).  Below the limit neither is rejected for capacity. *)
Lemma sibling_paths_enforce_the_cart_limit :
  forall (st : Store) (userId propertyId : ObjectId) (now : Time) (cart this : Cart),
    findCart st userId = Some cart ->
    (Z.of_nat (List.length (CartModel.activeItems cart)) = max_properties (settings cart) ->
     snd (BuyerRoutes.add userId propertyId now st) = st
     /\ (forall property,
           propertyId <> "" -> findById st propertyId = Some property ->
           in_cart (cart_status property) = false -> prop_status property = live ->
           fst (BuyerRoutes.add userId propertyId now st)
           = Json 400 false (BuyerRoutes.limit_message cart)))
    /\ (Z.of_nat (List.length (CartModel.activeItems cart)) < max_properties (settings cart) ->
        fst (BuyerRoutes.add userId propertyId now st)
        <> Json 400 false (BuyerRoutes.limit_message cart))
    /\ (Z.of_nat (List.length (CartModel.activeItems this)) = max_properties (settings this) ->
        snd (CartModel.addItem this propertyId now) = this
        /\ (CartModel.isPropertyInCart this propertyId = false ->
            fst (CartModel.addItem this propertyId now)
            = Threw (Error (CartModel.limit_message this)))
        /\ (CartModel.isPropertyInCart this propertyId = true ->
            fst (CartModel.addItem this propertyId now)
            = Threw (Error "Property already in cart")))
    /\ (Z.of_nat (List.length (CartModel.activeItems this)) < max_properties (settings this) ->
        fst (CartModel.addItem this propertyId now)
        <> Threw (Error (CartModel.limit_message this))).
Proof.
  intros st userId propertyId now cart this Hcart.
  destruct (route_add_capacity st userId propertyId now cart Hcart) as [Hfull Hroom].
  split; [exact Hfull|]. split; [exact Hroom|]. split.
  - (* the model method at the limit *)
    intros Hthis. unfold CartModel.addItem.
    destruct (CartModel.isPropertyInCart this propertyId).
    + simpl. split; [reflexivity|]. split; [discriminate|reflexivity].
    + rewrite Hthis.
      assert (E : (max_properties (settings this) >=? max_properties (settings this)) = true)
        by (apply Z.geb_le; lia).
      rewrite E. simpl. split; [reflexivity|]. split; [reflexivity|discriminate].
  - (* the model method below the limit *)
    intros Hthis. unfold CartModel.addItem.
    destruct (CartModel.isPropertyInCart this propertyId).
    + simpl. unfold CartModel.limit_message. simpl. discriminate.
    + assert (E : (Z.of_nat (List.length (CartModel.activeItems this))
                   >=? max_properties (settings this)) = false).
      { destruct (Z.geb_spec (Z.of_nat (List.length (CartModel.activeItems this)))
                    (max_properties (settings this))); [lia|reflexivity]. }
      rewrite E. simpl. discriminate.
Qed.

Lemma full_store_cart : findCart full_store "buyerA" = Some full_cart.
Proof. vm_compute. reflexivity. Qed.

Lemma sibling_paths_enforce_the_cart_limit_witness :
  snd (BuyerRoutes.add "buyerA" "P" (days 1) full_store) = full_store
  /\ fst (BuyerRoutes.add "buyerA" "P" (days 1) full_store)
     = Json 400 false "Cart limit reached (max 5 properties)"
  /\ fst (CartModel.addItem full_cart "P" (days 1))
     = Threw (Error "Cart limit reached. Maximum 5 properties allowed.").
Proof.
  destruct (sibling_paths_enforce_the_cart_limit full_store "buyerA" "P" (days 1)
              full_cart full_cart full_store_cart) as (Hfull & _ & Hitem & _).
  destruct (Hfull eq_refl) as (Hsame & Hrejected).
  destruct (Hitem eq_refl) as (_ & Hthrown & _).
  split; [exact Hsame|]. split.
  - rewrite (Hrejected (listed "P")).
    + reflexivity.
    + discriminate.
    + vm_compute. reflexivity.
    + reflexivity.
    + reflexivity.
  - rewrite Hthrown; reflexivity.
Defined.

(** C2 (the code at the failing input). Scenario D through the buyer
    controller: buyer A holds five active reservations, the limit, and
    asks for P, live and unlocked.  [addToCart] answers 500 with the
    TypeError of the undefined [cart.canAddProperty], not a capacity
    rejection; with room (after P5 was released, or for buyer B, who
    has no cart yet) it answers the same 500 and reserves nothing,
    where the call should not be rejected.  The sibling paths enforce
    the limit: POST /api/cart/add answers 400 'Cart limit reached (max
    5 properties)' and [Cart.addItem] throws 'Cart limit reached.
    Maximum 5 properties allowed.'  The limit they enforce is the
    cart's [settings.max_properties]; a cart made by POST /api/cart/add
    gets the literal 5 whatever the rule: with an active rule
    'cart_max_properties' of 2 a third reservation succeeds. *)
Lemma controller_capacity_check_throws :
  BuyerController.addToCart "buyerA" "P" (days 1) full_store
  = (Caught 500 (TypeError "cart.canAddProperty is not a function"), full_store)
  /\ BuyerController.addToCart "buyerA" "P" (days 1)
       (snd (BuyerRoutes.remove "buyerA" "P5" full_store))
     = (Caught 500 (TypeError "cart.canAddProperty is not a function"),
        snd (BuyerRoutes.remove "buyerA" "P5" full_store))
  /\ BuyerController.addToCart "buyerB" "P" (days 1) full_store
     = (Caught 500 (TypeError "cart.canAddProperty is not a function"),
        set_carts full_store (carts full_store ++ [mkCart "buyerB" [] (mkSettings 5 7 60)]))
  /\ BuyerRoutes.add "buyerA" "P" (days 1) full_store
     = (Json 400 false "Cart limit reached (max 5 properties)", full_store)
  /\ CartModel.addItem full_cart "P" (days 1)
     = (Threw (Error "Cart limit reached. Maximum 5 properties allowed."), full_cart)
  /\ fst (BuyerRoutes.add "buyerA" "P3" (days 1)
            (fold_left (fun st id => snd (BuyerRoutes.add "buyerA" id 0 st))
                       ["P1"; "P2"] limit_two_store))
     = Json 200 true "Property added to cart. You have 7 days to schedule a visit."
  /\ value_or (getRule limit_two_store "cart_max_properties") 5 = 2.
Proof. repeat split; vm_compute; reflexivity. Qed.

(** ** Two reservations of one property *)

(** Under the serial schedule the two requests are two handler runs. *)
Lemma run_one_after_the_other :
  forall (A : Type) (reads1 reads2 : Action A) (writes1 writes2 : A -> Action Response)
         (handler : Exn -> Response) (st : Store),
    run reads1 reads2 writes1 writes2 handler one_after_the_other Issued Issued st
    = (Answered (fst (try_catch (x <- reads1 ;; writes1 x) handler st)),
       Answered (fst (try_catch (x <- reads2 ;; writes2 x) handler
                        (snd (try_catch (x <- reads1 ;; writes1 x) handler st)))),
       snd (try_catch (x <- reads2 ;; writes2 x) handler
              (snd (try_catch (x <- reads1 ;; writes1 x) handler st)))).
Proof.
  intros A reads1 reads2 writes1 writes2 handler st.
  unfold one_after_the_other, run, step, try_catch, bind.
  destruct (reads1 st) as [[e|x] st1]; simpl.
  - destruct (reads2 st1) as [[e2|y] st2]; simpl; [reflexivity|].
    destruct (writes2 y st2) as [[e3|r] st3]; reflexivity.
  - destruct (writes1 x st1) as [[e1|r1] st2]; simpl;
      (destruct (reads2 st2) as [[e2|y] st3]; simpl; [reflexivity|]);
      destruct (writes2 y st3) as [[e3|r] st4]; reflexivity.
Qed.

(** Once the document with the id is locked, the availability filter
    finds nothing for that id. *)
Lemma locked_is_unavailable :
  forall (l : list Property) (propertyId buyerId : ObjectId) (now : Time),
    NoDup (map prop_id l) ->
    In propertyId (map prop_id l) ->
    find (BuyerController.available propertyId)
         (update_first (has_id propertyId)
            (fun p => set_cart_status (locked_by buyerId now) p) l) = None.
Proof.
  induction l as [|y l IH]; intros propertyId buyerId now Hnd Hin; simpl in *.
  - contradiction.
  - inversion Hnd as [|? ? Hnotin Hnd']; subst.
    unfold has_id at 1. destruct (String.eqb_spec (prop_id y) propertyId) as [E|E].
    + simpl. unfold BuyerController.available at 1. simpl.
      rewrite andb_false_r.
      apply find_none_filter. apply find_none_filter.
      clear IH Hin Hnd Hnd'. subst propertyId.
      induction l as [|z l IHl]; simpl; [reflexivity|].
      simpl in Hnotin.
      assert (Hz : String.eqb (prop_id z) (prop_id y) = false).
      { apply String.eqb_neq. intro Hzy. apply Hnotin. left. exact Hzy. }
      unfold BuyerController.available at 1, has_id. rewrite Hz. simpl.
      apply IHl. intro Hin. apply Hnotin. right. exact Hin.
    + simpl. unfold BuyerController.available at 1, has_id.
      apply String.eqb_neq in E. rewrite E. simpl.
      apply IH; [assumption|]. destruct Hin as [Hin|Hin]; [|assumption].
      apply String.eqb_neq in E. contradiction.
Qed.

Lemma available_property :
  forall (st : Store) (propertyId : ObjectId) (property : Property),
    find (BuyerController.available propertyId) (properties st) = Some property ->
    In property (properties st) /\ prop_id property = propertyId
    /\ in_cart (cart_status property) = false.
Proof.
  intros st propertyId property Hav. apply find_some in Hav as [Hin Hav].
  unfold BuyerController.available in Hav.
  apply andb_prop in Hav as [Hav Hfree]. apply andb_prop in Hav as [Hid _].
  apply String.eqb_eq in Hid. apply negb_true_iff in Hfree. auto.
Qed.

Lemma available_of_findById :
  forall (st : Store) (propertyId : ObjectId) (property : Property),
    findById st propertyId = Some property ->
    prop_status property = live ->
    in_cart (cart_status property) = false ->
    find (BuyerController.available propertyId) (properties st) = Some property.
Proof.
  intros st propertyId property Hfind Hlive Hfree. unfold findById in Hfind.
  destruct (find_split _ _ _ Hfind) as (l1 & l2 & -> & Hx & Hn).
  apply find_app_first.
  - apply find_none_filter. apply find_none_filter in Hn.
    clear - Hn. induction l1 as [|y l1 IH]; simpl in *; [reflexivity|].
    unfold BuyerController.available at 1.
    destruct (has_id propertyId y); [discriminate|]. simpl. now apply IH.
  - unfold BuyerController.available. now rewrite Hx, Hlive, Hfree.
Qed.

(** After the lock is written, [findById] returns the locked document. *)
Lemma findById_locked :
  forall (st : Store) (propertyId : ObjectId) (property : Property) (cs : CartStatus),
    findById st propertyId = Some property ->
    find (has_id propertyId)
         (update_first (has_id propertyId) (fun p => set_cart_status cs p) (properties st))
    = Some (set_cart_status cs property).
Proof.
  intros st propertyId property cs Hfind. unfold findById in Hfind.
  destruct (find_split _ _ _ Hfind) as (l1 & l2 & -> & Hx & Hn).
  rewrite update_first_app by assumption.
  apply find_app_first; assumption.
Qed.

(** POST /api/cart/add, served twice one after the other. *)
Lemma route_add_one_after_the_other :
  forall (st : Store) (userA userB propertyId : ObjectId) (nowA nowB : Time)
         (property : Property),
    propertyId <> "" ->
    findById st propertyId = Some property ->
    in_cart (cart_status property) = false ->
    prop_status property = live ->
    match findCart st userA with
    | Some cart =>
        Z.of_nat (List.length (CartModel.activeItems cart)) < max_properties (settings cart)
        /\ CartModel.isPropertyInCart cart propertyId = false
    | None => True
    end ->
    exists st1 : Store,
      BuyerRoutes.add userA propertyId nowA st
      = (Json 200 true "Property added to cart. You have 7 days to schedule a visit.", st1)
      /\ BuyerRoutes.add userB propertyId nowB st1
         = (Json 400 false "Property is already in another buyer's cart", st1).
Proof.
  intros st userA userB propertyId nowA nowB property Hid Hprop Hfree Hlive Hroom.
  pose proof Hprop as Hp. unfold findById in Hp. apply find_some in Hp as [_ Hp].
  apply String.eqb_eq in Hp. apply String.eqb_neq in Hid.
  assert (Hsecond : forall st1,
             properties st1
             = update_first (has_id propertyId)
                 (fun p => set_cart_status (locked_by userA nowA) p) (properties st) ->
             BuyerRoutes.add userB propertyId nowB st1
             = (Json 400 false "Property is already in another buyer's cart", st1)).
  { intros st1 Hprops.
    unfold BuyerRoutes.add, BuyerRoutes.add_checks, BuyerRoutes.add_after.
    open_handler. rewrite Hid. unfold findById. rewrite Hprops.
    rewrite (findById_locked st propertyId property _ Hprop). reflexivity. }
  unfold BuyerRoutes.add at 1, BuyerRoutes.add_checks, BuyerRoutes.add_after,
    BuyerRoutes.add_writes.
  open_handler. rewrite Hid, Hprop, Hfree, Hlive.
  change (negb (PropertyStatus_eqb live live)) with false. cbv beta iota.
  destruct (findCart st userA) as [cart|] eqn:Hcart.
  - destruct Hroom as [Hroom Hdup].
    assert (E : (Z.of_nat (List.length (filter status_active (items cart)))
                 >=? max_properties (settings cart)) = false).
    { unfold CartModel.activeItems in Hroom.
      destruct (Z.geb_spec (Z.of_nat (List.length (filter status_active (items cart))))
                  (max_properties (settings cart))); [lia|reflexivity]. }
    rewrite E.
    assert (D : existsb (fun it => String.eqb (item_property it) propertyId)
                        (filter status_active (items cart)) = false).
    { unfold CartModel.isPropertyInCart in Hdup.
      apply not_true_is_false. intros H. apply existsb_exists in H as (it & Hin & Hit).
      apply filter_In in Hin as [Hin Hact].
      assert (Hex : existsb (active_for propertyId) (items cart) = true).
      { apply existsb_exists. exists it. split; [assumption|].
        unfold active_for. now rewrite Hit, Hact. }
      congruence. }
    rewrite D. eexists. split; [reflexivity|]. apply Hsecond. simpl. now rewrite Hp.
  - simpl. eexists. split; [reflexivity|]. apply Hsecond. simpl. now rewrite Hp.
Qed.

(** The checks of POST /api/cart/add pass, and write nothing, for a
    live, unlocked property and a buyer whose cart has room and does
    not hold it. *)
Lemma route_add_checks_pass :
  forall (st : Store) (userId propertyId : ObjectId) (property : Property),
    propertyId <> "" ->
    findById st propertyId = Some property ->
    in_cart (cart_status property) = false ->
    prop_status property = live ->
    match findCart st userId with
    | Some cart =>
        Z.of_nat (List.length (CartModel.activeItems cart))
          < max_properties (settings cart)
        /\ CartModel.isPropertyInCart cart propertyId = false
    | None => True
    end ->
    exists (cart : Cart) (isNew : bool),
      BuyerRoutes.add_checks userId propertyId st = (inr (inr (property, cart, isNew)), st).
Proof.
  intros st userId propertyId property Hid Hprop Hfree Hlive Hroom.
  apply String.eqb_neq in Hid.
  unfold BuyerRoutes.add_checks. open_handler. rewrite Hid, Hprop, Hfree, Hlive.
  change (negb (PropertyStatus_eqb live live)) with false. cbv beta iota.
  destruct (findCart st userId) as [cart|] eqn:Hcart.
  - destruct Hroom as [Hroom Hdup].
    assert (E : (Z.of_nat (List.length (filter status_active (items cart)))
                 >=? max_properties (settings cart)) = false).
    { unfold CartModel.activeItems in Hroom.
      destruct (Z.geb_spec (Z.of_nat (List.length (filter status_active (items cart))))
                  (max_properties (settings cart))); [lia|reflexivity]. }
    rewrite E.
    assert (D : existsb (fun it => String.eqb (item_property it) propertyId)
                        (filter status_active (items cart)) = false).
    { unfold CartModel.isPropertyInCart in Hdup.
      apply not_true_is_false. intros H. apply existsb_exists in H as (it & Hin & Hit).
      apply filter_In in Hin as [Hin Hact].
      assert (Hex : existsb (active_for propertyId) (items cart) = true).
      { apply existsb_exists. exists it. split; [assumption|].
        unfold active_for. now rewrite Hit, Hact. }
      congruence. }
    rewrite D. eexists. eexists. reflexivity.
  - simpl. eexists. eexists. reflexivity.
Qed.




(** ** Non-active statuses are terminal *)

Lemma items_step_refl : forall l : list Item, items_step l l.
Proof. induction l; constructor; auto. Qed.

Lemma items_step_trans :
  forall l1 l2 : list Item,
    items_step l1 l2 -> forall l3 : list Item, items_step l2 l3 -> items_step l1 l3.
Proof.
  induction 1 as [l'|it it' l l' Hkeep H12 IH|it l l' Hact H12 IH]; intros l3 H23.
  - constructor.
  - inversion H23 as [|? it'' ? l'' Hkeep' H' |? ? ? Hact' H']; subst.
    + apply items_kept; [|now apply IH].
      intros Hna. rewrite <- (Hkeep Hna). apply Hkeep'. now rewrite (Hkeep Hna).
    + apply items_spliced; [|now apply IH].
      destruct (status_active it) eqn:E; [reflexivity|].
      rewrite (Hkeep eq_refl) in Hact'. congruence.
  - apply items_spliced; [assumption|now apply IH].
Qed.

Lemma items_step_prefix :
  forall l1 l2 l2' : list Item,
    items_step l2 l2' -> items_step (l1 ++ l2) (l1 ++ l2').
Proof. induction l1; intros; simpl; [assumption|]. constructor; auto. Qed.

Lemma items_step_replace :
  forall (l1 l2 : list Item) (x y : Item),
    status_active x = true -> items_step (l1 ++ x :: l2) (l1 ++ y :: l2).
Proof.
  intros l1 l2 x y Hx. apply items_step_prefix.
  apply items_kept; [congruence|apply items_step_refl].
Qed.

Lemma items_step_splice :
  forall (l1 l2 : list Item) (x : Item),
    status_active x = true -> items_step (l1 ++ x :: l2) (l1 ++ l2).
Proof.
  intros l1 l2 x Hx. apply items_step_prefix.
  apply items_spliced; [assumption|apply items_step_refl].
Qed.

Lemma items_step_push :
  forall l new : list Item, items_step l (l ++ new).
Proof.
  intros l new. rewrite <- (app_nil_r l) at 1.
  apply items_step_prefix. constructor.
Qed.

Lemma items_step_map :
  forall (g : Item -> Item) (l : list Item),
    (forall it, status_active it = false -> g it = it) -> items_step l (map g l).
Proof. intros g l Hg. induction l; simpl; constructor; auto. Qed.

Lemma active_for_active :
  forall (propertyId : ObjectId) (it : Item),
    active_for propertyId it = true -> status_active it = true.
Proof. intros propertyId it H. now apply andb_prop in H. Qed.

(** The three ways the handlers rewrite the items of a cart. *)
Lemma items_step_update_first :
  forall (propertyId : ObjectId) (f : Item -> Item) (l : list Item),
    items_step l (update_first (active_for propertyId) f l).
Proof.
  intros propertyId f l.
  destruct (find (active_for propertyId) l) as [x|] eqn:Hfind.
  - destruct (find_split _ _ _ Hfind) as (l1 & l2 & -> & Hx & Hn).
    rewrite update_first_app by assumption.
    apply items_step_replace. now apply active_for_active in Hx.
  - rewrite update_first_absent by assumption. apply items_step_refl.
Qed.

Lemma items_step_update_at :
  forall (propertyId : ObjectId) (f : Item -> Item) (l : list Item) (i : nat),
    findIndex (active_for propertyId) l = Some i ->
    items_step l (update_at i f l).
Proof.
  intros propertyId f l i Hi.
  destruct (findIndex_split _ _ _ Hi) as (l1 & x & l2 & -> & <- & Hx & Hn).
  rewrite update_at_app. apply items_step_replace. now apply active_for_active in Hx.
Qed.

Lemma items_step_splice1 :
  forall (propertyId : ObjectId) (l : list Item) (i : nat),
    findIndex (active_for propertyId) l = Some i ->
    items_step l (splice1 i l).
Proof.
  intros propertyId l i Hi.
  destruct (findIndex_split _ _ _ Hi) as (l1 & x & l2 & -> & <- & Hx & Hn).
  rewrite splice1_app. apply items_step_splice. now apply active_for_active in Hx.
Qed.

Lemma check_item_keeps_non_active :
  forall (now : Time) (ms : Z) (it : Item),
    status_active it = false -> fst (CartModel.check_item now ms it) = it.
Proof.
  intros now ms it Hna. unfold CartModel.check_item. rewrite Hna. simpl.
  destruct (item_booking_window_end it); [rewrite Hna|]; reflexivity.
Qed.

Lemma carts_step_refl : forall l : list Cart, carts_step l l.
Proof. induction l; constructor; auto using items_step_refl. Qed.

Lemma carts_step_trans :
  forall l1 l2 : list Cart,
    carts_step l1 l2 -> forall l3 : list Cart, carts_step l2 l3 -> carts_step l1 l3.
Proof.
  induction 1 as [l'|c c' l l' Hb Hitems H12 IH]; intros l3 H23.
  - constructor.
  - inversion H23 as [|? c'' ? l'' Hb' Hitems' H']; subst.
    constructor; [congruence|eapply items_step_trans; eassumption|now apply IH].
Qed.

Lemma carts_step_prefix :
  forall l1 l2 l2' : list Cart,
    carts_step l2 l2' -> carts_step (l1 ++ l2) (l1 ++ l2').
Proof.
  induction l1; intros; simpl; [assumption|].
  constructor; auto using items_step_refl.
Qed.

(** A new cart is appended. *)
Lemma carts_step_created :
  forall (l : list Cart) (new : list Cart), carts_step l (l ++ new).
Proof.
  intros l new. rewrite <- (app_nil_r l) at 1. apply carts_step_prefix. constructor.
Qed.

(** [cart.save()] of a found cart whose items made a legal step. *)
Lemma carts_step_saved :
  forall (l : list Cart) (cart cart' : Cart),
    find (of_buyer (buyer cart)) l = Some cart ->
    buyer cart' = buyer cart ->
    items_step (items cart) (items cart') ->
    carts_step l (update_first (of_buyer (buyer cart')) (fun _ => cart') l).
Proof.
  intros l cart cart' Hfind Hb Hitems. rewrite Hb.
  destruct (find_split _ _ _ Hfind) as (l1 & l2 & -> & Hx & Hn).
  rewrite update_first_app by assumption.
  apply carts_step_prefix. constructor; [assumption|assumption|apply carts_step_refl].
Qed.

Lemma buyers_saved :
  forall (l : list Cart) (cart' : Cart),
    map buyer (update_first (of_buyer (buyer cart')) (fun _ => cart') l) = map buyer l.
Proof.
  intros l cart'. induction l as [|c l IH]; simpl; [reflexivity|].
  unfold of_buyer at 1. destruct (String.eqb_spec (buyer c) (buyer cart')) as [E|E]; simpl.
  - now rewrite E.
  - now rewrite IH.
Qed.

Lemma ids_updated :
  forall (sel : Property -> bool) (f : Property -> CartStatus) (l : list Property),
    map prop_id (update_first sel (fun p => set_cart_status (f p) p) l) = map prop_id l.
Proof.
  intros sel f l. induction l as [|p l IH]; simpl; [reflexivity|].
  destruct (sel p); simpl; [reflexivity|now rewrite IH].
Qed.

Lemma ids_unlocked :
  forall (sel : Property -> bool) (l : list Property),
    map prop_id (unlock_where sel l) = map prop_id l.
Proof.
  intros sel l. unfold unlock_where. rewrite map_map. apply map_ext.
  intros p. destruct (sel p); reflexivity.
Qed.

Lemma find_buyer_absent :
  forall (l : list Cart) (userId : ObjectId),
    find (of_buyer userId) l = None -> ~ In userId (map buyer l).
Proof.
  intros l userId Hfind Hin. apply in_map_iff in Hin as (c & Hc & Hin).
  pose proof (find_none _ _ Hfind c Hin) as H. unfold of_buyer in H.
  rewrite Hc, String.eqb_refl in H. discriminate.
Qed.

(** With one cart per buyer, the cart found by any query is the one
    [Cart.findOne({ buyer })] returns. *)
Lemma find_by_buyer_unique :
  forall (l : list Cart) (c : Cart),
    NoDup (map buyer l) -> In c l -> find (of_buyer (buyer c)) l = Some c.
Proof.
  induction l as [|d l IH]; intros c Hnd Hin; [contradiction|].
  simpl in *. inversion Hnd as [|? ? Hnotin Hnd']; subst.
  destruct Hin as [->|Hin].
  - unfold of_buyer. now rewrite String.eqb_refl.
  - unfold of_buyer at 1. destruct (String.eqb_spec (buyer d) (buyer c)) as [E|E].
    + exfalso. apply Hnotin. rewrite E. now apply in_map.
    + now apply IH.
Qed.

(** The shapes of a handler's effect on the collections. *)
Lemma step_by_nothing :
  forall st st' : Store,
    well_formed st ->
    carts st' = carts st ->
    map prop_id (properties st') = map prop_id (properties st) ->
    well_formed st' /\ carts_step (carts st) (carts st').
Proof.
  intros st st' [Hp Hc] Hcarts Hids. unfold well_formed.
  rewrite Hcarts, Hids. auto using carts_step_refl.
Qed.

Lemma step_by_save :
  forall (st st' : Store) (cart cart' : Cart),
    well_formed st ->
    find (of_buyer (buyer cart)) (carts st) = Some cart ->
    buyer cart' = buyer cart ->
    items_step (items cart) (items cart') ->
    carts st' = update_first (of_buyer (buyer cart')) (fun _ => cart') (carts st) ->
    map prop_id (properties st') = map prop_id (properties st) ->
    well_formed st' /\ carts_step (carts st) (carts st').
Proof.
  intros st st' cart cart' [Hp Hc] Hfind Hb Hitems Hcarts Hids. unfold well_formed.
  rewrite Hcarts, Hids, buyers_saved. split; [auto|].
  now apply carts_step_saved with cart.
Qed.

Lemma step_by_create :
  forall (st st' : Store) (cart : Cart),
    well_formed st ->
    find (of_buyer (buyer cart)) (carts st) = None ->
    carts st' = carts st ++ [cart] ->
    map prop_id (properties st') = map prop_id (properties st) ->
    well_formed st' /\ carts_step (carts st) (carts st').
Proof.
  intros st st' cart [Hp Hc] Hfind Hcarts Hids. unfold well_formed.
  rewrite Hcarts, Hids, map_app. simpl. split; [split; [assumption|]|].
  - apply NoDup_app; [assumption|repeat constructor; intros []|].
    intros x Hx [<-|[]]. revert Hx. now apply find_buyer_absent.
  - apply carts_step_created.
Qed.

(** Notifications and commissions leave carts and properties alone. *)
Lemma createNotification_frame :
  forall (st : Store) (userId : ObjectId) (type title : string) (propertyId : ObjectId),
    carts (snd (createNotification st userId type title propertyId)) = carts st
    /\ properties (snd (createNotification st userId type title propertyId)) = properties st
    /\ commissions (snd (createNotification st userId type title propertyId)) = commissions st.
Proof.
  intros. unfold createNotification.
  destruct (existsb (String.eqb type) notification_types); auto.
Qed.

Lemma createCommission_frame :
  forall (st : Store) (c : Commission),
    carts (snd (createCommission st c)) = carts st
    /\ properties (snd (createCommission st c)) = properties st.
Proof.
  intros. unfold createCommission. destruct (CommissionModel.valid c); auto.
Qed.

Ltac frame_await :=
  match goal with
  | |- context [createNotification ?s ?u ?t ?ti ?p] =>
      let Hc := fresh "Hcarts" in
      let Hp := fresh "Hprops" in
      destruct (createNotification_frame s u t ti p) as (Hc & Hp & _);
      destruct (createNotification s u t ti p) as [[|?] ?];
      simpl in Hc, Hp
  | |- context [createCommission ?s ?c] =>
      let Hc := fresh "Hcarts" in
      let Hp := fresh "Hprops" in
      destruct (createCommission_frame s c) as (Hc & Hp);
      destruct (createCommission s c) as [[|?] ?];
      simpl in Hc, Hp
  end.

Lemma removeFromCart_step :
  forall (st : Store) (userId propertyId : ObjectId),
    well_formed st ->
    well_formed (snd (BuyerController.removeFromCart userId propertyId st))
    /\ carts_step (carts st) (carts (snd (BuyerController.removeFromCart userId propertyId st))).
Proof.
  intros st userId propertyId Hwf.
  unfold BuyerController.removeFromCart. open_handler.
  destruct (findCart st userId) as [cart|] eqn:Hcart;
    [|simpl; now apply step_by_nothing].
  destruct (findIndex (active_for propertyId) (items cart)) as [i|] eqn:Hi;
    [|simpl; now apply step_by_nothing].
  pose proof (findCart_buyer _ _ _ Hcart) as Hb. unfold findCart in Hcart.
  rewrite <- Hb in Hcart.
  assert (Hstep : items_step (items cart) (splice1 i (items cart)))
    by (eapply items_step_splice1; eassumption).
  cbv beta iota.
  destruct (findById _ propertyId) as [property|]; repeat frame_await; simpl;
    apply step_by_save with cart (set_items cart (splice1 i (items cart)));
    try assumption; try reflexivity;
    try (rewrite Hprops; simpl; apply ids_updated);
    try (rewrite Hcarts; reflexivity);
    try (simpl; apply ids_updated).
Qed.

Lemma update_first_appended :
  forall (A : Type) (p : A -> bool) (f : A -> A) (l : list A) (x : A),
    find p l = None -> p x = true -> update_first p f (l ++ [x]) = l ++ [f x].
Proof. intros. now apply update_first_app. Qed.

Lemma addToCart_step :
  forall (st : Store) (userId propertyId : ObjectId) (now : Time),
    well_formed st ->
    well_formed (snd (BuyerController.addToCart userId propertyId now st))
    /\ carts_step (carts st) (carts (snd (BuyerController.addToCart userId propertyId now st))).
Proof.
  intros st userId propertyId now Hwf.
  destruct (addToCart_never_reserves st userId propertyId now)
    as (_ & Hprops & [Hcarts|(s0 & Hnone & _ & Hcarts)]).
  - apply step_by_nothing; [assumption|assumption|now rewrite Hprops].
  - apply step_by_create with (mkCart userId [] s0);
      [assumption|exact Hnone|exact Hcarts|now rewrite Hprops].
Qed.

(** [step_by_save] for the document the handlers save: the found cart
    with new items. *)
Lemma step_by_items :
  forall (st st' : Store) (cart : Cart) (l' : list Item),
    well_formed st ->
    find (of_buyer (buyer cart)) (carts st) = Some cart ->
    carts st' = update_first (of_buyer (buyer cart)) (fun _ => set_items cart l') (carts st) ->
    items_step (items cart) l' ->
    map prop_id (properties st') = map prop_id (properties st) ->
    well_formed st' /\ carts_step (carts st) (carts st').
Proof.
  intros st st' cart l' Hwf Hfind Hcarts Hitems Hids.
  apply (step_by_save st st' cart (set_items cart l')); auto.
Qed.

Ltac chase :=
  repeat match goal with
         | H : carts ?s = _ |- context [carts ?s] => rewrite H
         | H : properties ?s = _ |- context [properties ?s] => rewrite H
         end.

Lemma buyer_confirmVisit_step :
  forall (st : Store) (userId propertyId : ObjectId) (now : Time),
    well_formed st ->
    well_formed (snd (BuyerController.confirmVisit userId propertyId now st))
    /\ carts_step (carts st)
         (carts (snd (BuyerController.confirmVisit userId propertyId now st))).
Proof.
  intros st userId propertyId now Hwf.
  unfold BuyerController.confirmVisit. open_handler.
  destruct (findCart st userId) as [cart|] eqn:Hcart;
    [|simpl; now apply step_by_nothing].
  destruct (find (active_for propertyId) (items cart)) as [cartItem|] eqn:Hitem;
    [|simpl; now apply step_by_nothing].
  destruct (now >? _); [simpl; now apply step_by_nothing|].
  pose proof (findCart_buyer _ _ _ Hcart) as Hb. unfold findCart in Hcart.
  rewrite <- Hb in Hcart.
  cbv beta iota.
  destruct (findById _ propertyId) as [property|];
    [destruct (broker property)|];
    repeat frame_await; simpl;
    (eapply step_by_items;
     [ exact Hwf | exact Hcart | chase; reflexivity
     | apply items_step_update_first
     | chase; simpl; apply ids_updated ]).
Qed.

Lemma broker_confirmVisit_step :
  forall (st : Store) (userId propertyId buyerId : ObjectId) (now : Time),
    well_formed st ->
    well_formed (snd (BrokerController.confirmVisit userId propertyId buyerId now st))
    /\ carts_step (carts st)
         (carts (snd (BrokerController.confirmVisit userId propertyId buyerId now st))).
Proof.
  intros st userId propertyId buyerId now Hwf.
  unfold BrokerController.confirmVisit. open_handler.
  destruct (findCart st buyerId) as [cart|] eqn:Hcart;
    [|simpl; now apply step_by_nothing].
  destruct (find (active_for propertyId) (items cart)) as [cartItem|] eqn:Hitem;
    [|simpl; now apply step_by_nothing].
  destruct (findById st propertyId) as [property|];
    [|simpl; now apply step_by_nothing].
  destruct (broker property) as [b|]; [|simpl; now apply step_by_nothing].
  destruct (negb (String.eqb b userId)); [simpl; now apply step_by_nothing|].
  pose proof (findCart_buyer _ _ _ Hcart) as Hb. unfold findCart in Hcart.
  rewrite <- Hb in Hcart.
  cbv beta iota.
  destruct (negb (String.eqb (added_by_user property) userId));
    repeat frame_await; simpl;
    (eapply step_by_items;
     [ exact Hwf | exact Hcart | chase; reflexivity
     | apply items_step_update_first
     | chase; simpl; apply ids_updated ]).
Qed.

Lemma route_confirm_step :
  forall (st : Store) (userId propertyId : ObjectId) (method : Method)
         (notes : option string) (now : Time),
    well_formed st ->
    well_formed (snd (BrokerRoutes.confirm userId propertyId method notes now st))
    /\ carts_step (carts st)
         (carts (snd (BrokerRoutes.confirm userId propertyId method notes now st))).
Proof.
  intros st userId propertyId method notes now Hwf.
  unfold BrokerRoutes.confirm. open_handler.
  destruct (find _ (properties st)) as [property|];
    [|simpl; now apply step_by_nothing].
  destruct (find (BrokerRoutes.in_active_cart propertyId) (carts st)) as [cart|] eqn:Hcart;
    [|simpl; now apply step_by_nothing].
  destruct (find (active_for propertyId) (items cart)) as [cartItem|] eqn:Hitem;
    [|simpl; now apply step_by_nothing].
  destruct (now >? _); [simpl; now apply step_by_nothing|].
  assert (Hfound : find (of_buyer (buyer cart)) (carts st) = Some cart).
  { apply find_by_buyer_unique; [apply Hwf|]. now apply find_some in Hcart. }
  cbv beta iota.
  destruct (negb (String.eqb (added_by_user property) userId)
            || negb (Role_eqb (added_by_role property) broker_role));
    [destruct (CommissionModel.calculateCommission _ _ _ _)|];
    repeat frame_await; simpl;
    (eapply step_by_items;
     [ exact Hwf | exact Hfound | chase; reflexivity
     | apply items_step_update_first
     | chase; simpl; apply ids_updated ]).
Qed.

Lemma route_add_step :
  forall (st : Store) (userId propertyId : ObjectId) (now : Time),
    well_formed st ->
    well_formed (snd (BuyerRoutes.add userId propertyId now st))
    /\ carts_step (carts st) (carts (snd (BuyerRoutes.add userId propertyId now st))).
Proof.
  intros st userId propertyId now Hwf.
  unfold BuyerRoutes.add, BuyerRoutes.add_checks, BuyerRoutes.add_after,
    BuyerRoutes.add_writes.
  open_handler.
  destruct (String.eqb propertyId ""); [simpl; now apply step_by_nothing|].
  destruct (findById st propertyId) as [property|];
    [|simpl; now apply step_by_nothing].
  destruct (in_cart (cart_status property)); [simpl; now apply step_by_nothing|].
  destruct (negb (PropertyStatus_eqb (prop_status property) live));
    [simpl; now apply step_by_nothing|].
  destruct (findCart st userId) as [cart|] eqn:Hcart.
  - destruct (_ >=? _); [simpl; now apply step_by_nothing|].
    destruct (existsb _ _); [simpl; now apply step_by_nothing|].
    pose proof (findCart_buyer _ _ _ Hcart) as Hb. unfold findCart in Hcart.
    rewrite <- Hb in Hcart. simpl.
    eapply step_by_items;
      [ exact Hwf | exact Hcart | reflexivity
      | apply items_step_push | simpl; apply ids_updated ].
  - destruct (_ >=? _); [simpl; now apply step_by_nothing|].
    destruct (existsb _ _); [simpl; now apply step_by_nothing|].
    simpl.
    eapply step_by_create; [exact Hwf| |reflexivity|simpl; apply ids_updated].
    exact Hcart.
Qed.

Lemma route_remove_step :
  forall (st : Store) (userId propertyId : ObjectId),
    well_formed st ->
    well_formed (snd (BuyerRoutes.remove userId propertyId st))
    /\ carts_step (carts st) (carts (snd (BuyerRoutes.remove userId propertyId st))).
Proof.
  intros st userId propertyId Hwf.
  unfold BuyerRoutes.remove. open_handler.
  destruct (String.eqb propertyId ""); [simpl; now apply step_by_nothing|].
  destruct (findCart st userId) as [cart|] eqn:Hcart;
    [|simpl; now apply step_by_nothing].
  destruct (findIndex (active_for propertyId) (items cart)) as [i|] eqn:Hi;
    [|simpl; now apply step_by_nothing].
  pose proof (findCart_buyer _ _ _ Hcart) as Hb. unfold findCart in Hcart.
  rewrite <- Hb in Hcart. simpl.
  eapply step_by_items;
    [ exact Hwf | exact Hcart | reflexivity
    | eapply items_step_update_at; eassumption | simpl; apply ids_updated ].
Qed.

Lemma cleanExpiredItems_step :
  forall (l : list Cart) (now : Time),
    map buyer (fst (CartModel.cleanExpiredItems l now)) = map buyer l
    /\ carts_step l (fst (CartModel.cleanExpiredItems l now)).
Proof.
  intros l now. induction l as [|c l [IHb IHs]]; simpl.
  - split; [reflexivity|constructor].
  - destruct (CartModel.cleanExpiredItems l now) as [rest n]. simpl in *.
    split; [now rewrite IHb|].
    constructor; [reflexivity| |assumption]. simpl.
    rewrite map_map. apply items_step_map.
    intros it. apply check_item_keeps_non_active.
Qed.

Lemma sweeps_step :
  forall (st : Store) (now : Time),
    well_formed st ->
    (well_formed (SimpleCleanupService.cleanupExpiredItems now st)
     /\ carts_step (carts st) (carts (SimpleCleanupService.cleanupExpiredItems now st)))
    /\ (well_formed (CartCleanupService.cleanupExpiredItems now st)
        /\ carts_step (carts st) (carts (CartCleanupService.cleanupExpiredItems now st))).
Proof.
  intros st now Hwf. split.
  - apply step_by_nothing; [assumption|reflexivity|].
    unfold SimpleCleanupService.cleanupExpiredItems. simpl.
    now rewrite !ids_unlocked.
  - destruct (cleanExpiredItems_step (carts st) now) as [Hb Hs].
    destruct Hwf as [Hp Hc].
    unfold CartCleanupService.cleanupExpiredItems, well_formed. simpl.
    rewrite ids_unlocked, Hb. auto.
Qed.

(** Every request keeps the store well formed and leaves every
    non-active item as it is. *)
Lemma serve_step :
  forall (rq : Request) (now : Time) (st : Store),
    well_formed st ->
    well_formed (serve rq now st) /\ carts_step (carts st) (carts (serve rq now st)).
Proof.
  intros rq now st Hwf. destruct rq; simpl.
  - now apply addToCart_step.
  - now apply removeFromCart_step.
  - now apply buyer_confirmVisit_step.
  - now apply broker_confirmVisit_step.
  - now apply route_confirm_step.
  - now apply route_add_step.
  - now apply route_remove_step.
  - now apply sweeps_step.
  - now apply sweeps_step.
Qed.

Lemma reachable_step :
  forall st st' : Store,
    well_formed st -> reachable st st' ->
    well_formed st' /\ carts_step (carts st) (carts st').
Proof.
  intros st st' Hwf Hreach. induction Hreach as [|mid rq now Hreach [IHwf IHstep]].
  - split; [assumption|apply carts_step_refl].
  - destruct (serve_step rq now mid IHwf) as [Hwf' Hstep].
    split; [assumption|]. eapply carts_step_trans; eassumption.
Qed.

Lemma items_step_keeps :
  forall l l' : list Item,
    items_step l l' ->
    forall item : Item, In item l -> status_active item = false -> In item l'.
Proof.
  induction 1 as [l'|it it' l l' Hkeep H IH|it l l' Hact H IH];
    intros item Hin Hna; simpl in *.
  - contradiction.
  - destruct Hin as [->|Hin]; [left; now apply Hkeep|right; now apply IH].
  - destruct Hin as [->|Hin]; [congruence|now apply IH].
Qed.

Lemma carts_step_keeps :
  forall l l' : list Cart,
    carts_step l l' ->
    forall (cart : Cart) (item : Item),
      In cart l -> In item (items cart) -> status_active item = false ->
      exists cart' : Cart,
        In cart' l' /\ buyer cart' = buyer cart /\ In item (items cart').
Proof.
  induction 1 as [l'|c c' l l' Hb Hitems H IH]; intros cart item Hin Hitem Hna;
    simpl in *.
  - contradiction.
  - destruct Hin as [->|Hin].
    + exists c'. split; [now left|]. split; [assumption|].
      eapply items_step_keeps; eassumption.
    + destruct (IH cart item Hin Hitem Hna) as (cart' & Hin' & Hb' & Hitem').
      exists cart'. auto.
Qed.

Lemma not_active_status :
  forall it : Item, item_status it <> Active <-> status_active it = false.
Proof.
  intros it. unfold status_active. destruct (item_status it); simpl; split;
    intro H; try reflexivity; try discriminate; try (now elim H).
Qed.


Lemma scenario_store_well_formed : well_formed scenario_store.
Proof. split; simpl; repeat constructor. intros []. Qed.

Lemma swept_store_well_formed : well_formed swept_store.
Proof.
  split; simpl; repeat constructor; intros []; contradiction || discriminate.
Qed.



(** ** The lock mirror and the reservations *)

(** Counting the active items for a property. *)
Lemma refs_saved :
  forall (cs : list Cart) (b : ObjectId) (cart cart' : Cart) (q : ObjectId),
    find (of_buyer b) cs = Some cart ->
    (active_refs (update_first (of_buyer b) (fun _ => cart') cs) q
     + List.length (filter (active_for q) (items cart))
     = active_refs cs q + List.length (filter (active_for q) (items cart')))%nat.
Proof.
  intros cs b cart cart' q Hfind.
  destruct (find_split _ _ _ Hfind) as (l1 & l2 & -> & Hx & Hn).
  rewrite update_first_app by assumption.
  unfold active_refs. rewrite !map_app, !list_sum_app. simpl. lia.
Qed.

Lemma refs_created :
  forall (cs : list Cart) (c : Cart) (q : ObjectId),
    active_refs (cs ++ [c]) q
    = (active_refs cs q + List.length (filter (active_for q) (items c)))%nat.
Proof.
  intros. unfold active_refs. rewrite map_app, list_sum_app. simpl. lia.
Qed.

Lemma active_for_other :
  forall (p q : ObjectId) (it : Item),
    active_for p it = true -> q <> p -> active_for q it = false.
Proof.
  intros p q it Hp Hq. unfold active_for in *.
  apply andb_prop in Hp as [Hp _]. apply String.eqb_eq in Hp.
  apply andb_false_intro1. apply String.eqb_neq. congruence.
Qed.

Lemma count_pushed :
  forall (l : list Item) (propertyId q : ObjectId) (now : Time) (bwe : option Time),
    List.length (filter (active_for q) (l ++ [new_item propertyId now bwe]))
    = (List.length (filter (active_for q) l)
       + if String.eqb propertyId q then 1 else 0)%nat.
Proof.
  intros. rewrite filter_app, length_app. simpl. unfold active_for at 2. simpl.
  rewrite andb_true_r. destruct (String.eqb propertyId q); reflexivity.
Qed.

Lemma count_replaced :
  forall (l1 l2 : list Item) (x : Item) (mid : list Item) (q : ObjectId),
    (List.length (filter (active_for q) (l1 ++ mid ++ l2))
     + List.length (filter (active_for q) [x])
     = List.length (filter (active_for q) (l1 ++ x :: l2))
       + List.length (filter (active_for q) mid))%nat.
Proof.
  intros. rewrite !filter_app, !length_app. simpl.
  destruct (active_for q x); simpl; lia.
Qed.

(** Splicing out, or marking removed, the active item for [propertyId]
    takes one reference from [propertyId] and none from others. *)
Lemma count_spliced :
  forall (l : list Item) (i : nat) (propertyId q : ObjectId),
    findIndex (active_for propertyId) l = Some i ->
    (List.length (filter (active_for q) (splice1 i l))
     + (if String.eqb propertyId q then 1 else 0)
     = List.length (filter (active_for q) l))%nat.
Proof.
  intros l i propertyId q Hi.
  destruct (findIndex_split _ _ _ Hi) as (l1 & x & l2 & -> & <- & Hx & Hn).
  rewrite splice1_app.
  pose proof (count_replaced l1 l2 x [] q) as H. simpl in H.
  destruct (String.eqb_spec propertyId q) as [<-|Hq].
  - rewrite Hx in H. simpl in H. lia.
  - rewrite (active_for_other propertyId q x Hx) in H by congruence. simpl in H. lia.
Qed.

Lemma count_removed :
  forall (l : list Item) (i : nat) (propertyId q : ObjectId),
    findIndex (active_for propertyId) l = Some i ->
    (List.length (filter (active_for q) (update_at i (set_item_status Removed) l))
     + (if String.eqb propertyId q then 1 else 0)
     = List.length (filter (active_for q) l))%nat.
Proof.
  intros l i propertyId q Hi.
  destruct (findIndex_split _ _ _ Hi) as (l1 & x & l2 & -> & <- & Hx & Hn).
  rewrite update_at_app.
  pose proof (count_replaced l1 l2 x [set_item_status Removed x] q) as H.
  simpl in H. rewrite removed_item_not_active in H.
  destruct (String.eqb_spec propertyId q) as [<-|Hq].
  - rewrite Hx in H. simpl in H. lia.
  - rewrite (active_for_other propertyId q x Hx) in H by congruence. simpl in H. lia.
Qed.

(** An update that keeps [property] and [status] keeps every count. *)
Lemma count_updated :
  forall (sel : Item -> bool) (f : Item -> Item) (l : list Item) (q : ObjectId),
    (forall it, item_property (f it) = item_property it
                /\ item_status (f it) = item_status it) ->
    List.length (filter (active_for q) (update_first sel f l))
    = List.length (filter (active_for q) l).
Proof.
  intros sel f l q Hf. induction l as [|x l IH]; simpl; [reflexivity|].
  destruct (sel x); simpl.
  - assert (E : active_for q (f x) = active_for q x).
    { unfold active_for, status_active. destruct (Hf x) as [-> ->]. reflexivity. }
    rewrite E. destruct (active_for q x); reflexivity.
  - destruct (active_for q x); simpl; now rewrite IH.
Qed.

(** Membership after the update of the document with an id. *)
Lemma in_updated_property :
  forall (l : list Property) (propertyId : ObjectId) (g : CartStatus -> CartStatus)
         (p : Property),
    NoDup (map prop_id l) ->
    In p (update_first (has_id propertyId)
            (fun p => set_cart_status (g (cart_status p)) p) l) ->
    (In p l /\ prop_id p <> propertyId)
    \/ (exists p0, In p0 l /\ prop_id p0 = propertyId
                   /\ p = set_cart_status (g (cart_status p0)) p0).
Proof.
  induction l as [|y l IH]; intros propertyId g p Hnd Hin; simpl in *; [contradiction|].
  inversion Hnd as [|? ? Hnotin Hnd']; subst.
  unfold has_id at 1 in Hin.
  destruct (String.eqb_spec (prop_id y) propertyId) as [E|E]; simpl in Hin.
  - destruct Hin as [<-|Hin].
    + right. exists y. auto.
    + left. split; [now right|]. intros Hp. apply Hnotin.
      rewrite E, <- Hp. now apply in_map.
  - destruct Hin as [<-|Hin].
    + left. auto.
    + destruct (IH propertyId g p Hnd' Hin) as [[H1 H2]|(p0 & H1 & H2 & H3)].
      * left. auto.
      * right. exists p0. auto.
Qed.

(** The agreement after a handler that touched the lock of one
    property: references to the others are as before, and the lock and
    the references of the touched one agree again. *)
Lemma agrees_after :
  forall (st st' : Store) (propertyId : ObjectId) (g : CartStatus -> CartStatus),
    well_formed st -> lock_agrees st ->
    properties st'
    = update_first (has_id propertyId)
        (fun p => set_cart_status (g (cart_status p)) p) (properties st) ->
    (forall q, q <> propertyId ->
               active_refs (carts st') q = active_refs (carts st) q) ->
    (forall p0, In p0 (properties st) -> prop_id p0 = propertyId ->
                (in_cart (g (cart_status p0)) = true
                 <-> active_refs (carts st') propertyId = 1%nat)
                /\ (active_refs (carts st') propertyId <= 1)%nat) ->
    lock_agrees st'.
Proof.
  intros st st' propertyId g [Hnd _] Hagree Hprops Hothers Hthis p Hin.
  rewrite Hprops in Hin.
  destruct (in_updated_property _ _ _ _ Hnd Hin) as [[Hp Hne]|(p0 & Hp0 & Hid & ->)].
  - rewrite Hothers by assumption. now apply Hagree.
  - simpl. rewrite Hid. now apply Hthis.
Qed.

Lemma agrees_unchanged :
  forall st st' : Store,
    lock_agrees st -> carts st' = carts st -> properties st' = properties st ->
    lock_agrees st'.
Proof.
  intros st st' Hagree Hc Hp p Hin. rewrite Hc. rewrite Hp in Hin. now apply Hagree.
Qed.

(** A confirmation: the saved items keep every count, the lock keeps
    [in_cart]. *)
Lemma agrees_by_items_neutral :
  forall (st st' : Store) (cart : Cart) (l' : list Item) (propertyId : ObjectId)
         (g : CartStatus -> CartStatus),
    well_formed st -> lock_agrees st ->
    find (of_buyer (buyer cart)) (carts st) = Some cart ->
    carts st' = update_first (of_buyer (buyer cart)) (fun _ => set_items cart l') (carts st) ->
    properties st'
    = update_first (has_id propertyId)
        (fun p => set_cart_status (g (cart_status p)) p) (properties st) ->
    (forall q, List.length (filter (active_for q) l')
               = List.length (filter (active_for q) (items cart))) ->
    (forall cs, in_cart (g cs) = in_cart cs) ->
    lock_agrees st'.
Proof.
  intros st st' cart l' propertyId g Hwf Hagree Hfind Hcarts Hprops Hcount Hflag.
  assert (Hrefs : forall q, active_refs (carts st') q = active_refs (carts st) q).
  { intros q. rewrite Hcarts.
    pose proof (refs_saved (carts st) (buyer cart) cart (set_items cart l') q Hfind) as H.
    simpl in H. rewrite Hcount in H. lia. }
  apply (agrees_after st st' propertyId g); auto.
  intros p0 Hin Hid. rewrite Hflag, Hrefs, <- Hid. now apply Hagree.
Qed.

(** A reservation: the saved items gain one reference to a property
    that was unlocked, and the lock is set. *)
Lemma agrees_by_items_lock :
  forall (st st' : Store) (cart : Cart) (l' : list Item) (propertyId : ObjectId)
         (g : CartStatus -> CartStatus) (p0 : Property),
    well_formed st -> lock_agrees st ->
    find (of_buyer (buyer cart)) (carts st) = Some cart ->
    carts st' = update_first (of_buyer (buyer cart)) (fun _ => set_items cart l') (carts st) ->
    properties st'
    = update_first (has_id propertyId)
        (fun p => set_cart_status (g (cart_status p)) p) (properties st) ->
    (forall q, List.length (filter (active_for q) l')
               = (List.length (filter (active_for q) (items cart))
                  + if String.eqb propertyId q then 1 else 0)%nat) ->
    (forall cs, in_cart (g cs) = true) ->
    In p0 (properties st) -> prop_id p0 = propertyId ->
    in_cart (cart_status p0) = false ->
    lock_agrees st'.
Proof.
  intros st st' cart l' propertyId g p0 Hwf Hagree Hfind Hcarts Hprops Hcount Hflag
         Hin Hid Hfree.
  assert (Hrefs : forall q, active_refs (carts st') q
                            = (active_refs (carts st) q
                               + if String.eqb propertyId q then 1 else 0)%nat).
  { intros q. rewrite Hcarts.
    pose proof (refs_saved (carts st) (buyer cart) cart (set_items cart l') q Hfind) as H.
    simpl in H. rewrite Hcount in H. lia. }
  assert (Hzero : active_refs (carts st) propertyId = 0%nat).
  { destruct (Hagree p0 Hin) as [[_ H1] H2]. rewrite Hid in *.
    destruct (active_refs (carts st) propertyId) as [|[|n]]; [reflexivity| |lia].
    rewrite H1 in Hfree by reflexivity. discriminate. }
  apply (agrees_after st st' propertyId g); auto.
  - intros q Hq. rewrite Hrefs.
    assert (E : String.eqb propertyId q = false) by (apply String.eqb_neq; congruence).
    rewrite E. lia.
  - intros p1 _ _. rewrite Hflag, Hrefs, Hzero, String.eqb_refl. simpl.
    split; [tauto|lia].
Qed.

(** The same when the reservation is saved into a cart created for it. *)
Lemma agrees_by_created_lock :
  forall (st st' : Store) (cart : Cart) (propertyId : ObjectId)
         (g : CartStatus -> CartStatus) (p0 : Property),
    well_formed st -> lock_agrees st ->
    carts st' = carts st ++ [cart] ->
    properties st'
    = update_first (has_id propertyId)
        (fun p => set_cart_status (g (cart_status p)) p) (properties st) ->
    (forall q, List.length (filter (active_for q) (items cart))
               = if String.eqb propertyId q then 1%nat else 0%nat) ->
    (forall cs, in_cart (g cs) = true) ->
    In p0 (properties st) -> prop_id p0 = propertyId ->
    in_cart (cart_status p0) = false ->
    lock_agrees st'.
Proof.
  intros st st' cart propertyId g p0 Hwf Hagree Hcarts Hprops Hcount Hflag Hin Hid Hfree.
  assert (Hrefs : forall q, active_refs (carts st') q
                            = (active_refs (carts st) q
                               + if String.eqb propertyId q then 1 else 0)%nat).
  { intros q. rewrite Hcarts, refs_created, Hcount. reflexivity. }
  assert (Hzero : active_refs (carts st) propertyId = 0%nat).
  { destruct (Hagree p0 Hin) as [[_ H1] H2]. rewrite Hid in *.
    destruct (active_refs (carts st) propertyId) as [|[|n]]; [reflexivity| |lia].
    rewrite H1 in Hfree by reflexivity. discriminate. }
  apply (agrees_after st st' propertyId g); auto.
  - intros q Hq. rewrite Hrefs.
    assert (E : String.eqb propertyId q = false) by (apply String.eqb_neq; congruence).
    rewrite E. lia.
  - intros p1 _ _. rewrite Hflag, Hrefs, Hzero, String.eqb_refl. simpl.
    split; [tauto|lia].
Qed.

(** A release: the saved items lose one reference to the property, and
    the lock is cleared. *)
Lemma agrees_by_items_unlock :
  forall (st st' : Store) (cart : Cart) (l' : list Item) (propertyId : ObjectId)
         (g : CartStatus -> CartStatus),
    well_formed st -> lock_agrees st ->
    find (of_buyer (buyer cart)) (carts st) = Some cart ->
    carts st' = update_first (of_buyer (buyer cart)) (fun _ => set_items cart l') (carts st) ->
    properties st'
    = update_first (has_id propertyId)
        (fun p => set_cart_status (g (cart_status p)) p) (properties st) ->
    (forall q, (List.length (filter (active_for q) l')
                + (if String.eqb propertyId q then 1 else 0)
                = List.length (filter (active_for q) (items cart)))%nat) ->
    (forall cs, in_cart (g cs) = false) ->
    lock_agrees st'.
Proof.
  intros st st' cart l' propertyId g Hwf Hagree Hfind Hcarts Hprops Hcount Hflag.
  assert (Hrefs : forall q, (active_refs (carts st') q
                             + (if String.eqb propertyId q then 1 else 0)
                             = active_refs (carts st) q)%nat).
  { intros q. rewrite Hcarts.
    pose proof (refs_saved (carts st) (buyer cart) cart (set_items cart l') q Hfind) as H.
    simpl in H. specialize (Hcount q). lia. }
  apply (agrees_after st st' propertyId g); auto.
  - intros q Hq. specialize (Hrefs q).
    assert (E : String.eqb propertyId q = false) by (apply String.eqb_neq; congruence).
    rewrite E in Hrefs. lia.
  - intros p0 Hin Hid. specialize (Hrefs propertyId).
    rewrite String.eqb_refl in Hrefs.
    destruct (Hagree p0 Hin) as [_ Hle]. rewrite Hid in Hle.
    rewrite Hflag. split; [split; [discriminate|lia]|lia].
Qed.

Lemma addToCart_agrees :
  forall (st : Store) (userId propertyId : ObjectId) (now : Time),
    well_formed st -> lock_agrees st ->
    lock_agrees (snd (BuyerController.addToCart userId propertyId now st)).
Proof.
  intros st userId propertyId now Hwf Hagree.
  destruct (addToCart_never_reserves st userId propertyId now)
    as (_ & Hprops & [Hcarts|(s0 & Hnone & _ & Hcarts)]).
  - now apply (agrees_unchanged st).
  - intros p Hin. rewrite Hprops in Hin. rewrite Hcarts, refs_created. simpl.
    rewrite Nat.add_0_r. now apply Hagree.
Qed.

Lemma removeFromCart_agrees :
  forall (st : Store) (userId propertyId : ObjectId),
    well_formed st -> lock_agrees st ->
    lock_agrees (snd (BuyerController.removeFromCart userId propertyId st)).
Proof.
  intros st userId propertyId Hwf Hagree.
  unfold BuyerController.removeFromCart. open_handler.
  destruct (findCart st userId) as [cart|] eqn:Hcart; [|exact Hagree].
  destruct (findIndex (active_for propertyId) (items cart)) as [i|] eqn:Hi;
    [|exact Hagree].
  pose proof (findCart_buyer _ _ _ Hcart) as Hb. unfold findCart in Hcart.
  rewrite <- Hb in Hcart.
  cbv beta iota.
  destruct (findById _ propertyId) as [property|]; repeat frame_await; simpl;
    (eapply (agrees_by_items_unlock st _ cart _ propertyId clear_holder);
     [ exact Hwf | exact Hagree | exact Hcart | chase; reflexivity | chase; reflexivity
     | intros q; eapply count_spliced; eassumption
     | reflexivity ]).
Qed.

Lemma buyer_confirm_item_neutral :
  forall (userId : ObjectId) (now : Time) (it : Item),
    item_property (BuyerController.confirm_item userId now it) = item_property it
    /\ item_status (BuyerController.confirm_item userId now it) = item_status it.
Proof. intros; split; reflexivity. Qed.

Lemma buyer_confirmVisit_agrees :
  forall (st : Store) (userId propertyId : ObjectId) (now : Time),
    well_formed st -> lock_agrees st ->
    lock_agrees (snd (BuyerController.confirmVisit userId propertyId now st)).
Proof.
  intros st userId propertyId now Hwf Hagree.
  unfold BuyerController.confirmVisit. open_handler.
  destruct (findCart st userId) as [cart|] eqn:Hcart; [|exact Hagree].
  destruct (find (active_for propertyId) (items cart)) as [cartItem|] eqn:Hitem;
    [|exact Hagree].
  destruct (now >? _); [exact Hagree|].
  pose proof (findCart_buyer _ _ _ Hcart) as Hb. unfold findCart in Hcart.
  rewrite <- Hb in Hcart.
  cbv beta iota.
  destruct (findById _ propertyId) as [property|];
    [destruct (broker property)|];
    repeat frame_await; simpl;
    (eapply (agrees_by_items_neutral st _ cart _ propertyId
               (BuyerController.confirm_lock now (item_booking_window_end cartItem)));
     [ exact Hwf | exact Hagree | exact Hcart | chase; reflexivity | chase; reflexivity
     | intros q; apply count_updated; intros; split; reflexivity
     | reflexivity ]).
Qed.

Lemma broker_confirmVisit_agrees :
  forall (st : Store) (userId propertyId buyerId : ObjectId) (now : Time),
    well_formed st -> lock_agrees st ->
    lock_agrees (snd (BrokerController.confirmVisit userId propertyId buyerId now st)).
Proof.
  intros st userId propertyId buyerId now Hwf Hagree.
  unfold BrokerController.confirmVisit. open_handler.
  destruct (findCart st buyerId) as [cart|] eqn:Hcart; [|exact Hagree].
  destruct (find (active_for propertyId) (items cart)) as [cartItem|] eqn:Hitem;
    [|exact Hagree].
  destruct (findById st propertyId) as [property|]; [|exact Hagree].
  destruct (broker property) as [b|]; [|exact Hagree].
  destruct (negb (String.eqb b userId)); [exact Hagree|].
  pose proof (findCart_buyer _ _ _ Hcart) as Hb. unfold findCart in Hcart.
  rewrite <- Hb in Hcart.
  cbv beta iota.
  destruct (negb (String.eqb (added_by_user property) userId));
    repeat frame_await; simpl;
    (eapply (agrees_by_items_neutral st _ cart _ (prop_id property)
               (BrokerController.confirm_lock now));
     [ exact Hwf | exact Hagree | exact Hcart | chase; reflexivity | chase; reflexivity
     | intros q; apply count_updated; intros; split; reflexivity
     | reflexivity ]).
Qed.

Lemma route_confirm_agrees :
  forall (st : Store) (userId propertyId : ObjectId) (method : Method)
         (notes : option string) (now : Time),
    well_formed st -> lock_agrees st ->
    lock_agrees (snd (BrokerRoutes.confirm userId propertyId method notes now st)).
Proof.
  intros st userId propertyId method notes now Hwf Hagree.
  unfold BrokerRoutes.confirm. open_handler.
  destruct (find _ (properties st)) as [property|]; [|exact Hagree].
  destruct (find (BrokerRoutes.in_active_cart propertyId) (carts st)) as [cart|] eqn:Hcart;
    [|exact Hagree].
  destruct (find (active_for propertyId) (items cart)) as [cartItem|] eqn:Hitem;
    [|exact Hagree].
  destruct (now >? _); [exact Hagree|].
  assert (Hfound : find (of_buyer (buyer cart)) (carts st) = Some cart).
  { apply find_by_buyer_unique; [apply Hwf|]. now apply find_some in Hcart. }
  cbv beta iota.
  destruct (negb (String.eqb (added_by_user property) userId)
            || negb (Role_eqb (added_by_role property) broker_role));
    [destruct (CommissionModel.calculateCommission _ _ _ _)|];
    repeat frame_await; simpl;
    (eapply (agrees_by_items_neutral st _ cart _ (prop_id property)
               (BrokerRoutes.confirm_lock now));
     [ exact Hwf | exact Hagree | exact Hfound | chase; reflexivity | chase; reflexivity
     | intros q; apply count_updated; intros; split; reflexivity
     | reflexivity ]).
Qed.

Lemma route_add_agrees :
  forall (st : Store) (userId propertyId : ObjectId) (now : Time),
    well_formed st -> lock_agrees st ->
    lock_agrees (snd (BuyerRoutes.add userId propertyId now st)).
Proof.
  intros st userId propertyId now Hwf Hagree.
  unfold BuyerRoutes.add, BuyerRoutes.add_checks, BuyerRoutes.add_after,
    BuyerRoutes.add_writes.
  open_handler.
  destruct (String.eqb propertyId ""); [exact Hagree|].
  destruct (findById st propertyId) as [property|] eqn:Hprop; [|exact Hagree].
  destruct (in_cart (cart_status property)) eqn:Hfree; [exact Hagree|].
  destruct (negb (PropertyStatus_eqb (prop_status property) live)); [exact Hagree|].
  apply find_some in Hprop as [Hin Hid]. apply String.eqb_eq in Hid.
  destruct (findCart st userId) as [cart|] eqn:Hcart.
  - destruct (_ >=? _); [exact Hagree|].
    destruct (existsb _ _); [exact Hagree|].
    pose proof (findCart_buyer _ _ _ Hcart) as Hb. unfold findCart in Hcart.
    rewrite <- Hb in Hcart. simpl. rewrite Hid.
    eapply (agrees_by_items_lock st _ cart _ propertyId
              (fun _ => locked_by userId now) property);
      [ exact Hwf | exact Hagree | exact Hcart | reflexivity | reflexivity
      | intros q; apply count_pushed
      | reflexivity | exact Hin | exact Hid | exact Hfree ].
  - destruct (_ >=? _); [exact Hagree|].
    destruct (existsb _ _); [exact Hagree|].
    simpl. rewrite Hid.
    eapply (agrees_by_created_lock st _ _ propertyId
              (fun _ => locked_by userId now) property);
      [ exact Hwf | exact Hagree | reflexivity | reflexivity
      | | reflexivity | exact Hin | exact Hid | exact Hfree ].
    intros q. simpl. unfold active_for. simpl. rewrite andb_true_r.
    destruct (String.eqb propertyId q); reflexivity.
Qed.

Lemma route_remove_agrees :
  forall (st : Store) (userId propertyId : ObjectId),
    well_formed st -> lock_agrees st ->
    lock_agrees (snd (BuyerRoutes.remove userId propertyId st)).
Proof.
  intros st userId propertyId Hwf Hagree.
  unfold BuyerRoutes.remove. open_handler.
  destruct (String.eqb propertyId ""); [exact Hagree|].
  destruct (findCart st userId) as [cart|] eqn:Hcart; [|exact Hagree].
  destruct (findIndex (active_for propertyId) (items cart)) as [i|] eqn:Hi;
    [|exact Hagree].
  pose proof (findCart_buyer _ _ _ Hcart) as Hb. unfold findCart in Hcart.
  rewrite <- Hb in Hcart. simpl.
  eapply (agrees_by_items_unlock st _ cart _ propertyId (fun _ => unlocked));
    [ exact Hwf | exact Hagree | exact Hcart | reflexivity | reflexivity
    | intros q; eapply count_removed; eassumption
    | reflexivity ].
Qed.

(** Every interactive request keeps the lock mirror and the
    reservations in agreement. *)
Lemma interactive_serve_agrees :
  forall (rq : Request) (now : Time) (st : Store),
    interactive rq = true ->
    well_formed st -> lock_agrees st -> lock_agrees (serve rq now st).
Proof.
  intros rq now st Hrq Hwf Hagree. destruct rq; simpl; try discriminate.
  - now apply addToCart_agrees.
  - now apply removeFromCart_agrees.
  - now apply buyer_confirmVisit_agrees.
  - now apply broker_confirmVisit_agrees.
  - now apply route_confirm_agrees.
  - now apply route_add_agrees.
  - now apply route_remove_agrees.
Qed.

Lemma cleanExpiredItems_map :
  forall (l : list Cart) (now : Time),
    fst (CartModel.cleanExpiredItems l now)
    = map (fun c => fst (CartModel.checkExpiredItems c now)) l.
Proof.
  intros l now. induction l as [|c l IH]; simpl; [reflexivity|].
  destruct (CartModel.cleanExpiredItems l now) as [rest n]. simpl in *.
  now rewrite IH.
Qed.

Lemma check_item_expires_pending :
  forall (now : Time) (ms : Z) (item : Item),
    item_status item = Active -> item_visit_status item = VPending ->
    now - item_added_at item > ms ->
    fst (CartModel.check_item now ms item) = expire_visit item.
Proof.
  intros now ms item Hs Hv Hlate. unfold CartModel.check_item, status_active.
  rewrite Hs, Hv. simpl. apply Z.gtb_gt in Hlate. rewrite Hlate. simpl.
  destruct (item_booking_window_end item); reflexivity.
Qed.

(** Scenario A in general: what the cart cleanup service does to a
    pending reservation past its visit window and to its property's
    lock past the seven days. *)
Lemma cart_cleanup_expires_and_unlocks :
  forall (st : Store) (now : Time) (cart : Cart) (item : Item) (p : Property) (t : Time),
    In cart (carts st) -> In item (items cart) ->
    item_status item = Active -> item_visit_status item = VPending ->
    now - item_added_at item > visit_window_days (settings cart) * 24 * 60 * 60 * 1000 ->
    In p (properties st) ->
    in_cart (cart_status p) = true -> visit_confirmed (cart_status p) = false ->
    added_at (cart_status p) = Some t -> t < now - 7 * 24 * 60 * 60 * 1000 ->
    (exists cart' : Cart,
        In cart' (carts (CartCleanupService.cleanupExpiredItems now st))
        /\ buyer cart' = buyer cart
        /\ In (expire_visit item) (items cart'))
    /\ In (set_cart_status (clear_holder (cart_status p)) p)
          (properties (CartCleanupService.cleanupExpiredItems now st)).
Proof.
  intros st now cart item p t Hcart Hitem Hs Hv Hlate Hp Hlock Hnc Hat Hseven.
  unfold CartCleanupService.cleanupExpiredItems. simpl. split.
  - exists (fst (CartModel.checkExpiredItems cart now)). split; [|split].
    + rewrite cleanExpiredItems_map.
      now apply (in_map (fun c => fst (CartModel.checkExpiredItems c now))).
    + reflexivity.
    + unfold CartModel.checkExpiredItems. simpl. rewrite map_map.
      rewrite <- (check_item_expires_pending now
                    (visit_window_days (settings cart) * 24 * 60 * 60 * 1000) item)
        by assumption.
      now apply (in_map (fun x => fst (CartModel.check_item now _ x))).
  - unfold unlock_where.
    assert (Hsel : visit_window_lapsed (now - 7 * 24 * 60 * 60 * 1000) p = true).
    { unfold visit_window_lapsed, lt_date. rewrite Hlock, Hnc, Hat. simpl.
      now apply Z.ltb_lt. }
    change (7 * 24 * 60 * 60 * 1000) with 604800000 in Hsel.
    apply in_map_iff. exists p. rewrite Hsel. auto.
Qed.

Lemma reachable_interactively_step :
  forall st st' : Store,
    well_formed st -> lock_agrees st -> reachable_interactively st st' ->
    well_formed st' /\ lock_agrees st'.
Proof.
  intros st st' Hwf Hagree Hreach.
  induction Hreach as [|mid rq now Hrq Hreach [IHwf IHagree]].
  - auto.
  - split; [now apply serve_step|now apply interactive_serve_agrees].
Qed.

(** X28. The lock mirror follows the interactive requests.  From a
    well-formed store in which lock mirror and reservations agree, at
    every state reached through interactive requests alone (the buyer
    controller's [addToCart], [removeFromCart] and [confirmVisit], the
    broker controller's [confirmVisit], the broker router's confirm and
    the buyer router's add and remove, served one at a time), for every
    property P the flag [cart_status.in_cart] is true if and only if
    exactly one active item references P, and never more than one
    does.  The cleanup services are no part of this.  In Scenario A (a pending
    reservation past its visit window, the property locked and
    unconfirmed for more than seven days) the cart cleanup service
    leaves the item expired and [in_cart] false. *)
Theorem lock_mirror_follows_interactive_requests :
  forall st : Store,
    well_formed st -> lock_agrees st ->
    (forall st' : Store,
        reachable_interactively st st' ->
        flag_iff_one_active st'
        /\ (forall p, In p (properties st') ->
                      (active_refs (carts st') (prop_id p) <= 1)%nat))
    /\ (forall (now : Time) (cart : Cart) (item : Item) (p : Property) (t : Time),
          In cart (carts st) -> In item (items cart) ->
          item_status item = Active -> item_visit_status item = VPending ->
          now - item_added_at item
            > visit_window_days (settings cart) * 24 * 60 * 60 * 1000 ->
          In p (properties st) ->
          in_cart (cart_status p) = true -> visit_confirmed (cart_status p) = false ->
          added_at (cart_status p) = Some t -> t < now - 7 * 24 * 60 * 60 * 1000 ->
          (exists cart' : Cart,
              In cart' (carts (serve CartCleanup now st))
              /\ buyer cart' = buyer cart
              /\ In (expire_visit item) (items cart')
              /\ item_status (expire_visit item) = Expired)
          /\ (exists p' : Property,
                 In p' (properties (serve CartCleanup now st))
                 /\ prop_id p' = prop_id p
                 /\ in_cart (cart_status p') = false)).
Proof.
  intros st Hwf Hagree. split.
  - intros st' Hreach.
    destruct (reachable_interactively_step st st' Hwf Hagree Hreach) as [_ H].
    split; intros p Hin; now apply H.
  - intros now cart item p t Hcart Hitem Hs Hv Hlate Hp Hlock Hnc Hat Hseven.
    destruct (cart_cleanup_expires_and_unlocks st now cart item p t)
      as [(cart' & H1 & H2 & H3) H4]; try assumption.
    split.
    + exists cart'. auto.
    + eexists. split; [exact H4|]. auto.
Qed.

Lemma scenario_store_agrees : lock_agrees scenario_store.
Proof.
  intros p [<-|[]]. split; [split; discriminate|apply Nat.le_0_l].
Qed.

Lemma lock_mirror_follows_interactive_requests_witness :
  (forall st' : Store,
      reachable_interactively reserved_store st' ->
      flag_iff_one_active st'
      /\ (forall p, In p (properties st') ->
                    (active_refs (carts st') (prop_id p) <= 1)%nat))
  /\ (forall (now : Time) (cart : Cart) (item : Item) (p : Property) (t : Time),
        In cart (carts reserved_store) -> In item (items cart) ->
        item_status item = Active -> item_visit_status item = VPending ->
        now - item_added_at item
          > visit_window_days (settings cart) * 24 * 60 * 60 * 1000 ->
        In p (properties reserved_store) ->
        in_cart (cart_status p) = true -> visit_confirmed (cart_status p) = false ->
        added_at (cart_status p) = Some t -> t < now - 7 * 24 * 60 * 60 * 1000 ->
        (exists cart' : Cart,
            In cart' (carts (serve CartCleanup now reserved_store))
            /\ buyer cart' = buyer cart
            /\ In (expire_visit item) (items cart')
            /\ item_status (expire_visit item) = Expired)
        /\ (exists p' : Property,
               In p' (properties (serve CartCleanup now reserved_store))
               /\ prop_id p' = prop_id p
               /\ in_cart (cart_status p') = false)).
Proof.
  apply (lock_mirror_follows_interactive_requests reserved_store).
  - change reserved_store with (serve (RouteAdd "buyerA" "P") 0 scenario_store).
    apply serve_step. exact scenario_store_well_formed.
  - change reserved_store with (serve (RouteAdd "buyerA" "P") 0 scenario_store).
    apply interactive_serve_agrees;
      [reflexivity|exact scenario_store_well_formed|exact scenario_store_agrees].
Defined.

(** Scenario A on the scenario store: after the cart cleanup service
    ran on day 8 the item is expired and the property unlocked. *)
Lemma scenario_A_cart_cleanup :
  map (fun c => map (fun it => (item_status it, item_visit_status it)) (items c))
      (carts swept_store) = [[(Expired, VExpired)]]
  /\ map (fun p => in_cart (cart_status p)) (properties swept_store) = [false].
Proof. split; reflexivity. Qed.

(** C5 (the code at the failing input). Scenario A with the simple
    cleanup service: buyer A reserves P at t = 0 and the sweep runs on
    day 8.  In the state reached, P's [in_cart] is false while one
    active item still references P: the service unlocked the property
    and did not touch the cart, so the item was not expired and the two
    representations disagree.  The sibling, the cart cleanup service,
    run on the same store leaves the item expired and the property
    unlocked. *)
Lemma simple_cleanup_breaks_the_mirror :
  reachable scenario_store simply_swept_store
  /\ map (fun c => map item_status (items c)) (carts simply_swept_store) = [[Active]]
  /\ map (fun p => in_cart (cart_status p)) (properties simply_swept_store) = [false]
  /\ active_refs (carts simply_swept_store) "P" = 1%nat
  /\ ~ flag_iff_one_active simply_swept_store
  /\ carts simply_swept_store = carts reserved_store
  /\ map (fun c => map item_status (items c)) (carts swept_store) = [[Expired]]
  /\ map (fun p => in_cart (cart_status p)) (properties swept_store) = [false].
Proof.
  split; [|split; [reflexivity|split; [reflexivity|split; [reflexivity|
    split; [|split; [reflexivity|split; reflexivity]]]]]].
  - change simply_swept_store
      with (serve SimpleCleanup (days 8)
              (serve (RouteAdd "buyerA" "P") 0 scenario_store)).
    apply reachable_serve, reachable_serve, reachable_start.
  - intros H.
    assert (Hin : In (set_cart_status
                        (clear_holder (locked_by "buyerA" 0)) scenario_property)
                     (properties simply_swept_store)) by (left; reflexivity).
    destruct (H _ Hin) as [_ Hflag].
    specialize (Hflag eq_refl). discriminate Hflag.
Qed.

(** ** Releasing twice *)

(** What the sweep's loop body leaves of an item: the item itself, or
    an item that is no longer active. *)
Lemma check_item_cases :
  forall (now : Time) (ms : Z) (it : Item),
    fst (CartModel.check_item now ms it) = it
    \/ status_active (fst (CartModel.check_item now ms it)) = false.
Proof.
  intros now ms it. unfold CartModel.check_item.
  destruct (status_active it && VisitStatus_eqb (item_visit_status it) VPending);
    [destruct (now - item_added_at it >? ms)|].
  - right. simpl. destruct (item_booking_window_end it); reflexivity.
  - destruct (item_booking_window_end it); [|now left].
    destruct (status_active it && VisitStatus_eqb (item_visit_status it) VConfirmed);
      [|now left].
    destruct (now >? t); [now right|now left].
  - destruct (item_booking_window_end it); [|now left].
    destruct (status_active it && VisitStatus_eqb (item_visit_status it) VConfirmed);
      [|now left].
    destruct (now >? t); [now right|now left].
Qed.

Lemma check_item_idempotent :
  forall (now : Time) (ms : Z) (it : Item),
    fst (CartModel.check_item now ms (fst (CartModel.check_item now ms it)))
    = fst (CartModel.check_item now ms it).
Proof.
  intros now ms it. destruct (check_item_cases now ms it) as [E|E].
  - now rewrite !E.
  - now apply check_item_keeps_non_active.
Qed.

Lemma checkExpiredItems_idempotent :
  forall (c : Cart) (now : Time),
    fst (CartModel.checkExpiredItems (fst (CartModel.checkExpiredItems c now)) now)
    = fst (CartModel.checkExpiredItems c now).
Proof.
  intros c now. unfold CartModel.checkExpiredItems. simpl. unfold set_items. simpl.
  f_equal. rewrite !map_map. apply map_ext. intros it. apply check_item_idempotent.
Qed.

Lemma unlock_where_settles :
  forall (sel : Property -> bool) (l : list Property),
    (forall p, in_cart (cart_status p) = false -> sel p = false) ->
    unlock_where sel (unlock_where sel l) = unlock_where sel l.
Proof.
  intros sel l Hsel. unfold unlock_where. rewrite map_map. apply map_ext.
  intros p. destruct (sel p) eqn:E; [|now rewrite E].
  now rewrite Hsel.
Qed.

Lemma lapsed_needs_lock :
  forall (bound : Time) (p : Property),
    in_cart (cart_status p) = false ->
    visit_window_lapsed bound p = false /\ booking_window_lapsed bound p = false.
Proof.
  intros bound p H. unfold visit_window_lapsed, booking_window_lapsed.
  now rewrite H.
Qed.

Lemma simple_unlock_settles :
  forall (a b : Time) (l : list Property),
    unlock_where (booking_window_lapsed b)
      (unlock_where (visit_window_lapsed a)
         (unlock_where (booking_window_lapsed b)
            (unlock_where (visit_window_lapsed a) l)))
    = unlock_where (booking_window_lapsed b) (unlock_where (visit_window_lapsed a) l).
Proof.
  intros a b l. unfold unlock_where. rewrite !map_map. apply map_ext. intros p.
  set (cleared := set_cart_status (clear_holder (cart_status p)) p).
  destruct (lapsed_needs_lock a cleared eq_refl) as [Ha _].
  destruct (lapsed_needs_lock b cleared eq_refl) as [_ Hb].
  destruct (visit_window_lapsed a p) eqn:E1.
  - fold cleared. rewrite Hb, Ha, Hb. reflexivity.
  - destruct (booking_window_lapsed b p) eqn:E2.
    + fold cleared. rewrite Ha, Hb. reflexivity.
    + rewrite E1, E2. reflexivity.
Qed.

Lemma sweeps_idempotent :
  forall (now : Time) (st : Store),
    SimpleCleanupService.cleanupExpiredItems now
      (SimpleCleanupService.cleanupExpiredItems now st)
    = SimpleCleanupService.cleanupExpiredItems now st
    /\ CartCleanupService.cleanupExpiredItems now
         (CartCleanupService.cleanupExpiredItems now st)
       = CartCleanupService.cleanupExpiredItems now st.
Proof.
  intros now st. split.
  - unfold SimpleCleanupService.cleanupExpiredItems, set_properties. simpl.
    now rewrite simple_unlock_settles.
  - unfold CartCleanupService.cleanupExpiredItems, set_properties, set_carts. simpl.
    rewrite unlock_where_settles
      by (intros p H; now apply (lapsed_needs_lock _ p)).
    rewrite !cleanExpiredItems_map, map_map.
    f_equal. apply map_ext. intros c. apply checkExpiredItems_idempotent.
Qed.

(** C6 (as amended). Release by expiry is idempotent: a second run of
    either cleanup service at the same instant changes nothing and
    raises no error.  For buyer-initiated release on a cart with at most
    one active item for the property: after a first release (buyer
    controller's [removeFromCart], or [Cart.removeItem]) a second
    release changes nothing, neither a document nor the notifications
    (no second 'Property Unlocked'), so the end state is that of one
    call; but the second call is answered as an error, 404 'Item not
    found in cart' from the controller and a thrown 'Property not found
    in cart' from the model method. *)
Theorem second_release_changes_nothing_but_is_an_error :
  forall (st : Store) (userId propertyId : ObjectId) (cart : Cart),
    findCart st userId = Some cart ->
    (List.length (filter (active_for propertyId) (items cart)) <= 1)%nat ->
    BuyerController.removeFromCart userId propertyId
      (snd (BuyerController.removeFromCart userId propertyId st))
    = (Json 404 false "Item not found in cart",
       snd (BuyerController.removeFromCart userId propertyId st))
    /\ CartModel.removeItem (snd (CartModel.removeItem cart propertyId)) propertyId
       = (Threw (Error "Property not found in cart"),
          snd (CartModel.removeItem cart propertyId))
    /\ (forall now : Time,
          serve SimpleCleanup now (serve SimpleCleanup now st) = serve SimpleCleanup now st
          /\ serve CartCleanup now (serve CartCleanup now st) = serve CartCleanup now st).
Proof.
  intros st userId propertyId cart Hcart Hone.
  pose proof (findCart_buyer _ _ _ Hcart) as Hb.
  split; [|split; [|intros now; apply sweeps_idempotent]].
  - destruct (findIndex (active_for propertyId) (items cart)) as [i|] eqn:Hi.
    + destruct (findIndex_split _ _ _ Hi) as (l1 & x & l2 & Hl & Hlen & Hx & Hn).
      assert (Hgone : findIndex (active_for propertyId) (splice1 i (items cart)) = None).
      { apply findIndex_none_find. rewrite Hl, <- Hlen, splice1_app.
        rewrite Hl in Hone.
        exact (sole_match_gone _ _ l1 l2 x [] Hone Hx Hn eq_refl). }
      set (cart' := set_items cart (splice1 i (items cart))).
      assert (Hfind : findCart (save_cart st cart') userId = Some cart')
        by (apply findCart_save_cart with cart; assumption).
      assert (Hst1 : exists st1,
                 snd (BuyerController.removeFromCart userId propertyId st) = st1
                 /\ carts st1 = carts (save_cart st cart')).
      { unfold BuyerController.removeFromCart, try_catch, bind, query, write, ret.
        rewrite Hcart, Hi. fold cart'. cbv beta iota.
        destruct (findById _ propertyId) as [property|]; eexists; split; reflexivity. }
      destruct Hst1 as (st1 & -> & Hc).
      unfold BuyerController.removeFromCart, try_catch, bind, query, ret.
      unfold findCart in *. rewrite Hc, Hfind. unfold cart' at 1.
      rewrite items_set_items, Hgone. reflexivity.
    + assert (H1 : BuyerController.removeFromCart userId propertyId st
                   = (Json 404 false "Item not found in cart", st)).
      { unfold BuyerController.removeFromCart, try_catch, bind, query, ret.
        now rewrite Hcart, Hi. }
      rewrite H1. simpl. exact H1.
  - unfold CartModel.removeItem at 2 3.
    destruct (findIndex (active_for propertyId) (items cart)) as [i|] eqn:Hi.
    + destruct (findIndex_split _ _ _ Hi) as (l1 & x & l2 & Hl & Hlen & Hx & Hn).
      simpl snd. unfold CartModel.removeItem. rewrite items_set_items.
      assert (Hgone : findIndex (active_for propertyId)
                        (update_at i (set_item_status Removed) (items cart)) = None).
      { apply findIndex_none_find. rewrite Hl, <- Hlen, update_at_app.
        rewrite Hl in Hone.
        apply (sole_match_gone _ _ l1 l2 x [set_item_status Removed x] Hone Hx Hn).
        simpl. now rewrite removed_item_not_active. }
      now rewrite Hgone.
    + simpl snd. unfold CartModel.removeItem. now rewrite Hi.
Qed.

Lemma second_release_changes_nothing_but_is_an_error_witness :
  BuyerController.removeFromCart "buyerA" "P"
    (snd (BuyerController.removeFromCart "buyerA" "P" reserved_store))
  = (Json 404 false "Item not found in cart",
     snd (BuyerController.removeFromCart "buyerA" "P" reserved_store))
  /\ CartModel.removeItem
       (snd (CartModel.removeItem
               (mkCart "buyerA" [new_item "P" 0 None] (mkSettings 5 7 60)) "P")) "P"
     = (Threw (Error "Property not found in cart"),
        snd (CartModel.removeItem
               (mkCart "buyerA" [new_item "P" 0 None] (mkSettings 5 7 60)) "P"))
  /\ (forall now : Time,
        serve SimpleCleanup now (serve SimpleCleanup now reserved_store)
        = serve SimpleCleanup now reserved_store
        /\ serve CartCleanup now (serve CartCleanup now reserved_store)
           = serve CartCleanup now reserved_store).
Proof.
  apply (second_release_changes_nothing_but_is_an_error reserved_store "buyerA" "P"
           (mkCart "buyerA" [new_item "P" 0 None] (mkSettings 5 7 60))).
  - reflexivity.
  - simpl. lia.
Defined.

(** C6 (counterexample). Buyer A releases P twice in the reserved
    scenario store: the first call succeeds, the second is answered
    with the error 404 'Item not found in cart', and a second
    [Cart.removeItem] throws. *)
Lemma second_release_is_an_error :
  fst (BuyerController.removeFromCart "buyerA" "P" reserved_store)
    = Json 200 true "Property removed from cart"
  /\ fst (BuyerController.removeFromCart "buyerA" "P" released_store)
    = Json 404 false "Item not found in cart"
  /\ fst (CartModel.removeItem
            (snd (CartModel.removeItem
                    (mkCart "buyerA" [new_item "P" 0 None] (mkSettings 5 7 60)) "P")) "P")
     = Threw (Error "Property not found in cart").
Proof. repeat split. Qed.

(** ** The sibling paths *)

(** [Cart.confirmVisit] within the window: the item found gets
    [visit_status = confirmed], [visit_confirmed_at = now],
    [booking_window_start = now] and [booking_window_end = now +
    booking_window_days]; it had no window end from [Cart.addItem]. *)
Lemma cart_confirmVisit_within_window :
  forall (this : Cart) (propertyId confirmedBy : ObjectId) (method : Method)
         (now : Time) (item : Item),
    find (active_for propertyId) (items this) = Some item ->
    item_visit_status item <> VConfirmed ->
    now <= setDate_plus (item_added_at item) (visit_window_days (settings this)) ->
    exists (l1 l2 : list Item) (item' : Item),
      items this = l1 ++ item :: l2
      /\ CartModel.confirmVisit this propertyId confirmedBy method now
         = (Resolved, set_items this (l1 ++ item' :: l2))
      /\ item_status item' = Active
      /\ item_visit_status item' = VConfirmed
      /\ item_visit_confirmed_at item' = Some now
      /\ item_booking_window_start item' = Some now
      /\ item_booking_window_end item'
         = Some (now + booking_window_days (settings this) * day_ms).
Proof.
  intros this propertyId confirmedBy method now item Hitem Hvs Hnow.
  destruct (find_split _ _ _ Hitem) as (l1 & l2 & Hl & Hx & Hn).
  exists l1, l2,
    (CartModel.confirm_item confirmedBy method now (booking_window_days (settings this)) item).
  split; [assumption|]. split.
  - unfold CartModel.confirmVisit. rewrite Hitem.
    destruct (VisitStatus_eqb (item_visit_status item) VConfirmed) eqn:E.
    + destruct (item_visit_status item); simpl in E; try discriminate. now elim Hvs.
    + assert (Hin : (now >? setDate_plus (item_added_at item)
                               (visit_window_days (settings this))) = false).
      { destruct (Z.gtb_spec now (setDate_plus (item_added_at item)
                                    (visit_window_days (settings this))));
          [lia|reflexivity]. }
      rewrite Hin. rewrite Hl at 1. now rewrite update_first_app.
  - simpl. apply active_for_active in Hx. unfold status_active in Hx.
    destruct (item_status item); try discriminate.
    repeat split. unfold day_ms. f_equal. lia.
Qed.

Lemma new_item_has_no_window_end :
  forall (this : Cart) (propertyId : ObjectId) (now : Time) (this' : Cart),
    CartModel.addItem this propertyId now = (Resolved, this') ->
    items this' = items this ++ [new_item propertyId now None].
Proof.
  intros this propertyId now this'. unfold CartModel.addItem.
  destruct (CartModel.isPropertyInCart this propertyId); [discriminate|].
  destruct (_ >=? _); [discriminate|]. intros H. injection H as <-. reflexivity.
Qed.

(** [Cart.confirmVisit] refuses a second confirmation. *)
Lemma cart_confirmVisit_already_confirmed :
  forall (this : Cart) (propertyId confirmedBy : ObjectId) (method : Method)
         (now : Time) (item : Item),
    find (active_for propertyId) (items this) = Some item ->
    item_visit_status item = VConfirmed ->
    CartModel.confirmVisit this propertyId confirmedBy method now
    = (Threw (Error "Visit already confirmed"), this).
Proof.
  intros this propertyId confirmedBy method now item Hitem Hvs.
  unfold CartModel.confirmVisit. now rewrite Hitem, Hvs.
Qed.

(** ** The Cart model: limits, round trips and the sweep's flag *)

Section UpdateCounts.
Context {A : Type} (P : A -> bool) (f : A -> A).
Hypothesis P_back : forall x : A, P (f x) = true -> P x = true.

Lemma filter_head_le :
  forall (x : A) (l l' : list A),
    (List.length (filter P l') <= List.length (filter P l))%nat ->
    (List.length (filter P (f x :: l')) <= List.length (filter P (x :: l)))%nat.
Proof.
  intros x l l' H. simpl.
  destruct (P (f x)) eqn:Hfx.
  - rewrite (P_back x Hfx). simpl. apply le_n_S. exact H.
  - destruct (P x); simpl; [apply Nat.le_le_succ_r|]; exact H.
Qed.

Lemma filter_update_first_le :
  forall (sel : A -> bool) (l : list A),
    (List.length (filter P (update_first sel f l)) <= List.length (filter P l))%nat.
Proof.
  intros sel l. induction l as [|x l IH]; simpl; [apply Nat.le_refl|].
  destruct (sel x).
  - apply filter_head_le. apply Nat.le_refl.
  - simpl. destruct (P x); simpl; [apply le_n_S|]; exact IH.
Qed.

Lemma filter_update_at_le :
  forall (i : nat) (l : list A),
    (List.length (filter P (update_at i f l)) <= List.length (filter P l))%nat.
Proof.
  intros i l. revert i. induction l as [|x l IH]; intros [|i]; simpl;
    try apply Nat.le_refl.
  - apply filter_head_le. apply Nat.le_refl.
  - destruct (P x); simpl; [apply le_n_S|]; apply IH.
Qed.

Lemma filter_map_le :
  forall l : list A,
    (List.length (filter P (map f l)) <= List.length (filter P l))%nat.
Proof.
  intros l. induction l as [|x l IH]; [apply Nat.le_refl|].
  change (map f (x :: l)) with (f x :: map f l). apply filter_head_le. exact IH.
Qed.
End UpdateCounts.

Lemma active_for_back :
  forall (f : Item -> Item),
    (forall it, item_property (f it) = item_property it) ->
    (forall it, status_active (f it) = true -> status_active it = true) ->
    forall (q : ObjectId) (it : Item),
      active_for q (f it) = true -> active_for q it = true.
Proof.
  intros f Hp Hs q it H. unfold active_for in *.
  apply andb_true_iff in H. destruct H as [H1 H2].
  rewrite Hp in H1. rewrite H1, (Hs it H2). reflexivity.
Qed.

Lemma check_item_keeps_property :
  forall (now : Time) (ms : Z) (it : Item),
    item_property (fst (CartModel.check_item now ms it)) = item_property it.
Proof.
  intros now ms it. unfold CartModel.check_item.
  destruct (status_active it && VisitStatus_eqb (item_visit_status it) VPending);
    [destruct (now - item_added_at it >? ms)|];
    cbv beta iota;
    match goal with
    | |- context [item_booking_window_end ?x] =>
        destruct (item_booking_window_end x);
        [destruct (status_active x && VisitStatus_eqb (item_visit_status x) VConfirmed);
         [destruct (now >? _)|]|]
    end; reflexivity.
Qed.

Lemma check_item_active_back :
  forall (now : Time) (ms : Z) (it : Item),
    status_active (fst (CartModel.check_item now ms it)) = true ->
    status_active it = true.
Proof.
  intros now ms it H.
  destruct (check_item_cases now ms it) as [E|E]; [rewrite E in H; exact H|].
  rewrite E in H. discriminate.
Qed.

(** What an update of the items does to the two invariants when it
    neither activates an item nor moves it to another property. *)
Lemma invariants_kept :
  forall (this : Cart) (l' : list Item),
    (forall P : Item -> bool,
        (P = status_active \/ exists q, P = active_for q) ->
        (List.length (filter P l') <= List.length (filter P (items this)))%nat) ->
    within_limit this -> one_item_each this ->
    within_limit (set_items this l') /\ one_item_each (set_items this l').
Proof.
  intros this l' H Hl Ho. split.
  - unfold within_limit, CartSchema.activeItems in *. simpl.
    specialize (H status_active (or_introl eq_refl)). lia.
  - intros q. simpl. specialize (H (active_for q) (or_intror (ex_intro _ q eq_refl))).
    specialize (Ho q). lia.
Qed.

Lemma invariants_by_update_first :
  forall (this : Cart) (sel : Item -> bool) (f : Item -> Item),
    (forall it, item_property (f it) = item_property it) ->
    (forall it, status_active (f it) = true -> status_active it = true) ->
    within_limit this -> one_item_each this ->
    within_limit (set_items this (update_first sel f (items this)))
    /\ one_item_each (set_items this (update_first sel f (items this))).
Proof.
  intros this sel f Hp Hs. apply invariants_kept.
  intros P [->|[q ->]]; apply filter_update_first_le.
  - exact Hs.
  - apply active_for_back; assumption.
Qed.

Lemma addItem_keeps_invariants :
  forall (this : Cart) (propertyId : ObjectId) (now : Time),
    within_limit this -> one_item_each this ->
    within_limit (snd (CartModel.addItem this propertyId now))
    /\ one_item_each (snd (CartModel.addItem this propertyId now)).
Proof.
  intros this propertyId now Hl Ho. unfold CartModel.addItem.
  destruct (CartModel.isPropertyInCart this propertyId) eqn:Hin; [split; assumption|].
  destruct (Z.of_nat (List.length (CartModel.activeItems this))
            >=? max_properties (settings this)) eqn:Hfull; [split; assumption|].
  simpl. split.
  - unfold within_limit, CartSchema.activeItems. simpl.
    rewrite filter_app, length_app. simpl.
    unfold CartModel.activeItems in Hfull. lia.
  - intros q. simpl. rewrite count_pushed.
    destruct (String.eqb propertyId q) eqn:E.
    + apply String.eqb_eq in E. subst q.
      unfold CartModel.isPropertyInCart in Hin.
      assert (Hnone : filter (active_for propertyId) (items this) = []).
      { apply find_none_filter. destruct (find (active_for propertyId) (items this)) eqn:F;
          [|reflexivity].
        apply find_some in F. destruct F as [F1 F2].
        assert (existsb (active_for propertyId) (items this) = true)
          by (apply existsb_exists; eauto).
        congruence. }
      rewrite Hnone. simpl. apply Nat.le_refl.
    + rewrite Nat.add_0_r. apply Ho.
Qed.

(** X1. The methods of the Cart model keep a cart within its limit and
    with at most one active item per property: if the cart holds no
    more active items than [settings.max_properties] and no property
    twice among them, the same is true of the document after [addItem],
    [removeItem], [confirmVisit], [scheduleVisit] and
    [checkExpiredItems], whatever their arguments and whether they
    resolve or throw. *)
Theorem cart_methods_keep_the_limit :
  forall (this : Cart) (propertyId confirmedBy : ObjectId) (method : Method)
         (visitData : VisitData) (now : Time),
    within_limit this -> one_item_each this ->
    (within_limit (snd (CartModel.addItem this propertyId now))
     /\ one_item_each (snd (CartModel.addItem this propertyId now)))
    /\ (within_limit (snd (CartModel.removeItem this propertyId))
        /\ one_item_each (snd (CartModel.removeItem this propertyId)))
    /\ (within_limit (snd (CartModel.confirmVisit this propertyId confirmedBy method now))
        /\ one_item_each (snd (CartModel.confirmVisit this propertyId confirmedBy method now)))
    /\ (within_limit (snd (CartSchema.scheduleVisit this propertyId visitData now))
        /\ one_item_each (snd (CartSchema.scheduleVisit this propertyId visitData now)))
    /\ (within_limit (fst (CartModel.checkExpiredItems this now))
        /\ one_item_each (fst (CartModel.checkExpiredItems this now))).
Proof.
  intros this propertyId confirmedBy method visitData now Hl Ho.
  split; [apply addItem_keeps_invariants; assumption|].
  split.
  { unfold CartModel.removeItem.
    destruct (findIndex (active_for propertyId) (items this)); [|split; assumption].
    simpl. apply invariants_kept; [|assumption|assumption].
    intros P [->|[q ->]]; apply filter_update_at_le.
    - intros x H. discriminate H.
    - apply active_for_back; [reflexivity|]. intros it H. discriminate H. }
  split.
  { unfold CartModel.confirmVisit.
    destruct (find (active_for propertyId) (items this)); [|split; assumption].
    destruct (VisitStatus_eqb (item_visit_status i) VConfirmed); [split; assumption|].
    destruct (now >? _); simpl; apply invariants_by_update_first; try assumption;
      try reflexivity; intros it H; try discriminate H; exact H. }
  split.
  { unfold CartSchema.scheduleVisit.
    destruct (find (active_for propertyId) (items this)); [|split; assumption].
    destruct (now >? _); simpl; apply invariants_by_update_first; try assumption;
      try reflexivity; intros it H; try discriminate H; exact H. }
  unfold CartModel.checkExpiredItems. simpl. rewrite map_map.
  apply invariants_kept; [|assumption|assumption].
  intros P [->|[q ->]];
    apply (filter_map_le _ (fun x => fst (CartModel.check_item now
             (visit_window_days (settings this) * 24 * 60 * 60 * 1000) x))).
  - intros x. apply check_item_active_back.
  - apply (active_for_back (fun x => fst (CartModel.check_item now
             (visit_window_days (settings this) * 24 * 60 * 60 * 1000) x))).
    + intros it. apply check_item_keeps_property.
    + intros it. apply check_item_active_back.
Qed.

(** A cart with three active items, one per property, and the default
    limit of five. *)
Lemma cart_methods_keep_the_limit_witness :
  let this := mkCart "buyerA"
                [new_item "P1" 0 None; new_item "P2" 0 None; new_item "P3" 0 None]
                (mkSettings 5 7 60) in
  within_limit this /\ one_item_each this
  /\ within_limit (snd (CartModel.addItem this "P4" 0))
  /\ within_limit (fst (CartModel.checkExpiredItems this (days 8))).
Proof.
  assert (Hl : within_limit (mkCart "buyerA"
                [new_item "P1" 0 None; new_item "P2" 0 None; new_item "P3" 0 None]
                (mkSettings 5 7 60))).
  { unfold within_limit. vm_compute. discriminate. }
  assert (Ho : one_item_each (mkCart "buyerA"
                [new_item "P1" 0 None; new_item "P2" 0 None; new_item "P3" 0 None]
                (mkSettings 5 7 60))).
  { intros q.
    destruct (String.eqb "P1" q) eqn:E1;
      [apply String.eqb_eq in E1; subst q; vm_compute; auto|].
    destruct (String.eqb "P2" q) eqn:E2;
      [apply String.eqb_eq in E2; subst q; vm_compute; auto|].
    destruct (String.eqb "P3" q) eqn:E3;
      [apply String.eqb_eq in E3; subst q; vm_compute; auto|].
    unfold items, filter, active_for, new_item, item_property.
    rewrite E1, E2, E3. simpl. auto. }
  split; [exact Hl|]. split; [exact Ho|].
  pose proof (cart_methods_keep_the_limit _ "P4" "broker" Manual
                (mkVisitData None None None None None None) 0 Hl Ho) as H.
  pose proof (cart_methods_keep_the_limit _ "P4" "broker" Manual
                (mkVisitData None None None None None None) (days 8) Hl Ho) as H8.
  split; [apply H | apply H8].
Defined.

Lemma isPropertyInCart_find :
  forall (this : Cart) (propertyId : ObjectId),
    CartModel.isPropertyInCart this propertyId = false <->
    find (active_for propertyId) (items this) = None.
Proof.
  intros this propertyId. unfold CartModel.isPropertyInCart. split; intros H.
  - destruct (find (active_for propertyId) (items this)) eqn:F; [|reflexivity].
    apply find_some in F. destruct F as [F1 F2].
    assert (existsb (active_for propertyId) (items this) = true)
      by (apply existsb_exists; eauto).
    congruence.
  - destruct (existsb (active_for propertyId) (items this)) eqn:E; [|reflexivity].
    apply existsb_exists in E. destruct E as [x [Hx Hp]].
    pose proof (find_none _ _ H x Hx) as Hn. congruence.
Qed.

Lemma new_item_active_for :
  forall (propertyId : ObjectId) (now : Time) (bwe : option Time),
    active_for propertyId (new_item propertyId now bwe) = true.
Proof.
  intros. unfold active_for. simpl. rewrite String.eqb_refl. reflexivity.
Qed.

Lemma findIndex_app_first :
  forall (A : Type) (p : A -> bool) (l1 l2 : list A) (x : A),
    find p l1 = None -> p x = true ->
    findIndex p (l1 ++ x :: l2) = Some (List.length l1).
Proof.
  intros A p l1 l2 x. induction l1 as [|y l1 IH]; simpl; intros Hn Hp.
  - rewrite Hp. reflexivity.
  - destruct (p y); [discriminate|]. rewrite (IH Hn Hp). reflexivity.
Qed.

(** X2. Round trip of [addItem] and [removeItem]: when [addItem]
    resolves, the property is in the cart ([isPropertyInCart]); a
    following [removeItem] resolves, marks exactly the item just pushed
    as removed (the item stays in the array), after which the property
    is no longer in the cart, the number of active items is what it was
    before the [addItem], and the same property can be added again. *)
Theorem addItem_removeItem_round_trip :
  forall (this this' : Cart) (propertyId : ObjectId) (now later : Time),
    CartModel.addItem this propertyId now = (Resolved, this') ->
    let removed :=
      set_items this
        (items this ++ [set_item_status Removed (new_item propertyId now None)]) in
    CartModel.isPropertyInCart this' propertyId = true
    /\ CartModel.removeItem this' propertyId = (Resolved, removed)
    /\ CartModel.isPropertyInCart removed propertyId = false
    /\ CartSchema.activeItems removed = CartSchema.activeItems this
    /\ fst (CartModel.addItem removed propertyId later) = Resolved.
Proof.
  intros this this' propertyId now later Hadd removed.
  unfold CartModel.addItem in Hadd.
  destruct (CartModel.isPropertyInCart this propertyId) eqn:Hin; [discriminate|].
  destruct (Z.of_nat (List.length (CartModel.activeItems this))
            >=? max_properties (settings this)) eqn:Hfull; [discriminate|].
  injection Hadd as <-.
  pose proof (proj1 (isPropertyInCart_find this propertyId) Hin) as Hnone.
  assert (Hremoved_none :
            find (active_for propertyId) (items removed) = None).
  { unfold removed. rewrite items_set_items.
    rewrite (find_app_none (active_for propertyId)) by exact Hnone.
    simpl. rewrite removed_item_not_active. reflexivity. }
  assert (Hcount : CartSchema.activeItems removed = CartSchema.activeItems this).
  { unfold CartSchema.activeItems, removed. rewrite items_set_items.
    rewrite filter_app. simpl. rewrite app_nil_r. reflexivity. }
  split.
  { unfold CartModel.isPropertyInCart. rewrite items_set_items.
    rewrite existsb_app. simpl. rewrite new_item_active_for.
    rewrite orb_true_r. reflexivity. }
  split.
  { unfold CartModel.removeItem. rewrite items_set_items.
    rewrite (findIndex_app_first _ (active_for propertyId) (items this) []
               (new_item propertyId now None) Hnone (new_item_active_for _ _ _)).
    rewrite update_at_app. reflexivity. }
  split; [apply isPropertyInCart_find; exact Hremoved_none|].
  split; [exact Hcount|].
  unfold CartModel.addItem.
  rewrite (proj2 (isPropertyInCart_find removed propertyId) Hremoved_none).
  unfold CartSchema.activeItems in Hcount. unfold CartModel.activeItems in *.
  replace (settings removed) with (settings this) by reflexivity.
  apply Nat2Z.inj in Hcount. rewrite Hcount. rewrite Hfull. reflexivity.
Qed.

Lemma addItem_removeItem_round_trip_witness :
  let this := mkCart "buyerA" [new_item "P1" 0 None] (mkSettings 5 7 60) in
  let this' := mkCart "buyerA" [new_item "P1" 0 None; new_item "P" (days 1) None]
                      (mkSettings 5 7 60) in
  CartModel.addItem this "P" (days 1) = (Resolved, this')
  /\ CartModel.isPropertyInCart this' "P" = true
  /\ CartModel.isPropertyInCart (snd (CartModel.removeItem this' "P")) "P" = false.
Proof.
  assert (H : CartModel.addItem (mkCart "buyerA" [new_item "P1" 0 None] (mkSettings 5 7 60))
                "P" (days 1)
              = (Resolved,
                 mkCart "buyerA" [new_item "P1" 0 None; new_item "P" (days 1) None]
                        (mkSettings 5 7 60))) by reflexivity.
  pose proof (addItem_removeItem_round_trip _ _ "P" (days 1) (days 2) H) as R.
  cbv zeta in R. destruct R as [R1 [R2 [R3 _]]].
  split; [exact H|]. split; [exact R1|]. rewrite R2. exact R3.
Defined.

(** ** What the sweep reports *)

Lemma expire_visit_changes :
  forall it : Item, status_active it = true -> expire_visit it <> it.
Proof.
  intros it Ha E. apply (f_equal item_status) in E. simpl in E.
  unfold status_active in Ha. rewrite <- E in Ha. discriminate.
Qed.

Lemma set_expired_changes :
  forall it : Item, status_active it = true -> set_item_status Expired it <> it.
Proof.
  intros it Ha E. apply (f_equal item_status) in E. simpl in E.
  unfold status_active in Ha. rewrite <- E in Ha. discriminate.
Qed.

(** On one item: the flag is set exactly when the item changed. *)
Lemma check_item_flag :
  forall (now : Time) (ms : Z) (it : Item),
    (snd (CartModel.check_item now ms it) = true
     /\ fst (CartModel.check_item now ms it) <> it)
    \/ (snd (CartModel.check_item now ms it) = false
        /\ fst (CartModel.check_item now ms it) = it).
Proof.
  intros now ms it. unfold CartModel.check_item.
  destruct (status_active it) eqn:Ha; simpl.
  - destruct (VisitStatus_eqb (item_visit_status it) VPending) eqn:Hp.
    + destruct (now - item_added_at it >? ms).
      * left. simpl. destruct (item_booking_window_end it); simpl;
          (split; [reflexivity | apply expire_visit_changes; exact Ha]).
      * destruct (item_booking_window_end it); [|right; split; reflexivity].
        rewrite Ha. destruct (item_visit_status it); try discriminate Hp. simpl.
        right; split; reflexivity.
    + destruct (item_booking_window_end it); [|right; split; reflexivity].
      rewrite Ha. simpl.
      destruct (VisitStatus_eqb (item_visit_status it) VConfirmed);
        [|right; split; reflexivity].
      destruct (now >? t); [|right; split; reflexivity].
      left. split; [reflexivity | apply set_expired_changes; exact Ha].
  - destruct (item_booking_window_end it); [|right; split; reflexivity].
    rewrite Ha. simpl. right; split; reflexivity.
Qed.

Lemma set_items_same :
  forall (c : Cart) (l : list Item), set_items c l = c <-> l = items c.
Proof.
  intros [b l0 s] l. unfold set_items. simpl. split; intros H.
  - injection H as ->. reflexivity.
  - subst. reflexivity.
Qed.

(** X3. [checkExpiredItems] returns [true] exactly when it changed the
    document: the returned flag is set if and only if the cart after
    the call differs from the cart before it (so the method saves
    exactly when there is something to save, and
    [cleanExpiredItems] counts exactly the carts that changed). *)
Theorem checkExpiredItems_reports_change :
  forall (this : Cart) (now : Time),
    snd (CartModel.checkExpiredItems this now) = true
    <-> fst (CartModel.checkExpiredItems this now) <> this.
Proof.
  intros this now. unfold CartModel.checkExpiredItems. simpl.
  set (ms := visit_window_days (settings this) * 24 * 60 * 60 * 1000).
  rewrite set_items_same.
  generalize (items this) as l. intros l.
  induction l as [|it l IH]; simpl.
  - split; [discriminate | intros H; exfalso; apply H; reflexivity].
  - destruct (check_item_flag now ms it) as [[Hs Hf]|[Hs Hf]]; rewrite Hs; simpl.
    + split; [|reflexivity]. intros _ E. injection E as E1 E2. exact (Hf E1).
    + rewrite Hf. rewrite IH. split; intros H E.
      * injection E as E2. exact (H E2).
      * apply H. rewrite E. reflexivity.
Qed.

(** ** Scheduling and confirming *)

Lemma find_at :
  forall (A : Type) (p : A -> bool) (l1 l2 : list A) (x : A),
    find p l1 = None -> p x = true -> find p (l1 ++ x :: l2) = Some x.
Proof.
  intros A p l1 l2 x Hn Hp. apply find_app_first; assumption.
Qed.

Lemma gtb_false_le : forall a b : Z, a <= b -> (a >? b) = false.
Proof.
  intros a b H. rewrite Z.gtb_ltb. apply Z.ltb_ge. exact H.
Qed.

Lemma confirmVisit_at :
  forall (this : Cart) (propertyId confirmedBy : ObjectId) (method : Method)
         (now : Time) (l1 l2 : list Item) (item : Item),
    items this = l1 ++ item :: l2 ->
    find (active_for propertyId) l1 = None ->
    active_for propertyId item = true ->
    item_visit_status item <> VConfirmed ->
    now <= setDate_plus (item_added_at item) (visit_window_days (settings this)) ->
    CartModel.confirmVisit this propertyId confirmedBy method now
    = (Resolved,
       set_items this
         (l1 ++ CartModel.confirm_item confirmedBy method now
                  (booking_window_days (settings this)) item :: l2)).
Proof.
  intros this propertyId confirmedBy method now l1 l2 item Hit Hn Hp Hv Hw.
  unfold CartModel.confirmVisit. rewrite Hit.
  rewrite (find_at _ _ l1 l2 item Hn Hp).
  destruct (VisitStatus_eqb (item_visit_status item) VConfirmed) eqn:E.
  { exfalso. apply Hv. destruct (item_visit_status item); try discriminate E. reflexivity. }
  replace (now >? setDate_plus (item_added_at item) (visit_window_days (settings this)))
    with false by (symmetry; apply gtb_false_le; exact Hw).
  rewrite (update_first_app (active_for propertyId) _ l1 l2 item Hn Hp). reflexivity.
Qed.

Lemma scheduleVisit_at :
  forall (this : Cart) (propertyId : ObjectId) (visitData : VisitData)
         (now : Time) (l1 l2 : list Item) (item : Item),
    items this = l1 ++ item :: l2 ->
    find (active_for propertyId) l1 = None ->
    active_for propertyId item = true ->
    now <= setDate_plus (item_added_at item) (visit_window_days (settings this)) ->
    CartSchema.scheduleVisit this propertyId visitData now
    = (Resolved,
       set_items this (l1 ++ CartSchema.schedule_item visitData item :: l2)).
Proof.
  intros this propertyId visitData now l1 l2 item Hit Hn Hp Hw.
  unfold CartSchema.scheduleVisit. rewrite Hit.
  rewrite (find_at _ _ l1 l2 item Hn Hp).
  replace (now >? setDate_plus (item_added_at item) (visit_window_days (settings this)))
    with false by (symmetry; apply gtb_false_le; exact Hw).
  rewrite (update_first_app (active_for propertyId) _ l1 l2 item Hn Hp). reflexivity.
Qed.

(** X4. [scheduleVisit] does not look at the visit status, so it
    re-opens a confirmed visit.  For an active item inside its visit
    window: [confirmVisit] resolves; a second [confirmVisit] throws
    'Visit already confirmed'; [scheduleVisit] resolves all the same
    and puts [visit_status] back to 'scheduled'; after that
    [confirmVisit] resolves again and starts the booking window anew
    from the time of that call. *)
Theorem scheduleVisit_reopens_a_confirmed_visit :
  forall (this : Cart) (propertyId confirmedBy : ObjectId) (method : Method)
         (visitData : VisitData) (t1 t2 t3 : Time) (item : Item),
    find (active_for propertyId) (items this) = Some item ->
    item_visit_status item <> VConfirmed ->
    t1 <= setDate_plus (item_added_at item) (visit_window_days (settings this)) ->
    t2 <= setDate_plus (item_added_at item) (visit_window_days (settings this)) ->
    t3 <= setDate_plus (item_added_at item) (visit_window_days (settings this)) ->
    exists (c1 c2 c3 : Cart) (item3 : Item),
      CartModel.confirmVisit this propertyId confirmedBy method t1 = (Resolved, c1)
      /\ CartModel.confirmVisit c1 propertyId confirmedBy method t2
         = (Threw (Error "Visit already confirmed"), c1)
      /\ CartSchema.scheduleVisit c1 propertyId visitData t2 = (Resolved, c2)
      /\ CartModel.confirmVisit c2 propertyId confirmedBy method t3 = (Resolved, c3)
      /\ find (active_for propertyId) (items c3) = Some item3
      /\ item_visit_status item3 = VConfirmed
      /\ item_visit_confirmed_at item3 = Some t3
      /\ item_booking_window_start item3 = Some t3
      /\ item_booking_window_end item3
         = Some (t3 + booking_window_days (settings this) * 24 * 60 * 60 * 1000).
Proof.
  intros this propertyId confirmedBy method visitData t1 t2 t3 item
         Hfind Hv H1 H2 H3.
  destruct (find_split (active_for propertyId) _ _ Hfind) as [l1 [l2 [Hit [Hp Hn]]]].
  set (days := booking_window_days (settings this)).
  set (i1 := CartModel.confirm_item confirmedBy method t1 days item).
  set (i2 := CartSchema.schedule_item visitData i1).
  set (i3 := CartModel.confirm_item confirmedBy method t3 days i2).
  assert (Hp1 : active_for propertyId i1 = true) by exact Hp.
  assert (Hp2 : active_for propertyId i2 = true) by exact Hp.
  assert (Hp3 : active_for propertyId i3 = true) by exact Hp.
  exists (set_items this (l1 ++ i1 :: l2)), (set_items this (l1 ++ i2 :: l2)),
         (set_items this (l1 ++ i3 :: l2)), i3.
  split; [apply confirmVisit_at; assumption|].
  split.
  { apply (cart_confirmVisit_already_confirmed _ _ _ _ _ i1); [|reflexivity].
    rewrite items_set_items. apply find_at; assumption. }
  split.
  { rewrite (scheduleVisit_at (set_items this (l1 ++ i1 :: l2)) propertyId visitData t2
               l1 l2 i1 (items_set_items _ _) Hn Hp1 H2).
    reflexivity. }
  split.
  { rewrite (confirmVisit_at (set_items this (l1 ++ i2 :: l2)) propertyId confirmedBy
               method t3 l1 l2 i2 (items_set_items _ _) Hn Hp2);
      [reflexivity | discriminate | exact H3]. }
  split; [rewrite items_set_items; apply find_at; assumption|].
  repeat split; reflexivity.
Qed.

Lemma scheduleVisit_reopens_a_confirmed_visit_witness :
  let this := mkCart "buyerA" [new_item "P" 0 None] (mkSettings 5 7 60) in
  exists (c1 c2 c3 : Cart) (item3 : Item),
    CartModel.confirmVisit this "P" "broker" Manual (days 1) = (Resolved, c1)
    /\ CartModel.confirmVisit c1 "P" "broker" Manual (days 2)
       = (Threw (Error "Visit already confirmed"), c1)
    /\ CartSchema.scheduleVisit c1 "P" (mkVisitData None None None None None None) (days 2)
       = (Resolved, c2)
    /\ CartModel.confirmVisit c2 "P" "broker" Manual (days 3) = (Resolved, c3)
    /\ find (active_for "P") (items c3) = Some item3
    /\ item_booking_window_end item3 = Some (days 63).
Proof.
  cbv zeta.
  destruct (scheduleVisit_reopens_a_confirmed_visit
              (mkCart "buyerA" [new_item "P" 0 None] (mkSettings 5 7 60))
              "P" "broker" Manual (mkVisitData None None None None None None)
              (days 1) (days 2) (days 3) (new_item "P" 0 None))
    as [c1 [c2 [c3 [item3 [A [B [C [D [E [_ [_ [_ F]]]]]]]]]]]].
  - reflexivity.
  - discriminate.
  - vm_compute. discriminate.
  - vm_compute. discriminate.
  - vm_compute. discriminate.
  - exists c1, c2, c3, item3. repeat split; assumption.
Defined.

(** ** Limits across the handlers *)

Lemma within_limit_kept :
  forall (this : Cart) (l' : list Item),
    (List.length (filter status_active l')
     <= List.length (filter status_active (items this)))%nat ->
    within_limit this -> within_limit (set_items this l').
Proof.
  intros this l' H Hl. unfold within_limit, CartSchema.activeItems in *. simpl. lia.
Qed.

Lemma in_update_first :
  forall (A : Type) (sel : A -> bool) (f : A -> A) (l : list A) (y : A),
    In y (update_first sel f l) -> In y l \/ exists x, In x l /\ y = f x.
Proof.
  intros A sel f l y. induction l as [|x l IH]; simpl; [tauto|].
  destruct (sel x); simpl.
  - intros [<-|H]; [right; exists x; auto | left; auto].
  - intros [<-|H]; [left; auto|].
    destruct (IH H) as [H'|[z [Hz ->]]]; [left; auto | right; exists z; auto].
Qed.

Lemma limits_unchanged :
  forall st st' : Store,
    carts_within_limits st -> carts st' = carts st -> carts_within_limits st'.
Proof.
  intros st st' H E c Hc. rewrite E in Hc. exact (H c Hc).
Qed.

Lemma limits_by_items :
  forall (st st' : Store) (cart : Cart) (l' : list Item),
    carts_within_limits st ->
    In cart (carts st) ->
    carts st' = update_first (of_buyer (buyer cart)) (fun _ => set_items cart l') (carts st) ->
    (List.length (filter status_active l')
     <= List.length (filter status_active (items cart)))%nat ->
    carts_within_limits st'.
Proof.
  intros st st' cart l' H Hin E Hle c Hc. rewrite E in Hc.
  apply in_update_first in Hc. destruct Hc as [Hc|[x [_ ->]]]; [exact (H c Hc)|].
  apply within_limit_kept; [exact Hle | exact (H cart Hin)].
Qed.

Lemma findCart_in :
  forall (st : Store) (userId : ObjectId) (cart : Cart),
    findCart st userId = Some cart -> In cart (carts st).
Proof.
  intros st userId cart H. apply find_some in H. apply H.
Qed.

Lemma active_count_update_first :
  forall (sel : Item -> bool) (f : Item -> Item) (l : list Item),
    (forall it, status_active (f it) = true -> status_active it = true) ->
    (List.length (filter status_active (update_first sel f l))
     <= List.length (filter status_active l))%nat.
Proof.
  intros sel f l H. apply filter_update_first_le. exact H.
Qed.

Lemma active_count_splice1 :
  forall (i : nat) (l : list Item),
    (List.length (filter status_active (splice1 i l))
     <= List.length (filter status_active l))%nat.
Proof.
  intros i l. revert i. induction l as [|x l IH]; intros [|i]; simpl; auto.
  - destruct (status_active x); simpl; auto.
  - destruct (status_active x); simpl; [apply le_n_S|]; apply IH.
Qed.

Lemma schedule_keeps_limits :
  forall (st : Store) (userId propertyId visitDate visitTime : string)
         (notes : option string),
    carts_within_limits st ->
    carts_within_limits
      (snd (BuyerVisitRoutes.schedule userId propertyId visitDate visitTime notes st)).
Proof.
  intros st userId propertyId visitDate visitTime notes H.
  unfold BuyerVisitRoutes.schedule. open_handler.
  destruct (String.eqb propertyId "" || String.eqb visitDate ""
            || String.eqb visitTime ""); [exact H|].
  destruct (findCart st userId) as [cart|] eqn:Hcart; [|exact H].
  destruct (find (active_for propertyId) (items cart)); [|exact H].
  simpl. eapply limits_by_items;
    [ exact H | eapply findCart_in; exact Hcart | reflexivity
    | apply active_count_update_first; intros it Hit; exact Hit ].
Qed.

Lemma removeFromCart_keeps_limits :
  forall (st : Store) (userId propertyId : ObjectId),
    carts_within_limits st ->
    carts_within_limits (snd (BuyerController.removeFromCart userId propertyId st)).
Proof.
  intros st userId propertyId H.
  unfold BuyerController.removeFromCart. open_handler.
  destruct (findCart st userId) as [cart|] eqn:Hcart; [|exact H].
  destruct (findIndex (active_for propertyId) (items cart)) as [i|]; [|exact H].
  cbv beta iota.
  destruct (findById _ propertyId) as [property|]; repeat frame_await; simpl;
    (eapply limits_by_items;
     [ exact H | eapply findCart_in; exact Hcart | chase; reflexivity
     | apply active_count_splice1 ]).
Qed.

Lemma buyer_confirmVisit_keeps_limits :
  forall (st : Store) (userId propertyId : ObjectId) (now : Time),
    carts_within_limits st ->
    carts_within_limits (snd (BuyerController.confirmVisit userId propertyId now st)).
Proof.
  intros st userId propertyId now H.
  unfold BuyerController.confirmVisit. open_handler.
  destruct (findCart st userId) as [cart|] eqn:Hcart; [|exact H].
  destruct (find (active_for propertyId) (items cart)) as [cartItem|]; [|exact H].
  destruct (now >? _); [exact H|].
  cbv beta iota.
  destruct (findById _ propertyId) as [property|];
    [destruct (broker property)|];
    repeat frame_await; simpl;
    (eapply limits_by_items;
     [ exact H | eapply findCart_in; exact Hcart | chase; reflexivity
     | apply active_count_update_first; intros it Hit; exact Hit ]).
Qed.

Lemma broker_confirmVisit_keeps_limits :
  forall (st : Store) (userId propertyId buyerId : ObjectId) (now : Time),
    carts_within_limits st ->
    carts_within_limits
      (snd (BrokerController.confirmVisit userId propertyId buyerId now st)).
Proof.
  intros st userId propertyId buyerId now H.
  unfold BrokerController.confirmVisit. open_handler.
  destruct (findCart st buyerId) as [cart|] eqn:Hcart; [|exact H].
  destruct (find (active_for propertyId) (items cart)) as [cartItem|]; [|exact H].
  destruct (findById st propertyId) as [property|]; [|exact H].
  destruct (broker property) as [b|]; [|exact H].
  destruct (negb (String.eqb b userId)); [exact H|].
  cbv beta iota.
  destruct (negb (String.eqb (added_by_user property) userId));
    repeat frame_await; simpl;
    (eapply limits_by_items;
     [ exact H | eapply findCart_in; exact Hcart | chase; reflexivity
     | apply active_count_update_first; intros it Hit; exact Hit ]).
Qed.

Lemma route_confirm_keeps_limits :
  forall (st : Store) (userId propertyId : ObjectId) (method : Method)
         (notes : option string) (now : Time),
    carts_within_limits st ->
    carts_within_limits
      (snd (BrokerRoutes.confirm userId propertyId method notes now st)).
Proof.
  intros st userId propertyId method notes now H.
  unfold BrokerRoutes.confirm. open_handler.
  destruct (find _ (properties st)) as [property|]; [|exact H].
  destruct (find (BrokerRoutes.in_active_cart propertyId) (carts st)) as [cart|] eqn:Hcart;
    [|exact H].
  destruct (find (active_for propertyId) (items cart)) as [cartItem|]; [|exact H].
  destruct (now >? _); [exact H|].
  assert (Hin : In cart (carts st)) by (apply find_some in Hcart; apply Hcart).
  cbv beta iota.
  destruct (negb (String.eqb (added_by_user property) userId)
            || negb (Role_eqb (added_by_role property) broker_role));
    [destruct (CommissionModel.calculateCommission _ _ _ _)|];
    repeat frame_await; simpl;
    (eapply limits_by_items;
     [ exact H | exact Hin | chase; reflexivity
     | apply active_count_update_first; intros it Hit; exact Hit ]).
Qed.

Lemma route_add_keeps_limits :
  forall (st : Store) (userId propertyId : ObjectId) (now : Time),
    carts_within_limits st ->
    carts_within_limits (snd (BuyerRoutes.add userId propertyId now st)).
Proof.
  intros st userId propertyId now H.
  unfold BuyerRoutes.add, BuyerRoutes.add_checks, BuyerRoutes.add_after,
    BuyerRoutes.add_writes.
  open_handler.
  destruct (String.eqb propertyId ""); [exact H|].
  destruct (findById st propertyId) as [property|]; [|exact H].
  destruct (in_cart (cart_status property)); [exact H|].
  destruct (negb (PropertyStatus_eqb (prop_status property) live)); [exact H|].
  destruct (findCart st userId) as [cart|] eqn:Hcart.
  - destruct (_ >=? _) eqn:Hfull; [exact H|].
    destruct (existsb _ _); [exact H|].
    simpl. intros c Hc. simpl in Hc.
    apply in_update_first in Hc. destruct Hc as [Hc|[x [_ ->]]]; [exact (H c Hc)|].
    unfold within_limit, CartSchema.activeItems. simpl.
    rewrite filter_app, length_app. simpl. lia.
  - destruct (_ >=? _) eqn:Hfull; [exact H|].
    destruct (existsb _ _); [exact H|].
    simpl. intros c Hc. simpl in Hc.
    apply in_app_or in Hc. destruct Hc as [Hc|[<-|[]]]; [exact (H c Hc)|].
    unfold within_limit, CartSchema.activeItems. simpl. lia.
Qed.

Lemma route_remove_keeps_limits :
  forall (st : Store) (userId propertyId : ObjectId),
    carts_within_limits st ->
    carts_within_limits (snd (BuyerRoutes.remove userId propertyId st)).
Proof.
  intros st userId propertyId H.
  unfold BuyerRoutes.remove. open_handler.
  destruct (String.eqb propertyId ""); [exact H|].
  destruct (findCart st userId) as [cart|] eqn:Hcart; [|exact H].
  destruct (findIndex (active_for propertyId) (items cart)) as [i|]; [|exact H].
  simpl. eapply limits_by_items;
    [ exact H | eapply findCart_in; exact Hcart | reflexivity
    | apply filter_update_at_le; intros x Hx; discriminate Hx ].
Qed.

Lemma cart_cleanup_keeps_limits :
  forall (st : Store) (now : Time),
    carts_within_limits st ->
    carts_within_limits (CartCleanupService.cleanupExpiredItems now st).
Proof.
  intros st now H c Hc.
  unfold CartCleanupService.cleanupExpiredItems in Hc. simpl in Hc.
  rewrite cleanExpiredItems_map in Hc. apply in_map_iff in Hc.
  destruct Hc as [c0 [<- Hc0]].
  unfold CartModel.checkExpiredItems. simpl. rewrite map_map.
  apply within_limit_kept; [|exact (H c0 Hc0)].
  apply (filter_map_le _ (fun x => fst (CartModel.check_item now
           (visit_window_days (settings c0) * 24 * 60 * 60 * 1000) x))).
  intros x. apply check_item_active_back.
Qed.

Lemma call_keeps_limits :
  forall (c : Call) (st : Store),
    in_sources c = true -> carts_within_limits st -> carts_within_limits (call st c).
Proof.
  intros [rq now|userId propertyId visitDate visitTime notes] st Hsrc H.
  - destruct rq; simpl in *.
    + discriminate Hsrc.
    + now apply removeFromCart_keeps_limits.
    + now apply buyer_confirmVisit_keeps_limits.
    + now apply broker_confirmVisit_keeps_limits.
    + now apply route_confirm_keeps_limits.
    + now apply route_add_keeps_limits.
    + now apply route_remove_keeps_limits.
    + eapply limits_unchanged; [exact H | reflexivity].
    + now apply cart_cleanup_keeps_limits.
  - now apply schedule_keeps_limits.
Qed.

(** X5. Carts stay within their limit.  From a store in which every
    cart holds no more active items than its [settings.max_properties],
    after any sequence of calls served one at a time (reserve and
    release through the buyer router, release through the buyer
    controller, confirmation through the buyer controller, the broker
    controller and the broker router, scheduling a visit, runs of both
    cleanup services; not the buyer controller's [addToCart], whose
    capacity check calls an undefined method), every cart is still
    within its limit, and GET /api/cart/count answers no more than the
    limit of the buyer's cart. *)
Theorem carts_stay_within_their_limit :
  forall (calls : list Call) (st : Store),
    forallb in_sources calls = true ->
    carts_within_limits st ->
    carts_within_limits (fold_left call calls st)
    /\ forall (buyerId : ObjectId) (cart : Cart),
         findCart (fold_left call calls st) buyerId = Some cart ->
         BuyerVisitRoutes.cart_count buyerId (fold_left call calls st)
         <= max_properties (settings cart).
Proof.
  intros calls. induction calls as [|c calls IH]; intros st Hsrc H.
  - simpl. split; [exact H|].
    intros buyerId cart Hcart. unfold BuyerVisitRoutes.cart_count. rewrite Hcart.
    apply (H cart). eapply findCart_in. exact Hcart.
  - simpl in Hsrc. apply andb_true_iff in Hsrc. destruct Hsrc as [Hc Hrest].
    simpl. apply IH; [exact Hrest|]. apply call_keeps_limits; assumption.
Qed.

Lemma carts_stay_within_their_limit_witness :
  carts_within_limits scenario_store
  /\ BuyerVisitRoutes.cart_count "buyerA"
       (fold_left call
          [Engine (RouteAdd "buyerA" "P") 0;
           ScheduleVisit "buyerA" "P" "2024-01-02" "10:00" None;
           Engine CartCleanup (days 8)]
          scenario_store)
     <= 5.
Proof.
  assert (H : carts_within_limits scenario_store) by (intros c []).
  split; [exact H|].
  apply (proj2 (carts_stay_within_their_limit
                  [Engine (RouteAdd "buyerA" "P") 0;
                   ScheduleVisit "buyerA" "P" "2024-01-02" "10:00" None;
                   Engine CartCleanup (days 8)]
                  scenario_store eq_refl H)
               "buyerA"
               (mkCart "buyerA" [set_item_visit_status VScheduled (new_item "P" 0 None)]
                       (mkSettings 5 7 60))).
  reflexivity.
Defined.

(** ** A scheduled visit and the sweeps *)

(** The sweep of the Cart model leaves an item alone whose visit is
    neither pending nor confirmed. *)
Lemma check_item_skips :
  forall (now : Time) (ms : Z) (it : Item),
    item_visit_status it <> VPending -> item_visit_status it <> VConfirmed ->
    CartModel.check_item now ms it = (it, false).
Proof.
  intros now ms it Hp Hc. unfold CartModel.check_item.
  assert (E1 : VisitStatus_eqb (item_visit_status it) VPending = false)
    by (destruct (item_visit_status it); try reflexivity; exfalso; apply Hp; reflexivity).
  assert (E2 : VisitStatus_eqb (item_visit_status it) VConfirmed = false)
    by (destruct (item_visit_status it); try reflexivity; exfalso; apply Hc; reflexivity).
  rewrite E1, andb_false_r. cbv beta iota.
  destruct (item_booking_window_end it); [|reflexivity].
  rewrite E2, andb_false_r. reflexivity.
Qed.

Lemma find_map_first :
  forall (A : Type) (p : A -> bool) (g : A -> A) (l : list A) (x : A),
    (forall y, p y = false -> p (g y) = false) ->
    find p l = Some x -> p (g x) = true ->
    find p (map g l) = Some (g x).
Proof.
  intros A p g l x Hback. induction l as [|y l IH]; simpl; [discriminate|].
  destruct (p y) eqn:Hy.
  - intros E Hx. injection E as ->. rewrite Hx. reflexivity.
  - intros E Hx. rewrite (Hback y Hy). apply IH; assumption.
Qed.

Lemma find_buyer_map :
  forall (g : Cart -> Cart) (l : list Cart) (userId : ObjectId) (c : Cart),
    (forall c, buyer (g c) = buyer c) ->
    find (of_buyer userId) l = Some c ->
    find (of_buyer userId) (map g l) = Some (g c).
Proof.
  intros g l userId c Hb. induction l as [|d l IH]; simpl; [discriminate|].
  replace (of_buyer userId (g d)) with (of_buyer userId d)
    by (unfold of_buyer; rewrite Hb; reflexivity).
  destruct (of_buyer userId d); [intros E; injection E as ->; reflexivity | exact IH].
Qed.

Lemma active_for_stays_false :
  forall (now : Time) (ms : Z) (propertyId : ObjectId) (it : Item),
    active_for propertyId it = false ->
    active_for propertyId (fst (CartModel.check_item now ms it)) = false.
Proof.
  intros now ms propertyId it H.
  destruct (active_for propertyId (fst (CartModel.check_item now ms it))) eqn:E;
    [|reflexivity].
  apply (active_for_back (fun x => fst (CartModel.check_item now ms x))) in E.
  - congruence.
  - intros x. apply check_item_keeps_property.
  - intros x. apply check_item_active_back.
Qed.

(** One run of the cart cleanup service keeps a buyer's scheduled item
    where and as it is. *)
Lemma cart_cleanup_keeps_scheduled :
  forall (st : Store) (now : Time) (userId propertyId : ObjectId) (item : Item),
    item_visit_status item = VScheduled ->
    (exists cart, findCart st userId = Some cart
                  /\ find (active_for propertyId) (items cart) = Some item) ->
    exists cart, findCart (CartCleanupService.cleanupExpiredItems now st) userId = Some cart
                 /\ find (active_for propertyId) (items cart) = Some item.
Proof.
  intros st now userId propertyId item Hs [cart [Hcart Hitem]].
  exists (fst (CartModel.checkExpiredItems cart now)). split.
  - unfold CartCleanupService.cleanupExpiredItems, findCart. simpl.
    rewrite cleanExpiredItems_map.
    apply (find_buyer_map (fun c => fst (CartModel.checkExpiredItems c now)));
      [reflexivity | exact Hcart].
  - unfold CartModel.checkExpiredItems. simpl. rewrite map_map.
    set (ms := visit_window_days (settings cart) * 24 * 60 * 60 * 1000).
    assert (Hsame : fst (CartModel.check_item now ms item) = item).
    { rewrite check_item_skips; [reflexivity | rewrite Hs; discriminate
                                | rewrite Hs; discriminate]. }
    transitivity (Some (fst (CartModel.check_item now ms item)));
      [|rewrite Hsame; reflexivity].
    apply (find_map_first _ (active_for propertyId)
             (fun x => fst (CartModel.check_item now ms x))).
    + intros y. apply active_for_stays_false.
    + exact Hitem.
    + rewrite Hsame. apply find_some in Hitem. apply Hitem.
Qed.

(** X6. A reservation whose visit was scheduled through POST
    /api/visit/schedule is never expired by the cart cleanup service.
    The route answers 200 for an active item of the buyer's cart
    whatever the time, sets the item's [visit_status] to 'scheduled'
    and leaves the properties as they are; after that, however many
    times and however late [CartCleanupService.cleanupExpiredItems]
    runs, the buyer's cart still holds that item, active and
    scheduled: the sweep of the Cart model only expires items whose
    visit is pending or confirmed. *)
Theorem scheduled_visit_outlives_the_sweeps :
  forall (st : Store) (userId propertyId visitDate visitTime : string)
         (notes : option string) (cart : Cart) (item : Item) (sweeps : list Time),
    propertyId <> "" -> visitDate <> "" -> visitTime <> "" ->
    findCart st userId = Some cart ->
    find (active_for propertyId) (items cart) = Some item ->
    let scheduled :=
      BuyerVisitRoutes.schedule userId propertyId visitDate visitTime notes st in
    let swept :=
      fold_left (fun s now => CartCleanupService.cleanupExpiredItems now s)
                sweeps (snd scheduled) in
    fst scheduled = Json 200 true "Visit scheduled successfully"
    /\ properties (snd scheduled) = properties st
    /\ exists cart' : Cart,
         findCart swept userId = Some cart'
         /\ find (active_for propertyId) (items cart')
            = Some (set_item_visit_status VScheduled item)
         /\ status_active (set_item_visit_status VScheduled item) = true.
Proof.
  intros st userId propertyId visitDate visitTime notes cart item sweeps
         Hp Hd Ht Hcart Hitem scheduled swept.
  assert (Hrun : scheduled
                 = (Json 200 true "Visit scheduled successfully",
                    save_cart st
                      (set_items cart
                         (update_first (active_for propertyId)
                            (set_item_visit_status VScheduled) (items cart))))).
  { unfold scheduled, BuyerVisitRoutes.schedule. open_handler.
    apply String.eqb_neq in Hp, Hd, Ht. rewrite Hp, Hd, Ht. simpl.
    rewrite Hcart, Hitem. reflexivity. }
  destruct (find_split (active_for propertyId) _ _ Hitem) as [l1 [l2 [Hit [Hact Hn]]]].
  assert (Hact' : active_for propertyId (set_item_visit_status VScheduled item) = true)
    by exact Hact.
  split; [rewrite Hrun; reflexivity|].
  split; [rewrite Hrun; reflexivity|].
  assert (Hstart : exists cart',
             findCart (snd scheduled) userId = Some cart'
             /\ find (active_for propertyId) (items cart')
                = Some (set_item_visit_status VScheduled item)).
  { rewrite Hrun. simpl. eexists. split.
    - apply (findCart_save_cart st userId cart); [exact Hcart|].
      simpl. eapply findCart_buyer. exact Hcart.
    - rewrite items_set_items, Hit.
      rewrite (update_first_app (active_for propertyId) _ l1 l2 item Hn Hact).
      apply find_app_first; assumption. }
  assert (Hswept : exists cart',
             findCart swept userId = Some cart'
             /\ find (active_for propertyId) (items cart')
                = Some (set_item_visit_status VScheduled item)).
  { unfold swept. clear swept. generalize dependent (snd scheduled).
    induction sweeps as [|now sweeps IH]; intros s Hs; [exact Hs|].
    simpl. apply IH. apply cart_cleanup_keeps_scheduled; [reflexivity | exact Hs]. }
  destruct Hswept as [cart' [H1 H2]]. exists cart'.
  split; [exact H1|]. split; [exact H2|].
  eapply active_for_active. exact Hact'.
Qed.

Lemma scheduled_visit_outlives_the_sweeps_witness :
  let scheduled :=
    BuyerVisitRoutes.schedule "buyerA" "P" "2024-01-02" "10:00" None reserved_store in
  let swept :=
    fold_left (fun s now => CartCleanupService.cleanupExpiredItems now s)
              [days 8; days 100] (snd scheduled) in
  fst scheduled = Json 200 true "Visit scheduled successfully"
  /\ exists cart' : Cart,
       findCart swept "buyerA" = Some cart'
       /\ find (active_for "P") (items cart')
          = Some (set_item_visit_status VScheduled (new_item "P" 0 None)).
Proof.
  cbv zeta.
  destruct (scheduled_visit_outlives_the_sweeps reserved_store "buyerA" "P"
              "2024-01-02" "10:00" None
              (mkCart "buyerA" [new_item "P" 0 None] (mkSettings 5 7 60))
              (new_item "P" 0 None) [days 8; days 100])
    as [A [_ [cart' [B [C _]]]]];
    try discriminate; try reflexivity.
  split; [exact A|]. exists cart'. split; [exact B | exact C].
Defined.

(** ** The schedule-visit page *)

Lemma ceil_days_spec :
  forall ms : Z,
    (ceil_days ms - 1) * day_ms < ms <= ceil_days ms * day_ms.
Proof.
  intros ms. unfold ceil_days, day_ms.
  change (1000 * 60 * 60 * 24) with 86400000.
  change (24 * 60 * 60 * 1000) with 86400000.
  pose proof (Z.mul_div_le (- ms) 86400000 eq_refl) as H1.
  pose proof (Z.mul_succ_div_gt (- ms) 86400000 eq_refl) as H2.
  lia.
Qed.

(** X7. The schedule-visit page of the buyer router.  With the item
    the page looks at (the first item of the buyer's cart for the
    property), the page is shown exactly while the time is before
    [added_at] plus seven days, and refused with 'Visit Window
    Expired' from that instant on; when shown, [daysLeft] is the
    number of started days that remain: at least 1, the remaining time
    rounded up to whole days, and at most 7 once the item's
    [added_at] has passed. *)
Theorem schedule_visit_page_days_left :
  forall (st : Store) (userId propertyId : ObjectId) (now : Time)
         (property : Property) (cart : Cart) (item : Item),
    findById st propertyId = Some property ->
    find (BuyerVisitRoutes.holds_in_cart userId (prop_id property)) (carts st) = Some cart ->
    find (fun it => String.eqb (item_property it) (prop_id property)) (items cart)
    = Some item ->
    let visitExpiry := setDate_plus (item_added_at item) 7 in
    (now < visitExpiry ->
     exists daysLeft : Z,
       BuyerVisitRoutes.schedule_visit_page userId propertyId now st = VisitPage daysLeft
       /\ 1 <= daysLeft
       /\ (daysLeft - 1) * day_ms < visitExpiry - now <= daysLeft * day_ms
       /\ (item_added_at item <= now -> daysLeft <= 7))
    /\ (visitExpiry <= now ->
        BuyerVisitRoutes.schedule_visit_page userId propertyId now st
        = ErrorPage 400 "Visit Window Expired"
            "The 7-day visit window has expired. Property has been removed from your cart.").
Proof.
  intros st userId propertyId now property cart item Hprop Hcart Hitem visitExpiry.
  unfold BuyerVisitRoutes.schedule_visit_page. rewrite Hprop, Hcart, Hitem.
  fold visitExpiry. cbv zeta.
  pose proof (ceil_days_spec (visitExpiry - now)) as Hspec.
  assert (Hday : day_ms = 86400000) by reflexivity.
  split.
  - intros Hbefore. exists (ceil_days (visitExpiry - now)).
    assert (Hpos : 1 <= ceil_days (visitExpiry - now)) by nia.
    replace (ceil_days (visitExpiry - now) <=? 0) with false
      by (symmetry; apply Z.leb_gt; lia).
    split; [reflexivity|]. split; [exact Hpos|]. split; [exact Hspec|].
    intros Hadded. unfold visitExpiry, setDate_plus in *. nia.
  - intros Hpast.
    replace (ceil_days (visitExpiry - now) <=? 0) with true
      by (symmetry; apply Z.leb_le; nia).
    reflexivity.
Qed.

Lemma schedule_visit_page_days_left_witness :
  BuyerVisitRoutes.schedule_visit_page "buyerA" "P" (days 3 + 1) reserved_store
  = VisitPage 4
  /\ BuyerVisitRoutes.schedule_visit_page "buyerA" "P" (days 7) reserved_store
     = ErrorPage 400 "Visit Window Expired"
         "The 7-day visit window has expired. Property has been removed from your cart.".
Proof.
  pose proof (schedule_visit_page_days_left reserved_store "buyerA" "P" (days 7)
                (set_cart_status (locked_by "buyerA" 0) scenario_property)
                (mkCart "buyerA" [new_item "P" 0 None] (mkSettings 5 7 60))
                (new_item "P" 0 None) eq_refl eq_refl eq_refl) as H.
  cbv zeta in H. destruct H as [_ H].
  split; [reflexivity|]. apply H. vm_compute. discriminate.
Defined.

(** ** Reserve and release through the buyer router *)

Lemma existsb_filter_find :
  forall (propertyId : ObjectId) (l : list Item),
    existsb (fun it => String.eqb (item_property it) propertyId) (filter status_active l)
    = false <->
    find (active_for propertyId) l = None.
Proof.
  intros propertyId l. induction l as [|x l IH]; simpl; [tauto|].
  unfold active_for at 1.
  destruct (status_active x); simpl.
  - rewrite andb_true_r. destruct (String.eqb (item_property x) propertyId); simpl;
      [split; discriminate | exact IH].
  - rewrite andb_false_r. exact IH.
Qed.

Lemma has_id_eq :
  forall (st : Store) (propertyId : ObjectId) (property : Property),
    findById st propertyId = Some property -> prop_id property = propertyId.
Proof.
  intros st propertyId property H. apply find_some in H. destruct H as [_ H].
  apply String.eqb_eq. exact H.
Qed.

(** What an accepted POST /api/cart/add found and wrote. *)
Lemma route_add_accepted :
  forall (st : Store) (userId propertyId : ObjectId) (now : Time),
    fst (BuyerRoutes.add userId propertyId now st)
    = Json 200 true "Property added to cart. You have 7 days to schedule a visit." ->
    exists (property : Property) (cart : Cart),
      propertyId <> ""
      /\ findById st propertyId = Some property
      /\ in_cart (cart_status property) = false
      /\ prop_status property = live
      /\ find (active_for propertyId) (items cart) = None
      /\ Z.of_nat (List.length (filter status_active (items cart)))
         < max_properties (settings cart)
      /\ buyer cart = userId
      /\ let locked := update_cart_status st propertyId (fun _ => locked_by userId now) in
         let cart' := set_items cart (items cart ++ [new_item propertyId now None]) in
         (findCart st userId = Some cart
          /\ snd (BuyerRoutes.add userId propertyId now st) = save_cart locked cart')
         \/ (findCart st userId = None
             /\ cart = mkCart userId [] (mkSettings 5 7 60)
             /\ snd (BuyerRoutes.add userId propertyId now st)
                = set_carts locked (carts locked ++ [cart'])).
Proof.
  intros st userId propertyId now.
  unfold BuyerRoutes.add, BuyerRoutes.add_checks, BuyerRoutes.add_after,
    BuyerRoutes.add_writes.
  open_handler.
  destruct (String.eqb propertyId "") eqn:Hid; [discriminate|].
  destruct (findById st propertyId) as [property|] eqn:Hprop; [|discriminate].
  destruct (in_cart (cart_status property)) eqn:Hfree; [discriminate|].
  destruct (negb (PropertyStatus_eqb (prop_status property) live)) eqn:Hlive;
    [discriminate|].
  pose proof (has_id_eq _ _ _ Hprop) as Hpid.
  assert (Hstatus : prop_status property = live).
  { apply negb_false_iff in Hlive. destruct (prop_status property);
      try discriminate Hlive. reflexivity. }
  apply String.eqb_neq in Hid.
  destruct (findCart st userId) as [cart|] eqn:Hcart.
  - destruct (_ >=? _) eqn:Hfull; [discriminate|].
    destruct (existsb _ _) eqn:Hdup; [discriminate|].
    intros _. exists property, cart.
    repeat (split; [first [assumption | reflexivity | now apply existsb_filter_find
                           | lia | eapply findCart_buyer; eassumption]|]).
    cbv zeta. left. split; [reflexivity|]. simpl. rewrite Hpid. reflexivity.
  - destruct (_ >=? _) eqn:Hfull; [discriminate|].
    destruct (existsb _ _) eqn:Hdup; [discriminate|].
    intros _. exists property, (mkCart userId [] (mkSettings 5 7 60)).
    repeat (split; [first [assumption | reflexivity]|]).
    cbv zeta. right. split; [reflexivity|]. split; [reflexivity|].
    simpl. rewrite Hpid. reflexivity.
Qed.

(** When POST /api/cart/add accepts. *)
Lemma route_add_accepts :
  forall (st : Store) (userId propertyId : ObjectId) (now : Time)
         (property : Property) (cart : Cart),
    propertyId <> "" ->
    findById st propertyId = Some property ->
    in_cart (cart_status property) = false ->
    prop_status property = live ->
    findCart st userId = Some cart ->
    find (active_for propertyId) (items cart) = None ->
    Z.of_nat (List.length (filter status_active (items cart)))
    < max_properties (settings cart) ->
    fst (BuyerRoutes.add userId propertyId now st)
    = Json 200 true "Property added to cart. You have 7 days to schedule a visit.".
Proof.
  intros st userId propertyId now property cart Hid Hprop Hfree Hlive Hcart Hnone Hroom.
  unfold BuyerRoutes.add, BuyerRoutes.add_checks, BuyerRoutes.add_after,
    BuyerRoutes.add_writes.
  open_handler.
  apply String.eqb_neq in Hid. rewrite Hid, Hprop, Hfree, Hlive. simpl.
  rewrite Hcart.
  replace (_ >=? _) with false by (symmetry; rewrite Z.geb_leb; apply Z.leb_gt; exact Hroom).
  rewrite (proj2 (existsb_filter_find propertyId (items cart)) Hnone).
  reflexivity.
Qed.

Lemma findCart_appended :
  forall (st : Store) (userId : ObjectId) (cart : Cart),
    findCart st userId = None -> buyer cart = userId ->
    find (of_buyer userId) (carts st ++ [cart]) = Some cart.
Proof.
  intros st userId cart Hnone Hb. unfold findCart in Hnone.
  rewrite (find_app_none (of_buyer userId)) by exact Hnone.
  simpl. unfold of_buyer. rewrite Hb, String.eqb_refl. reflexivity.
Qed.

(** X8. Reserve and release through the buyer router are a round
    trip.  When POST /api/cart/add answers 200, a following POST
    /api/cart/remove by the same buyer for the same property answers
    200; after it the property's [cart_status] is the unlocked one
    ([in_cart] false, no holder), GET /api/cart/count answers what it
    answered before the reservation, and the same buyer can reserve the
    same property again: a later POST /api/cart/add answers 200. *)
Theorem route_add_remove_round_trip :
  forall (st : Store) (userId propertyId : ObjectId) (now later : Time),
    fst (BuyerRoutes.add userId propertyId now st)
    = Json 200 true "Property added to cart. You have 7 days to schedule a visit." ->
    let reserved := snd (BuyerRoutes.add userId propertyId now st) in
    let released := snd (BuyerRoutes.remove userId propertyId reserved) in
    fst (BuyerRoutes.remove userId propertyId reserved)
    = Json 200 true "Property removed from cart"
    /\ (exists property : Property,
          findById released propertyId = Some property
          /\ cart_status property = unlocked)
    /\ BuyerVisitRoutes.cart_count userId released
       = BuyerVisitRoutes.cart_count userId st
    /\ fst (BuyerRoutes.add userId propertyId later released)
       = Json 200 true "Property added to cart. You have 7 days to schedule a visit.".
Proof.
  intros st userId propertyId now later Hadd reserved released.
  destruct (route_add_accepted _ _ _ _ Hadd)
    as [property [cart [Hid [Hprop [Hfree [Hlive [Hnone [Hroom [Hb Hcase]]]]]]]]].
  cbv zeta in Hcase.
  set (locked := update_cart_status st propertyId (fun _ => locked_by userId now)) in *.
  set (cart' := set_items cart (items cart ++ [new_item propertyId now None])) in *.
  set (cart'' := set_items cart
                   (items cart ++ [set_item_status Removed (new_item propertyId now None)])).
  assert (Hfound : findCart reserved userId = Some cart').
  { destruct Hcase as [[Hcart Hst]|[Hcart [_ Hst]]]; unfold reserved; rewrite Hst.
    - apply (findCart_save_cart locked userId cart); [exact Hcart | exact Hb].
    - unfold findCart. simpl. apply findCart_appended; [exact Hcart | exact Hb]. }
  assert (Hprop1 : findById reserved propertyId
                   = Some (set_cart_status (locked_by userId now) property)).
  { assert (E : properties reserved = properties locked)
      by (destruct Hcase as [[_ Hst]|[_ [_ Hst]]]; unfold reserved; rewrite Hst; reflexivity).
    unfold findById. rewrite E. unfold locked. simpl.
    apply (findById_locked st propertyId property (locked_by userId now) Hprop). }
  assert (Hindex : findIndex (active_for propertyId) (items cart')
                   = Some (List.length (items cart))).
  { unfold cart'. rewrite items_set_items.
    apply findIndex_app_first; [exact Hnone | apply new_item_active_for]. }
  assert (Hremove : BuyerRoutes.remove userId propertyId reserved
                    = (Json 200 true "Property removed from cart",
                       update_cart_status (save_cart reserved cart'') propertyId
                         (fun _ => unlocked))).
  { unfold BuyerRoutes.remove. open_handler.
    apply String.eqb_neq in Hid. rewrite Hid, Hfound, Hindex. simpl.
    rewrite update_at_app. reflexivity. }
  assert (Hfound2 : findCart released userId = Some cart'').
  { unfold released. rewrite Hremove. simpl.
    apply (findCart_save_cart reserved userId cart'); [exact Hfound | exact Hb]. }
  assert (Hprop2 : findById released propertyId
                   = Some (set_cart_status unlocked
                             (set_cart_status (locked_by userId now) property))).
  { unfold released. rewrite Hremove. simpl.
    apply (findById_locked (save_cart reserved cart'') propertyId
             (set_cart_status (locked_by userId now) property) unlocked).
    exact Hprop1. }
  assert (Hnone2 : find (active_for propertyId) (items cart'') = None).
  { unfold cart''. rewrite items_set_items.
    rewrite (find_app_none (active_for propertyId)) by exact Hnone.
    simpl. rewrite removed_item_not_active. reflexivity. }
  assert (Hcount2 : filter status_active (items cart'') = filter status_active (items cart)).
  { unfold cart''. rewrite items_set_items, filter_app. simpl. apply app_nil_r. }
  split; [rewrite Hremove; reflexivity|].
  split; [eexists; split; [exact Hprop2 | reflexivity]|].
  split.
  { unfold BuyerVisitRoutes.cart_count. rewrite Hfound2, Hcount2.
    destruct Hcase as [[Hcart _]|[Hcart [-> _]]]; rewrite Hcart; reflexivity. }
  apply (route_add_accepts released userId propertyId later _ cart'' Hid Hprop2);
    [reflexivity | exact Hlive | exact Hfound2 | exact Hnone2 |].
  rewrite Hcount2. exact Hroom.
Qed.

Lemma route_add_remove_round_trip_witness :
  fst (BuyerRoutes.remove "buyerA" "P" reserved_store)
  = Json 200 true "Property removed from cart"
  /\ BuyerVisitRoutes.cart_count "buyerA"
       (snd (BuyerRoutes.remove "buyerA" "P" reserved_store)) = 0
  /\ fst (BuyerRoutes.add "buyerA" "P" (days 9)
            (snd (BuyerRoutes.remove "buyerA" "P" reserved_store)))
     = Json 200 true "Property added to cart. You have 7 days to schedule a visit.".
Proof.
  assert (H : fst (BuyerRoutes.add "buyerA" "P" 0 scenario_store)
              = Json 200 true "Property added to cart. You have 7 days to schedule a visit.")
    by reflexivity.
  pose proof (route_add_remove_round_trip scenario_store "buyerA" "P" 0 (days 9) H) as R.
  cbv zeta in R. destruct R as [R1 [_ [R3 R4]]].
  split; [exact R1|]. split; [exact R3 | exact R4].
Defined.

(** ** The seller's unlock and delete *)

(** X9. POST /api/properties/:id/unlock never unlocks.  The handler
    asks [propertyObj.isVisitPending()], a method the Property schema
    does not define; the call throws and the handler's [catch] answers
    500.  So whatever the store, the seller and the property: the store
    is left as it was, a property of the seller that is locked in a
    cart gets 500 'Failed to unlock property', and the other answers
    are 404 (not the seller's property) and 400 (not locked). *)
Theorem seller_unlock_never_unlocks :
  forall (st : Store) (userId id : ObjectId),
    snd (SellerRoutes.unlock userId id st) = st
    /\ (fst (SellerRoutes.unlock userId id st) = Json 404 false "Property not found"
        \/ fst (SellerRoutes.unlock userId id st)
           = Json 400 false "Property is not locked in cart"
        \/ fst (SellerRoutes.unlock userId id st)
           = Json 500 false "Failed to unlock property")
    /\ forall property : Property,
         find (SellerRoutes.owned userId id) (properties st) = Some property ->
         in_cart (cart_status property) = true ->
         fst (SellerRoutes.unlock userId id st)
         = Json 500 false "Failed to unlock property".
Proof.
  intros st userId id. unfold SellerRoutes.unlock, SellerRoutes.isVisitPending.
  open_handler.
  destruct (find (SellerRoutes.owned userId id) (properties st)) as [property|].
  - destruct (in_cart (cart_status property)) eqn:Hlock; simpl.
    + split; [reflexivity|]. split; [right; right; reflexivity|].
      intros p _ _. reflexivity.
    + split; [reflexivity|]. split; [right; left; reflexivity|].
      intros p E Hp. injection E as <-. congruence.
  - simpl. split; [reflexivity|]. split; [left; reflexivity|].
    intros p E. discriminate E.
Qed.

Lemma remove_first_incl :
  forall (A : Type) (p : A -> bool) (l : list A) (x : A),
    In x (remove_first p l) -> In x l.
Proof.
  intros A p l x. induction l as [|y l IH]; simpl; [tauto|].
  destruct (p y); simpl; [auto|]. intros [H|H]; auto.
Qed.

Lemma remove_first_nodup :
  forall (l : list Property) (id : ObjectId),
    NoDup (map prop_id l) -> NoDup (map prop_id (remove_first (has_id id) l)).
Proof.
  intros l id. induction l as [|p l IH]; simpl; intros H; [exact H|].
  inversion H as [|? ? Hnotin Hrest]; subst.
  destruct (has_id id p); [exact Hrest|].
  simpl. constructor; [|apply IH; exact Hrest].
  intros Hin. apply Hnotin. apply in_map_iff in Hin. destruct Hin as [q [Hq Hin]].
  apply in_map_iff. exists q. split; [exact Hq|].
  eapply remove_first_incl. exact Hin.
Qed.

Lemma find_id_absent :
  forall (l : list Property) (id : ObjectId),
    ~ In id (map prop_id l) -> find (has_id id) l = None.
Proof.
  intros l id. induction l as [|p l IH]; simpl; intros H; [reflexivity|].
  unfold has_id at 1. destruct (String.eqb_spec (prop_id p) id) as [E|E].
  - exfalso. apply H. left. exact E.
  - apply IH. intros Hin. apply H. right. exact Hin.
Qed.

Lemma remove_first_gone :
  forall (l : list Property) (id : ObjectId),
    NoDup (map prop_id l) -> find (has_id id) (remove_first (has_id id) l) = None.
Proof.
  intros l id. induction l as [|p l IH]; simpl; intros H; [reflexivity|].
  inversion H as [|? ? Hnotin Hrest]; subst.
  destruct (has_id id p) eqn:Hh.
  - apply find_id_absent. apply String.eqb_eq in Hh. rewrite <- Hh. exact Hnotin.
  - simpl. rewrite Hh. apply IH. exact Hrest.
Qed.

Lemma owned_in :
  forall (st : Store) (userId id : ObjectId) (property : Property),
    find (SellerRoutes.owned userId id) (properties st) = Some property ->
    In property (properties st) /\ prop_id property = id.
Proof.
  intros st userId id property H. apply find_some in H. destruct H as [Hin H].
  unfold SellerRoutes.owned in H. apply andb_true_iff in H. destruct H as [H _].
  split; [exact Hin | apply String.eqb_eq; exact H].
Qed.

(** X10. The seller's delete respects the reservations.  In a
    well-formed store whose lock mirror agrees with the carts, POST
    /properties/:id/delete refuses (and changes nothing) as long as an
    active cart item references the property; and when it answers 200,
    no active item of any cart references the deleted property, the
    carts are untouched, and the store is still well formed with an
    agreeing mirror. *)
Theorem seller_delete_respects_reservations :
  forall (st : Store) (userId id : ObjectId),
    well_formed st -> lock_agrees st ->
    (active_refs (carts st) id <> 0%nat ->
     snd (SellerRoutes.delete userId id st) = st
     /\ fst (SellerRoutes.delete userId id st)
        <> Json 200 true "Property deleted successfully")
    /\ (fst (SellerRoutes.delete userId id st)
        = Json 200 true "Property deleted successfully" ->
        active_refs (carts (snd (SellerRoutes.delete userId id st))) id = 0%nat
        /\ carts (snd (SellerRoutes.delete userId id st)) = carts st
        /\ findById (snd (SellerRoutes.delete userId id st)) id = None
        /\ well_formed (snd (SellerRoutes.delete userId id st))
        /\ lock_agrees (snd (SellerRoutes.delete userId id st))).
Proof.
  intros st userId id Hwf Hagree. unfold SellerRoutes.delete. open_handler.
  destruct (find (SellerRoutes.owned userId id) (properties st)) as [property|] eqn:Hfind.
  2:{ simpl. split; [intros _; split; [reflexivity | discriminate] | discriminate]. }
  destruct (owned_in _ _ _ _ Hfind) as [Hin Hid].
  destruct (Hagree property Hin) as [Hiff Hle]. rewrite Hid in Hiff, Hle.
  destruct (in_cart (cart_status property)) eqn:Hlock; simpl.
  - split; [intros _; split; [reflexivity | discriminate] | discriminate].
  - assert (Hzero : active_refs (carts st) id = 0%nat).
    { destruct (active_refs (carts st) id) as [|[|n]]; [reflexivity| |lia].
      destruct Hiff as [_ H]. specialize (H eq_refl). discriminate H. }
    split; [intros Hrefs; contradiction|].
    intros _. split; [exact Hzero|]. split; [reflexivity|].
    destruct Hwf as [Hp Hc].
    split.
    { unfold findById. simpl. apply remove_first_gone. exact Hp. }
    split.
    { split; simpl; [apply remove_first_nodup; exact Hp | exact Hc]. }
    intros p Hp'. simpl in Hp'. apply remove_first_incl in Hp'. simpl.
    exact (Hagree p Hp').
Qed.

Lemma seller_delete_respects_reservations_witness :
  snd (SellerRoutes.delete "seller" "P" reserved_store) = reserved_store
  /\ fst (SellerRoutes.delete "seller" "P" scenario_store)
     = Json 200 true "Property deleted successfully"
  /\ findById (snd (SellerRoutes.delete "seller" "P" scenario_store)) "P" = None.
Proof.
  assert (Hwf0 : well_formed scenario_store).
  { split; simpl; repeat constructor; intros []. }
  assert (Hag0 : lock_agrees scenario_store).
  { intros p [<-|[]]. simpl. split; [split; discriminate | apply Nat.le_0_l]. }
  assert (Hwf1 : well_formed reserved_store).
  { split; simpl; repeat constructor; intros []. }
  assert (Hag1 : lock_agrees reserved_store).
  { intros p [<-|[]]. vm_compute. split; [split; reflexivity | apply le_n]. }
  pose proof (seller_delete_respects_reservations reserved_store "seller" "P" Hwf1 Hag1)
    as [H1 _].
  pose proof (seller_delete_respects_reservations scenario_store "seller" "P" Hwf0 Hag0)
    as [_ H0].
  split; [apply H1; vm_compute; discriminate|].
  split; [reflexivity|]. apply H0. reflexivity.
Defined.

(** ** What the cleanup services never do *)

Lemma in_unlock_where_kept :
  forall (sel : Property -> bool) (l : list Property) (p : Property),
    In p l -> sel p = false -> In p (unlock_where sel l).
Proof.
  intros sel l p Hin Hsel. unfold unlock_where. apply in_map_iff.
  exists p. rewrite Hsel. auto.
Qed.

Lemma in_unlock_where_cleared :
  forall (sel : Property -> bool) (l : list Property) (p : Property),
    In p l -> sel p = true ->
    In (set_cart_status (clear_holder (cart_status p)) p) (unlock_where sel l).
Proof.
  intros sel l p Hin Hsel. unfold unlock_where. apply in_map_iff.
  exists p. rewrite Hsel. auto.
Qed.

(** X11. The cart cleanup service never releases a property whose
    visit is confirmed.  Its one pass over the properties selects
    [visit_confirmed: false] only, so a property that is locked with a
    confirmed visit is in the collection unchanged after every run,
    however long ago its booking window ended; the simple cleanup
    service, run at the same instant, unlocks it as soon as
    [booking_window_end] lies before that instant. *)
Theorem cart_cleanup_keeps_confirmed_properties_locked :
  forall (st : Store) (now : Time) (p : Property),
    In p (properties st) ->
    in_cart (cart_status p) = true ->
    visit_confirmed (cart_status p) = true ->
    In p (properties (CartCleanupService.cleanupExpiredItems now st))
    /\ (lt_date (booking_window_end (cart_status p)) now = true ->
        In (set_cart_status (clear_holder (cart_status p)) p)
           (properties (SimpleCleanupService.cleanupExpiredItems now st))).
Proof.
  intros st now p Hin Hlock Hconf. split.
  - unfold CartCleanupService.cleanupExpiredItems. simpl.
    apply in_unlock_where_kept; [exact Hin|].
    unfold visit_window_lapsed. rewrite Hlock, Hconf. reflexivity.
  - intros Hlapsed. unfold SimpleCleanupService.cleanupExpiredItems. simpl.
    apply in_unlock_where_cleared.
    + apply in_unlock_where_kept; [exact Hin|].
      unfold visit_window_lapsed. rewrite Hlock, Hconf. reflexivity.
    + unfold booking_window_lapsed. rewrite Hlock, Hconf, Hlapsed. reflexivity.
Qed.

(** Property P locked by buyer A with a visit confirmed on day 3 and a
    booking window that ended on day 63; the services run on day 100. *)
Lemma cart_cleanup_keeps_confirmed_properties_locked_witness :
  let confirmed :=
    set_cart_status
      (mkCartStatus true (Some "buyerA") (Some 0) true (Some (days 3)) (Some (days 3))
                    (Some (days 63)))
      scenario_property in
  let st := mkStore [confirmed] [] [] [] [] in
  In confirmed (properties (CartCleanupService.cleanupExpiredItems (days 100) st))
  /\ In (set_cart_status (clear_holder (cart_status confirmed)) confirmed)
        (properties (SimpleCleanupService.cleanupExpiredItems (days 100) st)).
Proof.
  cbv zeta.
  pose proof (cart_cleanup_keeps_confirmed_properties_locked
                (mkStore [set_cart_status
                            (mkCartStatus true (Some "buyerA") (Some 0) true (Some (days 3))
                                          (Some (days 3)) (Some (days 63)))
                            scenario_property] [] [] [] [])
                (days 100)
                (set_cart_status
                   (mkCartStatus true (Some "buyerA") (Some 0) true (Some (days 3))
                                 (Some (days 3)) (Some (days 63)))
                   scenario_property)
                (or_introl eq_refl) eq_refl eq_refl) as [H1 H2].
  split; [exact H1 | apply H2; reflexivity].
Defined.

Lemma unlock_where_released :
  forall (sel : Property -> bool) (l : list Property),
    (forall p, sel p = true -> in_cart (cart_status p) = true) ->
    Forall2 released l (unlock_where sel l).
Proof.
  intros sel l Hsel. induction l as [|p l IH]; simpl; constructor; [|exact IH].
  unfold released.
  destruct (sel p) eqn:E; [right; split; [apply Hsel; exact E | reflexivity] | left; reflexivity].
Qed.

Lemma released_twice :
  forall l1 l2 l3 : list Property,
    Forall2 released l1 l2 -> Forall2 released l2 l3 -> Forall2 released l1 l3.
Proof.
  intros l1 l2 l3 H12. revert l3. induction H12 as [|p q l1 l2 Hpq H12 IH];
    intros l3 H23; inversion H23 as [|? r ? l3' Hqr H23']; subst; constructor.
  - destruct Hpq as [->|[Hp ->]]; [exact Hqr|].
    destruct Hqr as [->|[Hq _]]; [right; auto|]. simpl in Hq. discriminate Hq.
  - apply IH. exact H23'.
Qed.

(** X12. The cleanup services only unlock, and they are silent.  After
    a run of either service the properties are the same documents in
    the same order, each either untouched or, if it was locked,
    with the two fields [in_cart] (false) and [buyer_id] (null)
    cleared and every other field as before; no property gets locked,
    and no notification, commission or rule is created or changed:
    neither the buyer nor the seller is told of an expiry. *)
Theorem sweeps_only_unlock_and_are_silent :
  forall (st : Store) (now : Time),
    (Forall2 released (properties st)
             (properties (SimpleCleanupService.cleanupExpiredItems now st))
     /\ carts (SimpleCleanupService.cleanupExpiredItems now st) = carts st
     /\ notifications (SimpleCleanupService.cleanupExpiredItems now st) = notifications st
     /\ commissions (SimpleCleanupService.cleanupExpiredItems now st) = commissions st
     /\ rules (SimpleCleanupService.cleanupExpiredItems now st) = rules st)
    /\ (Forall2 released (properties st)
                (properties (CartCleanupService.cleanupExpiredItems now st))
        /\ notifications (CartCleanupService.cleanupExpiredItems now st) = notifications st
        /\ commissions (CartCleanupService.cleanupExpiredItems now st) = commissions st
        /\ rules (CartCleanupService.cleanupExpiredItems now st) = rules st).
Proof.
  intros st now.
  assert (Hv : forall b p, visit_window_lapsed b p = true -> in_cart (cart_status p) = true).
  { intros b p H. destruct (in_cart (cart_status p)) eqn:E; [reflexivity|].
    rewrite (proj1 (lapsed_needs_lock b p E)) in H. discriminate H. }
  assert (Hb : forall b p, booking_window_lapsed b p = true -> in_cart (cart_status p) = true).
  { intros b p H. destruct (in_cart (cart_status p)) eqn:E; [reflexivity|].
    rewrite (proj2 (lapsed_needs_lock b p E)) in H. discriminate H. }
  split.
  - split; [|repeat split; reflexivity].
    unfold SimpleCleanupService.cleanupExpiredItems. simpl.
    eapply released_twice; apply unlock_where_released; [apply Hv | apply Hb].
  - split; [|repeat split; reflexivity].
    unfold CartCleanupService.cleanupExpiredItems. simpl.
    apply unlock_where_released. apply Hv.
Qed.

(** ** The approval lifecycle of a listing *)

Lemma status_set_status :
  forall (s : PropertyStatus) (p : Property), prop_status (set_status s p) = s.
Proof. reflexivity. Qed.

Lemma PropertyStatus_eqb_eq :
  forall a b : PropertyStatus, PropertyStatus_eqb a b = true <-> a = b.
Proof.
  intros a b. split; [|intros ->; destruct b; reflexivity].
  destruct a, b; simpl; intros H; try discriminate H; reflexivity.
Qed.

(** No method applies to a listing that is rejected, sold, rented or
    expired. *)
Lemma closed_status_throws :
  forall (this : PropertyModel.Listing) (c : PropertyModel.MethodCall) (now : Time),
    PropertyModel.status this = rejected \/ PropertyModel.status this = sold
    \/ PropertyModel.status this = rented \/ PropertyModel.status this = expired ->
    exists e, PropertyModel.invoke this c now = inl e.
Proof.
  intros this c now H.
  destruct c; simpl;
    unfold PropertyModel.submitForApproval, PropertyModel.approve, PropertyModel.reject,
      PropertyModel.suspend, PropertyModel.unsuspend, PropertyModel.makeLive;
    destruct H as [H|[H|[H|H]]]; rewrite H; simpl; eexists; reflexivity.
Qed.

(** X13. A rejected listing is final.  Once the status is 'rejected'
    (and likewise 'sold', 'rented' or 'expired'), each of the six
    lifecycle methods of the Property model ([submitForApproval],
    [approve], [reject], [suspend], [unsuspend], [makeLive]) throws
    without touching the document, so after any sequence of such calls
    the document is what it was: a rejected listing cannot be submitted
    again. *)
Theorem rejected_listing_is_final :
  forall (calls : list (PropertyModel.MethodCall * Time)) (this : PropertyModel.Listing),
    PropertyModel.status this = rejected \/ PropertyModel.status this = sold
    \/ PropertyModel.status this = rented \/ PropertyModel.status this = expired ->
    fold_left PropertyModel.after calls this = this
    /\ forall (c : PropertyModel.MethodCall) (now : Time),
         exists e, PropertyModel.invoke this c now = inl e.
Proof.
  intros calls this H. split; [|intros c now; apply closed_status_throws; exact H].
  induction calls as [|[c now] calls IH]; simpl; [reflexivity|].
  unfold PropertyModel.after at 2. simpl.
  destruct (closed_status_throws this c now H) as [e ->]. exact IH.
Qed.

Lemma rejected_listing_is_final_witness :
  exists rejected_listing : PropertyModel.Listing,
    PropertyModel.reject submitted_listing "admin" (Some (js "  incomplete papers ")) (days 1)
    = inr rejected_listing
    /\ PropertyModel.rejection_reason rejected_listing = Some (js "incomplete papers")
    /\ fold_left PropertyModel.after
         [ (PropertyModel.SubmitForApproval, days 2);
           (PropertyModel.Approve "admin" (PropertyModel.mkApproveOptions true true), days 3);
           (PropertyModel.MakeLive, days 4) ]
         rejected_listing
       = rejected_listing.
Proof.
  eexists. split; [reflexivity|]. split; [reflexivity|].
  apply rejected_listing_is_final. left. reflexivity.
Defined.

(** The status after a call that does not approve: from draft or
    pending, only draft, pending or rejected. *)
Lemma unapproved_stays_unpublished :
  forall (this : PropertyModel.Listing) (c : PropertyModel.MethodCall) (now : Time),
    (forall adminId options, c <> PropertyModel.Approve adminId options) ->
    PropertyModel.status this = draft \/ PropertyModel.status this = pending_approval
    \/ PropertyModel.status this = rejected ->
    PropertyModel.status (PropertyModel.after this (c, now)) = draft
    \/ PropertyModel.status (PropertyModel.after this (c, now)) = pending_approval
    \/ PropertyModel.status (PropertyModel.after this (c, now)) = rejected.
Proof.
  intros this c now Hc H. unfold PropertyModel.after. simpl.
  destruct c; simpl;
    unfold PropertyModel.submitForApproval, PropertyModel.approve, PropertyModel.reject,
      PropertyModel.suspend, PropertyModel.unsuspend, PropertyModel.makeLive.
  - destruct H as [H|[H|H]]; rewrite H; simpl; auto.
  - exfalso. apply (Hc adminId options). reflexivity.
  - destruct H as [H|[H|H]]; rewrite H; simpl; auto.
    destruct (reason_too_short reason); [rewrite H|]; simpl; auto.
  - destruct H as [H|[H|H]]; rewrite H; simpl; auto.
  - destruct H as [H|[H|H]]; rewrite H; simpl; auto.
  - destruct H as [H|[H|H]]; rewrite H; simpl; auto.
Qed.

(** X14. Only an approval publishes.  From a listing that is a draft
    or pending approval, after any sequence of lifecycle calls none of
    which is [approve], the status is still draft, pending or
    rejected, and the listing is not visible to the public at any
    time ([isVisibleToPublic] is false): submitting, rejecting,
    suspending, unsuspending and [makeLive] cannot publish a listing
    that no admin approved. *)
Theorem only_an_approval_publishes :
  forall (calls : list (PropertyModel.MethodCall * Time)) (this : PropertyModel.Listing),
    PropertyModel.status this = draft \/ PropertyModel.status this = pending_approval ->
    (forall c now, In (c, now) calls ->
       forall adminId options, c <> PropertyModel.Approve adminId options) ->
    let final := fold_left PropertyModel.after calls this in
    (PropertyModel.status final = draft \/ PropertyModel.status final = pending_approval
     \/ PropertyModel.status final = rejected)
    /\ forall now : Time, PropertyModel.isVisibleToPublic final now = false.
Proof.
  intros calls this Hstart Hcalls final.
  assert (H : PropertyModel.status final = draft
              \/ PropertyModel.status final = pending_approval
              \/ PropertyModel.status final = rejected).
  { unfold final. clear final.
    assert (Hs : PropertyModel.status this = draft
                 \/ PropertyModel.status this = pending_approval
                 \/ PropertyModel.status this = rejected) by tauto.
    clear Hstart. revert this Hs.
    induction calls as [|[c now] calls IH]; intros this Hs; [exact Hs|].
    simpl. apply IH.
    - intros c' now' Hin. apply (Hcalls c' now'). right. exact Hin.
    - apply unapproved_stays_unpublished; [|exact Hs].
      apply (Hcalls c now). left. reflexivity. }
  split; [exact H|].
  intros now. unfold PropertyModel.isVisibleToPublic.
  destruct H as [H|[H|H]]; rewrite H; simpl;
    rewrite !andb_false_r; reflexivity.
Qed.

Lemma only_an_approval_publishes_witness :
  PropertyModel.status
    (fold_left PropertyModel.after
       [ (PropertyModel.MakeLive, days 1);
         (PropertyModel.Suspend "admin" (Some (js "a long enough reason")) None, days 2);
         (PropertyModel.Unsuspend "admin", days 3);
         (PropertyModel.MakeLive, days 4) ]
       submitted_listing)
  = pending_approval.
Proof.
  destruct (only_an_approval_publishes
              [ (PropertyModel.MakeLive, days 1);
                (PropertyModel.Suspend "admin" (Some (js "a long enough reason")) None, days 2);
                (PropertyModel.Unsuspend "admin", days 3);
                (PropertyModel.MakeLive, days 4) ]
              submitted_listing) as [_ _].
  - right. reflexivity.
  - intros c now [H|[H|[H|[H|[]]]]] adminId options E; injection H as <- _;
      discriminate E.
  - reflexivity.
Defined.

(** The reason is measured as JavaScript measures it: seven times
    U+00E9 and ten times U+00A0 are too short, an ASCII text of
    seventeen characters is not. *)
Lemma reason_is_measured_in_code_units :
  reason_too_short (Some [233; 233; 233; 233; 233; 233; 233]) = true
  /\ reason_too_short (Some (repeat 160 10)) = true
  /\ reason_too_short (Some (js "duplicate listing")) = false
  /\ trim (js "  incomplete papers ") = js "incomplete papers".
Proof. repeat split. Qed.

(** X15. A suspension costs a live listing its place.  For a live
    listing and a reason whose trimmed form has at least ten UTF-16
    code units, [suspend] resolves and hides the listing; [unsuspend] then resolves but
    returns the listing to 'approved', not to 'live' (the schema has no
    [previous_status] path): it is not visible to the public, and it
    takes a further [makeLive] to publish it again. *)
Theorem suspension_returns_to_approved :
  forall (this : PropertyModel.Listing) (adminId : ObjectId) (reason : JsString)
         (suspensionEnd : option Time) (t1 t2 t3 : Time),
    PropertyModel.status this = live ->
    reason_too_short (Some reason) = false ->
    exists suspended_listing restored relisted : PropertyModel.Listing,
      PropertyModel.suspend this adminId (Some reason) suspensionEnd t1
      = inr suspended_listing
      /\ PropertyModel.status suspended_listing = suspended
      /\ PropertyModel.is_visible suspended_listing = false
      /\ PropertyModel.unsuspend suspended_listing adminId t2 = inr restored
      /\ PropertyModel.status restored = approved
      /\ PropertyModel.is_visible restored = false
      /\ PropertyModel.visibility restored = PropertyModel.private
      /\ PropertyModel.suspension_reason restored = None
      /\ (forall now, PropertyModel.isVisibleToPublic restored now = false)
      /\ PropertyModel.makeLive restored t3 = inr relisted
      /\ PropertyModel.status relisted = live
      /\ PropertyModel.is_visible relisted = true.
Proof.
  intros this adminId reason suspensionEnd t1 t2 t3 Hlive Hreason.
  unfold PropertyModel.suspend. rewrite Hlive, Hreason. simpl.
  eexists. eexists. eexists.
  split; [reflexivity|]. split; [reflexivity|]. split; [reflexivity|].
  split; [reflexivity|]. split; [reflexivity|]. split; [reflexivity|].
  split; [reflexivity|]. split; [reflexivity|]. split; [intros now; reflexivity|].
  split; [reflexivity|]. split; reflexivity.
Qed.

Lemma suspension_returns_to_approved_witness :
  exists live_listing suspended_listing restored : PropertyModel.Listing,
    PropertyModel.approve submitted_listing "admin"
      (PropertyModel.mkApproveOptions true true) (days 1) = inr live_listing
    /\ PropertyModel.suspend live_listing "admin" (Some (js "duplicate listing")) None (days 2)
       = inr suspended_listing
    /\ PropertyModel.unsuspend suspended_listing "admin" (days 3) = inr restored
    /\ PropertyModel.status restored = approved.
Proof.
  assert (A : exists l, PropertyModel.approve submitted_listing "admin"
                          (PropertyModel.mkApproveOptions true true) (days 1) = inr l
                        /\ PropertyModel.status l = live)
    by (eexists; split; reflexivity).
  destruct A as [l [A Hl]].
  destruct (suspension_returns_to_approved l "admin" (js "duplicate listing") None
              (days 2) (days 3) (days 4) Hl eq_refl)
    as [s [r [_ [B [_ [_ [C [D _]]]]]]]].
  exists l, s, r. repeat split; assumption.
Defined.

(** ** The images of a listing *)

Lemma keep_first_primary_found :
  forall l : list PropertyModel.Image,
    filter PropertyModel.is_primary (PropertyModel.keep_first_primary true l) = [].
Proof.
  induction l as [|img l IH]; simpl; [reflexivity|].
  destruct (PropertyModel.is_primary img) eqn:E; simpl; [exact IH|].
  rewrite E. exact IH.
Qed.

Lemma keep_first_primary_one :
  forall l : list PropertyModel.Image,
    filter PropertyModel.is_primary l <> [] ->
    List.length (filter PropertyModel.is_primary (PropertyModel.keep_first_primary false l))
    = 1%nat.
Proof.
  induction l as [|img l IH]; simpl; [intros H; contradiction|].
  destruct (PropertyModel.is_primary img) eqn:E; simpl; rewrite E.
  - intros _. rewrite keep_first_primary_found. reflexivity.
  - exact IH.
Qed.

Lemma keep_first_primary_fields :
  forall (found : bool) (l : list PropertyModel.Image),
    map PropertyModel.url (PropertyModel.keep_first_primary found l)
    = map PropertyModel.url l
    /\ map PropertyModel.image_approved (PropertyModel.keep_first_primary found l)
       = map PropertyModel.image_approved l
    /\ map PropertyModel.order (PropertyModel.keep_first_primary found l)
       = map PropertyModel.order l.
Proof.
  intros found l. revert found. induction l as [|img l IH]; intros found; simpl; [auto|].
  destruct (PropertyModel.is_primary img); [destruct found|]; simpl;
    match goal with
    | |- context [PropertyModel.keep_first_primary ?b l] =>
        destruct (IH b) as [H1 [H2 H3]]; rewrite H1, H2, H3; auto
    end.
Qed.

Lemma fill_order_fields :
  forall (index : Z) (l : list PropertyModel.Image),
    map PropertyModel.url (PropertyModel.fill_order index l) = map PropertyModel.url l
    /\ map PropertyModel.image_approved (PropertyModel.fill_order index l)
       = map PropertyModel.image_approved l.
Proof.
  intros index l. revert index. induction l as [|img l IH]; intros index; simpl; [auto|].
  destruct (IH (index + 1)) as [H1 H2]. rewrite H1, H2. auto.
Qed.

Lemma fill_order_primaries :
  forall (index : Z) (l : list PropertyModel.Image),
    List.length (filter PropertyModel.is_primary (PropertyModel.fill_order index l))
    = List.length (filter PropertyModel.is_primary l).
Proof.
  intros index l. revert index. induction l as [|img l IH]; intros index; simpl; [reflexivity|].
  destruct (PropertyModel.is_primary img); simpl; [f_equal|]; apply IH.
Qed.

Lemma fill_order_defined :
  forall (index : Z) (l : list PropertyModel.Image),
    Forall (fun img => PropertyModel.order img <> None) (PropertyModel.fill_order index l).
Proof.
  intros index l. revert index. induction l as [|img l IH]; intros index; simpl;
    constructor; [|apply IH].
  simpl. destruct (PropertyModel.order img); discriminate.
Qed.

Lemma fill_order_settled :
  forall (index : Z) (l : list PropertyModel.Image),
    Forall (fun img => PropertyModel.order img <> None) l ->
    PropertyModel.fill_order index l = l.
Proof.
  intros index l H. revert index. induction H as [|img l Himg H IH]; intros index; simpl;
    [reflexivity|].
  rewrite IH. destruct img as [u p o a]. simpl in *.
  destruct o; [reflexivity | contradiction].
Qed.

Lemma insert_by_order_perm :
  forall (img : PropertyModel.Image) (l : list PropertyModel.Image),
    Permutation (PropertyModel.insert_by_order img l) (img :: l).
Proof.
  intros img l. induction l as [|x l IH]; simpl; [apply Permutation_refl|].
  destruct (PropertyModel.order_of img <=? PropertyModel.order_of x);
    [apply Permutation_refl|].
  eapply Permutation_trans; [apply perm_skip; exact IH | apply perm_swap].
Qed.

Lemma sort_by_order_perm :
  forall l : list PropertyModel.Image, Permutation (PropertyModel.sort_by_order l) l.
Proof.
  induction l as [|img l IH]; simpl; [apply Permutation_refl|].
  eapply Permutation_trans; [apply insert_by_order_perm | apply perm_skip; exact IH].
Qed.

Lemma insert_by_order_sorted :
  forall (img : PropertyModel.Image) (l : list PropertyModel.Image),
    StronglySorted (fun a b => PropertyModel.order_of a <= PropertyModel.order_of b) l ->
    StronglySorted (fun a b => PropertyModel.order_of a <= PropertyModel.order_of b)
                   (PropertyModel.insert_by_order img l).
Proof.
  intros img l H. induction H as [|x l Hl IH Hx]; simpl.
  - constructor; constructor.
  - destruct (PropertyModel.order_of img <=? PropertyModel.order_of x) eqn:E.
    + apply Z.leb_le in E. constructor; [constructor; assumption|].
      constructor; [exact E|].
      eapply Forall_impl; [|exact Hx]. simpl. intros a Ha. lia.
    + apply Z.leb_gt in E. constructor; [exact IH|].
      eapply Permutation_Forall; [apply Permutation_sym, insert_by_order_perm|].
      constructor; [lia | exact Hx].
Qed.

Lemma sort_by_order_sorted :
  forall l : list PropertyModel.Image,
    StronglySorted (fun a b => PropertyModel.order_of a <= PropertyModel.order_of b)
                   (PropertyModel.sort_by_order l).
Proof.
  induction l as [|img l IH]; simpl; [constructor|].
  apply insert_by_order_sorted. exact IH.
Qed.

Lemma sort_by_order_settled :
  forall l : list PropertyModel.Image,
    StronglySorted (fun a b => PropertyModel.order_of a <= PropertyModel.order_of b) l ->
    PropertyModel.sort_by_order l = l.
Proof.
  intros l H. induction H as [|x l Hl IH Hx]; simpl; [reflexivity|].
  rewrite IH. destruct l as [|y l]; simpl; [reflexivity|].
  inversion Hx as [|? ? Hxy _]; subst.
  replace (PropertyModel.order_of x <=? PropertyModel.order_of y) with true
    by (symmetry; apply Z.leb_le; exact Hxy).
  reflexivity.
Qed.

Lemma primaries_perm :
  forall l l' : list PropertyModel.Image,
    Permutation l l' ->
    List.length (filter PropertyModel.is_primary l)
    = List.length (filter PropertyModel.is_primary l').
Proof.
  intros l l' H. induction H as [|x l l' H IH|x y l|l l' l'' H1 IH1 H2 IH2]; simpl.
  - reflexivity.
  - destruct (PropertyModel.is_primary x); simpl; [f_equal|]; exact IH.
  - destruct (PropertyModel.is_primary x), (PropertyModel.is_primary y); reflexivity.
  - congruence.
Qed.

(** The first step of the hook: one primary image. *)
Lemma one_primary_chosen :
  forall (first : PropertyModel.Image) (rest : list PropertyModel.Image),
    let l := first :: rest in
    let l1 := match filter PropertyModel.is_primary l with
              | [] => PropertyModel.set_primary true first :: rest
              | [_] => l
              | _ => PropertyModel.keep_first_primary false l
              end in
    List.length (filter PropertyModel.is_primary l1) = 1%nat
    /\ map PropertyModel.url l1 = map PropertyModel.url l
    /\ map PropertyModel.image_approved l1 = map PropertyModel.image_approved l
    /\ (List.length (filter PropertyModel.is_primary l) = 1%nat -> l1 = l).
Proof.
  intros first rest l l1. unfold l1.
  destruct (filter PropertyModel.is_primary l) as [|x [|y r]] eqn:E.
  - unfold l in E. simpl in E.
    destruct (PropertyModel.is_primary first) eqn:Ef; [discriminate|].
    simpl. rewrite E. simpl. repeat split; try reflexivity. intros H. discriminate H.
  - rewrite E. repeat split; reflexivity.
  - destruct (keep_first_primary_fields false l) as [H1 [H2 _]].
    split; [apply keep_first_primary_one; rewrite E; discriminate|].
    split; [exact H1|]. split; [exact H2|]. intros H. discriminate H.
Qed.

(** X16. The hook on the images.  For a listing with at least one
    image, [propertySchema.pre('validate')] leaves the same images
    up to their order (the URLs after it are a permutation of the URLs
    before it), exactly one of them primary, every [order] defined, and
    the array sorted by [order]; and it is idempotent: run on its own result it
    changes nothing, so saving a listing again does not reshuffle its
    images. *)
Theorem images_hook_normalises :
  forall l : list PropertyModel.Image,
    l <> [] ->
    let l' := PropertyModel.validate_images l in
    Permutation (map PropertyModel.url l') (map PropertyModel.url l)
    /\ List.length (filter PropertyModel.is_primary l') = 1%nat
    /\ Forall (fun img => PropertyModel.order img <> None) l'
    /\ StronglySorted (fun a b => PropertyModel.order_of a <= PropertyModel.order_of b) l'
    /\ PropertyModel.validate_images l' = l'.
Proof.
  intros l Hne l'. destruct l as [|first rest]; [contradiction|].
  destruct (one_primary_chosen first rest) as [Hone [Hurl [_ _]]].
  cbv zeta in Hone, Hurl.
  unfold l', PropertyModel.validate_images.
  set (l1 := match filter PropertyModel.is_primary (first :: rest) with
             | [] => PropertyModel.set_primary true first :: rest
             | [_] => first :: rest
             | _ => PropertyModel.keep_first_primary false (first :: rest)
             end) in *.
  set (l2 := PropertyModel.fill_order 0 l1).
  set (l3 := PropertyModel.sort_by_order l2).
  assert (Hperm : Permutation l3 l2) by apply sort_by_order_perm.
  assert (Hprim : List.length (filter PropertyModel.is_primary l3) = 1%nat).
  { rewrite (primaries_perm _ _ Hperm). unfold l2. rewrite fill_order_primaries.
    exact Hone. }
  assert (Hdef : Forall (fun img => PropertyModel.order img <> None) l3).
  { eapply Permutation_Forall; [apply Permutation_sym; exact Hperm|].
    apply fill_order_defined. }
  assert (Hsorted : StronglySorted
                      (fun a b => PropertyModel.order_of a <= PropertyModel.order_of b) l3)
    by apply sort_by_order_sorted.
  split.
  { rewrite <- Hurl. destruct (fill_order_fields 0 l1) as [H _]. fold l2 in H.
    rewrite <- H. apply Permutation_map. exact Hperm. }
  split; [exact Hprim|]. split; [exact Hdef|]. split; [exact Hsorted|].
  destruct l3 as [|f3 r3] eqn:E3; [reflexivity|].
  destruct (one_primary_chosen f3 r3) as [_ [_ [_ Hsame]]]. cbv zeta in Hsame.
  rewrite (Hsame Hprim).
  rewrite fill_order_settled by exact Hdef.
  apply sort_by_order_settled. exact Hsorted.
Qed.

Lemma images_hook_normalises_witness :
  PropertyModel.validate_images (PropertyModel.images submitted_listing)
  = [ PropertyModel.mkImage "c.jpg" false (Some 0) false;
      PropertyModel.mkImage "b.jpg" false (Some 1) false;
      PropertyModel.mkImage "a.jpg" true (Some 2) false ]
  /\ List.length
       (filter PropertyModel.is_primary
          (PropertyModel.validate_images (PropertyModel.images submitted_listing)))
     = 1%nat.
Proof.
  split; [reflexivity|].
  apply (images_hook_normalises (PropertyModel.images submitted_listing)).
  discriminate.
Defined.

Lemma validate_images_approved :
  forall (l : list PropertyModel.Image) (b : bool),
    (forall img, In img l -> PropertyModel.image_approved img = b) ->
    forall img, In img (PropertyModel.validate_images l) ->
                PropertyModel.image_approved img = b.
Proof.
  intros l b H img Hin. destruct l as [|first rest]; [contradiction|].
  unfold PropertyModel.validate_images in Hin.
  destruct (one_primary_chosen first rest) as [_ [_ [Happ _]]]. cbv zeta in Happ.
  set (l1 := match filter PropertyModel.is_primary (first :: rest) with
             | [] => PropertyModel.set_primary true first :: rest
             | [_] => first :: rest
             | _ => PropertyModel.keep_first_primary false (first :: rest)
             end) in *.
  apply (Permutation_in _ (sort_by_order_perm _)) in Hin.
  apply (in_map PropertyModel.image_approved) in Hin.
  destruct (fill_order_fields 0 l1) as [_ Hfill]. rewrite Hfill, Happ in Hin.
  apply in_map_iff in Hin. destruct Hin as [img0 [E Hin0]].
  rewrite <- E. apply H. exact Hin0.
Qed.

(** X17. What [approve] saves.  For a listing pending approval the
    call resolves; approved images are all marked approved when
    [autoApproveImages] is set; without [autoGoLive] the listing is
    saved as 'approved', private and not visible, with
    [approval_status] 'approved'; with [autoGoLive] it is saved as
    'live', public and visible, with [live_at] the time of the call,
    but its [approval_status] is left as it was (the save hook sets it
    for the statuses draft, pending, approved and rejected only), so a
    listing that went live directly keeps the approval status
    'pending'. *)
Theorem approve_saves :
  forall (this : PropertyModel.Listing) (adminId : ObjectId)
         (options : PropertyModel.ApproveOptions) (now : Time),
    PropertyModel.status this = pending_approval ->
    exists saved : PropertyModel.Listing,
      PropertyModel.approve this adminId options now = inr saved
      /\ PropertyModel.approved_by saved = Some adminId
      /\ PropertyModel.approved_at saved = Some now
      /\ (PropertyModel.autoApproveImages options = true ->
          forall img, In img (PropertyModel.images saved) ->
                      PropertyModel.image_approved img = true)
      /\ (PropertyModel.autoGoLive options = false ->
          PropertyModel.status saved = approved
          /\ PropertyModel.is_visible saved = false
          /\ PropertyModel.visibility saved = PropertyModel.private
          /\ PropertyModel.approval_status saved = PropertyModel.approval_approved
          /\ PropertyModel.live_at saved = PropertyModel.live_at this)
      /\ (PropertyModel.autoGoLive options = true ->
          PropertyModel.status saved = live
          /\ PropertyModel.is_visible saved = true
          /\ PropertyModel.visibility saved = PropertyModel.public
          /\ PropertyModel.approval_status saved = PropertyModel.approval_status this
          /\ PropertyModel.live_at saved = Some now).
Proof.
  intros this adminId options now Hpending.
  unfold PropertyModel.approve. rewrite Hpending. simpl.
  eexists. split; [reflexivity|].
  split; [reflexivity|]. split; [reflexivity|].
  split.
  { intros Hauto img Hin. simpl in Hin. rewrite Hauto in Hin.
    apply (validate_images_approved _ true) in Hin; [exact Hin|].
    intros img0 Hin0. apply in_map_iff in Hin0. destruct Hin0 as [x [<- _]]. reflexivity. }
  split; intros Hgo; rewrite Hgo; simpl; repeat split; try reflexivity.
  destruct (PropertyModel.live_at this); [reflexivity|].
  unfold PropertyModel.status. simpl. rewrite andb_false_r. reflexivity.
Qed.

Lemma approve_saves_witness :
  exists saved : PropertyModel.Listing,
    PropertyModel.approve submitted_listing "admin"
      (PropertyModel.mkApproveOptions true true) (days 1) = inr saved
    /\ PropertyModel.status saved = live
    /\ PropertyModel.approval_status saved = PropertyModel.approval_pending
    /\ PropertyModel.isVisibleToPublic saved (days 2) = true.
Proof.
  destruct (approve_saves submitted_listing "admin"
              (PropertyModel.mkApproveOptions true true) (days 1) eq_refl)
    as [saved [A [_ [_ [_ [_ L]]]]]].
  destruct (L eq_refl) as [L1 [_ [_ [L4 _]]]].
  exists saved. split; [exact A|]. split; [exact L1|]. split; [exact L4|].
  injection A as <-. reflexivity.
Defined.

(** ** The life of a commission *)

Lemma commission_save_cases :
  forall this : CommissionSchema.Document,
    CommissionSchema.save this = inr this
    \/ exists e, CommissionSchema.save this = inl e.
Proof.
  intros this. unfold CommissionSchema.save.
  destruct (CommissionModel.valid (CommissionSchema.commission this));
    [right; eexists; reflexivity | left; reflexivity].
Qed.

(** One call keeps the trail in agreement and never moves the status
    back. *)
Lemma commission_call_step :
  forall (d : CommissionSchema.Document) (c : CommissionSchema.MethodCall),
    trail_agrees d ->
    trail_agrees (CommissionSchema.after d c)
    /\ status_rank (CommissionSchema.status d)
       <= status_rank (CommissionSchema.status (CommissionSchema.after d c))
    /\ (CommissionSchema.status d = com_paid \/ CommissionSchema.status d = com_cancelled ->
        CommissionSchema.status (CommissionSchema.after d c) = CommissionSchema.status d).
Proof.
  intros d c H. unfold CommissionSchema.after.
  destruct c as [approvedBy notes now|paidBy paymentMethod transactionId notes now
                 |newRate reason updatedBy]; simpl.
  - unfold CommissionSchema.approve.
    destruct (CommissionSchema.status d) eqn:Hs; simpl;
      try (rewrite ?Hs; split; [exact H|]; split; [simpl; lia | intros _; reflexivity]).
    match goal with
    | |- context [CommissionSchema.save ?x] =>
        destruct (commission_save_cases x) as [E|[e E]]; rewrite E
    end.
    + split; [unfold trail_agrees; simpl; split; discriminate|].
      split; [simpl; lia | intros [F|F]; discriminate F].
    + rewrite Hs. split; [exact H|]. split; [simpl; lia | intros _; reflexivity].
  - unfold CommissionSchema.markAsPaid.
    destruct (CommissionSchema.status d) eqn:Hs; simpl;
      try (rewrite ?Hs; split; [exact H|]; split; [simpl; lia | intros _; reflexivity]).
    match goal with
    | |- context [CommissionSchema.save ?x] =>
        destruct (commission_save_cases x) as [E|[e E]]; rewrite E
    end.
    + unfold trail_agrees in H. rewrite Hs in H. destruct H as [H1 H2].
      split; [unfold trail_agrees; simpl; repeat split; try assumption; discriminate|].
      split; [simpl; lia | intros [F|F]; discriminate F].
    + rewrite Hs. split; [exact H|]. split; [simpl; lia | intros _; reflexivity].
  - unfold CommissionSchema.override.
    match goal with
    | |- context [CommissionSchema.save ?x] =>
        destruct (commission_save_cases x) as [E|[e E]]; rewrite E
    end.
    + split; [exact H|]. split; [apply Z.le_refl | intros _; reflexivity].
    + split; [exact H|]. split; [apply Z.le_refl | intros _; reflexivity].
Qed.

(** X18. A commission is paid only after it was approved.  Whatever
    sequence of [approve], [markAsPaid] and [override] calls is made on
    a commission, the status never moves back along pending, approved,
    paid; a paid or a cancelled commission keeps its status for good;
    and the trail agrees with the status throughout: an approved
    commission names who approved it and when, a paid one names also
    who paid it and when.  [markAsPaid] on a pending commission
    throws. *)
Theorem commission_is_paid_only_after_approval :
  forall (calls : list CommissionSchema.MethodCall) (d : CommissionSchema.Document),
    trail_agrees d ->
    let final := fold_left CommissionSchema.after calls d in
    trail_agrees final
    /\ status_rank (CommissionSchema.status d) <= status_rank (CommissionSchema.status final)
    /\ (CommissionSchema.status d = com_paid \/ CommissionSchema.status d = com_cancelled ->
        CommissionSchema.status final = CommissionSchema.status d)
    /\ (CommissionSchema.status d = com_pending ->
        forall paidBy paymentMethod transactionId notes now,
          CommissionSchema.markAsPaid d paidBy paymentMethod transactionId notes now
          = inl (Error "Commission must be approved before marking as paid")).
Proof.
  intros calls. induction calls as [|c calls IH]; intros d H final.
  - unfold final. simpl. split; [exact H|]. split; [lia|]. split; [intros _; reflexivity|].
    intros Hp paidBy paymentMethod transactionId notes now.
    unfold CommissionSchema.markAsPaid. rewrite Hp. reflexivity.
  - destruct (commission_call_step d c H) as [H1 [H2 H3]].
    destruct (IH (CommissionSchema.after d c) H1) as [I1 [I2 [I3 _]]].
    unfold final. simpl. split; [exact I1|]. split; [lia|].
    split.
    + intros Hs. rewrite I3; [apply H3; exact Hs|].
      rewrite (H3 Hs). exact Hs.
    + intros Hp paidBy paymentMethod transactionId notes now.
      unfold CommissionSchema.markAsPaid. rewrite Hp. reflexivity.
Qed.

Lemma commission_is_paid_only_after_approval_witness :
  let d := CommissionSchema.created
             (mkCommission "broker" "P" 1000000 "seller" 2 20000 com_pending None None) in
  CommissionSchema.status
    (fold_left CommissionSchema.after
       [ CommissionSchema.MarkAsPaid "admin" (Some CommissionSchema.cheque) None None (days 1);
         CommissionSchema.Approve "admin" (Some "checked") (days 2);
         CommissionSchema.MarkAsPaid "admin" (Some CommissionSchema.cheque) None None (days 3);
         CommissionSchema.Approve "admin" None (days 4) ]
       d)
  = com_paid
  /\ trail_agrees
       (fold_left CommissionSchema.after
          [ CommissionSchema.MarkAsPaid "admin" (Some CommissionSchema.cheque) None None (days 1);
            CommissionSchema.Approve "admin" (Some "checked") (days 2);
            CommissionSchema.MarkAsPaid "admin" (Some CommissionSchema.cheque) None None (days 3);
            CommissionSchema.Approve "admin" None (days 4) ]
          d).
Proof.
  cbv zeta. split; [vm_compute; reflexivity|].
  apply (commission_is_paid_only_after_approval
           [ CommissionSchema.MarkAsPaid "admin" (Some CommissionSchema.cheque) None None (days 1);
             CommissionSchema.Approve "admin" (Some "checked") (days 2);
             CommissionSchema.MarkAsPaid "admin" (Some CommissionSchema.cheque) None None (days 3);
             CommissionSchema.Approve "admin" None (days 4) ]
           (CommissionSchema.created
              (mkCommission "broker" "P" 1000000 "seller" 2 20000 com_pending None None))).
  exact I.
Defined.

(** ** Overriding a commission *)

Lemma override_step :
  forall (d0 d : CommissionSchema.Document) (c : CommissionSchema.MethodCall),
    overridden_from d0 d -> overridden_from d0 (CommissionSchema.after d c).
Proof.
  intros d0 d c [Hprice H]. unfold overridden_from, CommissionSchema.after.
  destruct c as [approvedBy notes now|paidBy paymentMethod transactionId notes now
                 |newRate reason updatedBy]; simpl.
  - unfold CommissionSchema.approve.
    destruct (negb _); [split; assumption|].
    match goal with
    | |- context [CommissionSchema.save ?x] =>
        destruct (commission_save_cases x) as [E|[e E]]; rewrite E
    end; split; assumption.
  - unfold CommissionSchema.markAsPaid.
    destruct (negb _); [split; assumption|].
    match goal with
    | |- context [CommissionSchema.save ?x] =>
        destruct (commission_save_cases x) as [E|[e E]]; rewrite E
    end; split; assumption.
  - unfold CommissionSchema.override.
    match goal with
    | |- context [CommissionSchema.save ?x] =>
        destruct (commission_save_cases x) as [E|[e E]]; rewrite E
    end; [|split; assumption].
    simpl. split; [exact Hprice|].
    destruct (CommissionSchema.is_override d).
    + destruct H as [H1 _]. split; [exact H1 | rewrite Hprice; reflexivity].
    + destruct H as [H1 _]. rewrite H1, Hprice. split; reflexivity.
Qed.

Lemma override_steps :
  forall (calls : list CommissionSchema.MethodCall) (d0 d : CommissionSchema.Document),
    overridden_from d0 d -> overridden_from d0 (fold_left CommissionSchema.after calls d).
Proof.
  intros calls d0. induction calls as [|c calls IH]; intros d H; [exact H|].
  simpl. apply IH. apply override_step. exact H.
Qed.

(** X19. The original rate survives every override.  On a commission
    that was never overridden, after any sequence of [approve],
    [markAsPaid] and [override] calls (the rejected ones leaving the
    document alone): the property price is unchanged; as long as no
    override was saved, rate and amount are unchanged; and once one
    was, [original_rate] is the rate the commission had before the
    first override, however many followed, and the amount is
    [property_price * rate / 100] for the rate now in force.  An
    override whose rate lies outside 0 to 100 is rejected by the
    schema and changes nothing. *)
Theorem original_rate_survives_overrides :
  forall (calls : list CommissionSchema.MethodCall) (d0 : CommissionSchema.Document),
    CommissionSchema.is_override d0 = false ->
    let final := fold_left CommissionSchema.after calls d0 in
    property_price (CommissionSchema.commission final)
    = property_price (CommissionSchema.commission d0)
    /\ (CommissionSchema.is_override final = false ->
        rate (CommissionSchema.commission final) = rate (CommissionSchema.commission d0)
        /\ amount (CommissionSchema.commission final)
           = amount (CommissionSchema.commission d0))
    /\ (CommissionSchema.is_override final = true ->
        CommissionSchema.original_rate final = Some (rate (CommissionSchema.commission d0))
        /\ amount (CommissionSchema.commission final)
           = ((property_price (CommissionSchema.commission d0)
               * rate (CommissionSchema.commission final)) / 100)%float)
    /\ (forall (newRate : float) (reason : string) (updatedBy : ObjectId),
          PrimFloat.leb 0 newRate && PrimFloat.leb newRate 100 = false ->
          CommissionSchema.after d0 (CommissionSchema.Override newRate reason updatedBy)
          = d0).
Proof.
  intros calls d0 Hnever final.
  assert (Hstart : overridden_from d0 d0)
    by (unfold overridden_from; rewrite Hnever; auto).
  destruct (override_steps calls d0 d0 Hstart) as [Hprice H]. fold final in Hprice, H.
  split; [exact Hprice|].
  split; [intros E; rewrite E in H; exact H|].
  split; [intros E; rewrite E in H; exact H|].
  intros newRate reason updatedBy Hrate.
  unfold CommissionSchema.after. simpl.
  unfold CommissionSchema.override, CommissionSchema.save, CommissionModel.valid.
  cbn [commission_type rate CommissionSchema.commission property_price amount].
  rewrite Hrate. cbn [negb].
  repeat match goal with
         | |- context [if ?b then _ else _] => destruct b
         end; reflexivity.
Qed.

Lemma original_rate_survives_overrides_witness :
  let d0 := CommissionSchema.created
              (mkCommission "broker" "P" 1000000 "seller" 2 20000 com_pending None None) in
  let final :=
    fold_left CommissionSchema.after
      [ CommissionSchema.Override 3 "agreed with the seller" "admin";
        CommissionSchema.Override 150 "a slip of the pen" "admin";
        CommissionSchema.Override 2.5 "agreed once more" "admin" ]
      d0 in
  CommissionSchema.is_override final = true
  /\ CommissionSchema.original_rate final = Some 2%float
  /\ rate (CommissionSchema.commission final) = 2.5%float
  /\ amount (CommissionSchema.commission final) = 25000%float.
Proof.
  cbv zeta.
  assert (E : CommissionSchema.is_override
                (fold_left CommissionSchema.after
                   [ CommissionSchema.Override 3 "agreed with the seller" "admin";
                     CommissionSchema.Override 150 "a slip of the pen" "admin";
                     CommissionSchema.Override 2.5 "agreed once more" "admin" ]
                   (CommissionSchema.created
                      (mkCommission "broker" "P" 1000000 "seller" 2 20000 com_pending
                                    None None)))
              = true) by (vm_compute; reflexivity).
  destruct (original_rate_survives_overrides
              [ CommissionSchema.Override 3 "agreed with the seller" "admin";
                CommissionSchema.Override 150 "a slip of the pen" "admin";
                CommissionSchema.Override 2.5 "agreed once more" "admin" ]
              (CommissionSchema.created
                 (mkCommission "broker" "P" 1000000 "seller" 2 20000 com_pending None None))
              eq_refl) as [_ [_ [H _]]].
  destruct (H E) as [H1 _].
  split; [exact E|]. split; [exact H1|]. split; vm_compute; reflexivity.
Defined.

(** ** The broker's figures *)

Lemma totals_counts_from :
  forall (l : list Commission) (acc : BrokerPages.Totals),
    let t := fold_left BrokerPages.totals_step l acc in
    BrokerPages.totalCount t = BrokerPages.totalCount acc + Z.of_nat (List.length l)
    /\ BrokerPages.pendingCount t = BrokerPages.pendingCount acc + count_status com_pending l
    /\ BrokerPages.approvedCount t
       = BrokerPages.approvedCount acc + count_status com_approved l
    /\ BrokerPages.paidCount t = BrokerPages.paidCount acc + count_status com_paid l.
Proof.
  induction l as [|c l IH]; intros acc t.
  - unfold t, count_status. simpl. repeat split; lia.
  - unfold t. simpl fold_left.
    destruct (IH (BrokerPages.totals_step acc c)) as [H1 [H2 [H3 H4]]].
    rewrite H1, H2, H3, H4. unfold count_status. simpl filter.
    unfold BrokerPages.totals_step.
    destruct (com_status c); simpl; repeat split; lia.
Qed.

Lemma status_counts_add_up :
  forall l : list Commission,
    Z.of_nat (List.length l)
    = count_status com_pending l + count_status com_approved l
      + count_status com_paid l + count_status com_cancelled l.
Proof.
  unfold count_status. induction l as [|c l IH]; [reflexivity|].
  cbn [filter List.length].
  destruct (com_status c); cbn [CommissionStatus_eqb List.length];
    rewrite !Nat2Z.inj_succ; lia.
Qed.

(** X20. The totals of the broker's commission list.  Over the
    commissions the query found, [totalCount] is their number and
    [pendingCount], [approvedCount] and [paidCount] are the numbers of
    pending, approved and paid ones; cancelled commissions are counted
    in the total (and their amounts are added to [totalAmount]) but in
    none of the three status counts, so the three counts fall short of
    [totalCount] by exactly the number of cancelled commissions. *)
Theorem commission_totals_count :
  forall commissions : list Commission,
    let t := BrokerPages.totals commissions in
    BrokerPages.totalCount t = Z.of_nat (List.length commissions)
    /\ BrokerPages.pendingCount t = count_status com_pending commissions
    /\ BrokerPages.approvedCount t = count_status com_approved commissions
    /\ BrokerPages.paidCount t = count_status com_paid commissions
    /\ BrokerPages.totalCount t
       = BrokerPages.pendingCount t + BrokerPages.approvedCount t
         + BrokerPages.paidCount t + count_status com_cancelled commissions.
Proof.
  intros commissions t.
  destruct (totals_counts_from commissions (BrokerPages.mkTotals 0 0 0 0 0 0 0 0))
    as [H1 [H2 [H3 H4]]].
  fold (BrokerPages.totals commissions) in H1, H2, H3, H4. fold t in H1, H2, H3, H4.
  simpl in H1, H2, H3, H4.
  pose proof (status_counts_add_up commissions) as Hsum.
  repeat split; lia.
Qed.

Lemma group_count :
  forall (db_sum : list float -> float) (s : CommissionStatus) (l : list Commission),
    match CommissionSchema.group_of db_sum s l with
    | Some total => CommissionSchema.total_count total
    | None => 0
    end = count_status s l.
Proof.
  intros db_sum s l. unfold CommissionSchema.group_of, count_status.
  destruct (filter _ l); reflexivity.
Qed.

(** X21. The broker's number of commissions.  [getBrokerTotal] puts
    [brokerId] into the [$match] of an aggregation, which is not cast:
    called with a string, as the dashboard and /api/stats call it with
    the session's [req.user.id], it matches no commission, returns the
    empty object, and the [totalCommissions] shown is 0 whatever
    commissions the broker has.  Called with an ObjectId, the counts of
    the object add up to the number of the broker's commissions of
    every status (cancelled ones included), whatever way the database
    sums the amounts; with a status given, to the number of the
    broker's commissions of that status. *)
Theorem broker_total_matches_object_ids_only :
  forall (db_sum : list float -> float) (st : Store) (brokerId : ObjectId),
    (forall status : option CommissionStatus,
        CommissionSchema.getBrokerTotal db_sum st (id_string brokerId) status
        = CommissionSchema.mkSummary None None None None)
    /\ BrokerPages.totalCommissions (BrokerPages.commissionSummary db_sum brokerId st) = 0
    /\ BrokerPages.totalCommissions
         (CommissionSchema.getBrokerTotal db_sum st (object_id brokerId) None)
       = Z.of_nat (List.length
           (filter (fun c => String.eqb (com_broker c) brokerId) (commissions st)))
    /\ forall s : CommissionStatus,
         BrokerPages.totalCommissions
           (CommissionSchema.getBrokerTotal db_sum st (object_id brokerId) (Some s))
         = Z.of_nat (List.length
             (filter (fun c => String.eqb (com_broker c) brokerId
                               && CommissionStatus_eqb (com_status c) s)
                     (commissions st))).
Proof.
  intros db_sum st brokerId.
  assert (Hfold : forall summary : CommissionSchema.Summary,
             BrokerPages.totalCommissions summary
             = match CommissionSchema.sum_pending summary with
               | Some t => CommissionSchema.total_count t | None => 0 end
               + match CommissionSchema.sum_approved summary with
                 | Some t => CommissionSchema.total_count t | None => 0 end
               + match CommissionSchema.sum_paid summary with
                 | Some t => CommissionSchema.total_count t | None => 0 end
               + match CommissionSchema.sum_cancelled summary with
                 | Some t => CommissionSchema.total_count t | None => 0 end).
  { intros [[p|] [a|] [d|] [c|]]; unfold BrokerPages.totalCommissions; simpl; lia. }
  assert (Hnone : forall status : option CommissionStatus,
             CommissionSchema.getBrokerTotal db_sum st (id_string brokerId) status
             = CommissionSchema.mkSummary None None None None).
  { intros status. unfold CommissionSchema.getBrokerTotal.
    replace (filter _ (commissions st)) with (@nil Commission); [reflexivity|].
    symmetry. induction (commissions st) as [|c l IH]; [reflexivity|exact IH]. }
  split; [exact Hnone|]. split; [|split].
  - unfold BrokerPages.commissionSummary. rewrite Hnone. reflexivity.
  - rewrite Hfold. unfold CommissionSchema.getBrokerTotal. simpl.
    rewrite !group_count.
    set (mine := filter _ (commissions st)).
    pose proof (status_counts_add_up mine) as Hsum.
    replace (filter (fun c => String.eqb (com_broker c) brokerId) (commissions st))
      with mine.
    + lia.
    + unfold mine. apply filter_ext. intros c. apply andb_true_r.
  - intros s. rewrite Hfold. unfold CommissionSchema.getBrokerTotal. simpl.
    rewrite !group_count.
    set (mine := filter _ (commissions st)).
    pose proof (status_counts_add_up mine) as Hsum.
    assert (Hall : forall c, In c mine -> com_status c = s).
    { intros c Hc. unfold mine in Hc. apply filter_In in Hc. destruct Hc as [_ Hc].
      apply andb_true_iff in Hc. destruct Hc as [_ Hc].
      destruct (com_status c), s; try discriminate Hc; reflexivity. }
    assert (Hother : forall s', s' <> s -> count_status s' mine = 0).
    { intros s' Hne. unfold count_status.
      replace (filter (fun c => CommissionStatus_eqb (com_status c) s') mine) with (@nil Commission);
        [reflexivity|].
      symmetry. apply find_none_filter.
      destruct (find (fun c => CommissionStatus_eqb (com_status c) s') mine) eqn:F;
        [|reflexivity].
      apply find_some in F. destruct F as [F1 F2]. rewrite (Hall c F1) in F2.
      exfalso. apply Hne. destruct s, s'; try discriminate F2; reflexivity. }
    destruct s;
      rewrite ?(Hother com_pending), ?(Hother com_approved), ?(Hother com_paid),
        ?(Hother com_cancelled) in * by discriminate;
      lia.
Qed.

(** The broker of the scenario after the confirmation through the
    broker router recorded a commission: the collection holds it, the
    dashboard counts none. *)
Lemma broker_total_matches_object_ids_only_witness :
  List.length (commissions (snd (BrokerRoutes.confirm "broker" "P" Manual None (days 3)
                                   reserved_store))) = 1%nat
  /\ BrokerPages.totalCommissions
       (BrokerPages.commissionSummary (fun l => fold_left PrimFloat.add l 0%float) "broker"
          (snd (BrokerRoutes.confirm "broker" "P" Manual None (days 3) reserved_store)))
     = 0
  /\ BrokerPages.totalCommissions
       (CommissionSchema.getBrokerTotal (fun l => fold_left PrimFloat.add l 0%float)
          (snd (BrokerRoutes.confirm "broker" "P" Manual None (days 3) reserved_store))
          (object_id "broker") None)
     = 1.
Proof.
  destruct (broker_total_matches_object_ids_only
              (fun l => fold_left PrimFloat.add l 0%float)
              (snd (BrokerRoutes.confirm "broker" "P" Manual None (days 3) reserved_store))
              "broker") as (_ & H0 & H1 & _).
  split; [reflexivity|]. split; [exact H0|]. rewrite H1. reflexivity.
Defined.

(** ** The broker's properties *)

Lemma seen_in_iff :
  forall (seen : list ObjectId) (id : ObjectId), seen_in seen id = true <-> In id seen.
Proof.
  intros seen id. unfold seen_in. rewrite existsb_exists. split.
  - intros [x [Hx E]]. apply String.eqb_eq in E. subst. exact Hx.
  - intros H. exists id. split; [exact H | apply String.eqb_refl].
Qed.

Lemma set_from_in :
  forall (ids seen : list ObjectId) (x : ObjectId),
    In x (set_from seen ids) <-> In x ids /\ ~ In x seen.
Proof.
  induction ids as [|id rest IH]; intros seen x; simpl; [tauto|].
  fold (seen_in seen id). destruct (seen_in seen id) eqn:E.
  - rewrite IH. apply seen_in_iff in E. split.
    + intros [H1 H2]. auto.
    + intros [[->|H1] H2]; [contradiction | auto].
  - assert (Hid : ~ In id seen)
      by (intros H; apply seen_in_iff in H; congruence).
    simpl. rewrite IH. simpl. split.
    + intros [->|[H1 H2]]; [auto | split; [auto | tauto]].
    + intros [[->|H1] H2]; [auto|].
      destruct (String.eqb_spec id x) as [->|Hne]; [auto | right; split; [auto|tauto]].
Qed.

Lemma set_from_nodup :
  forall ids seen : list ObjectId, NoDup (set_from seen ids).
Proof.
  induction ids as [|id rest IH]; intros seen; simpl; [constructor|].
  destruct (existsb (String.eqb id) seen); [apply IH|].
  constructor; [|apply IH].
  rewrite set_from_in. simpl. tauto.
Qed.

Lemma set_from_nodup_list :
  forall ids seen : list ObjectId,
    NoDup ids -> set_from seen ids = filter (fun id => negb (seen_in seen id)) ids.
Proof.
  induction ids as [|id rest IH]; intros seen Hnd; simpl; [reflexivity|].
  inversion Hnd as [|? ? Hnotin Hrest]; subst.
  fold (seen_in seen id). destruct (seen_in seen id) eqn:E; simpl.
  - apply IH. exact Hrest.
  - f_equal. rewrite (IH (id :: seen) Hrest). apply filter_ext_in.
    intros x Hx. unfold seen_in. simpl.
    destruct (String.eqb_spec x id) as [->|Hne]; [contradiction | reflexivity].
Qed.

Lemma set_from_app :
  forall l1 l2 seen : list ObjectId,
    NoDup l1 -> (forall x, In x l1 -> ~ In x seen) ->
    set_from seen (l1 ++ l2) = l1 ++ set_from (rev l1 ++ seen) l2.
Proof.
  induction l1 as [|id r IH]; intros l2 seen Hnd Hdis; simpl; [reflexivity|].
  inversion Hnd as [|? ? Hnotin Hrest]; subst.
  fold (seen_in seen id).
  replace (seen_in seen id) with false.
  2:{ symmetry. destruct (seen_in seen id) eqn:E; [|reflexivity].
      apply seen_in_iff in E. exfalso. apply (Hdis id); [left; reflexivity | exact E]. }
  f_equal. rewrite (IH l2 (id :: seen) Hrest).
  - rewrite <- app_assoc. reflexivity.
  - intros x Hx [<-|Hs]; [contradiction|]. apply (Hdis x); [right; exact Hx | exact Hs].
Qed.

Lemma nodup_map_filter :
  forall (sel : Property -> bool) (l : list Property),
    NoDup (map prop_id l) -> NoDup (map prop_id (filter sel l)).
Proof.
  intros sel l. induction l as [|p l IH]; simpl; intros H; [constructor|].
  inversion H as [|? ? Hnotin Hrest]; subst.
  destruct (sel p); simpl; [constructor|]; [|apply IH; exact Hrest|apply IH; exact Hrest].
  intros Hin. apply Hnotin. apply in_map_iff in Hin. destruct Hin as [q [Hq Hin]].
  apply in_map_iff. exists q. split; [exact Hq|]. apply filter_In in Hin. apply Hin.
Qed.

Lemma same_id_same_property :
  forall (l : list Property) (p q : Property),
    NoDup (map prop_id l) -> In p l -> In q l -> prop_id p = prop_id q -> p = q.
Proof.
  induction l as [|x l IH]; intros p q Hnd Hp Hq E; [contradiction|].
  inversion Hnd as [|? ? Hnotin Hrest]; subst.
  destruct Hp as [->|Hp], Hq as [->|Hq].
  - reflexivity.
  - exfalso. apply Hnotin. rewrite E. apply in_map. exact Hq.
  - exfalso. apply Hnotin. rewrite <- E. apply in_map. exact Hp.
  - apply IH; assumption.
Qed.

Lemma filter_split_count :
  forall (A : Type) (p q : A -> bool) (l : list A),
    List.length (filter p l)
    = (List.length (filter (fun x => p x && q x) l)
       + List.length (filter (fun x => p x && negb (q x)) l))%nat.
Proof.
  intros A p q l. induction l as [|x l IH]; simpl; [reflexivity|].
  destruct (p x), (q x); simpl; lia.
Qed.

Lemma filter_filter :
  forall (A : Type) (p q : A -> bool) (l : list A),
    filter p (filter q l) = filter (fun x => q x && p x) l.
Proof.
  intros A p q l. induction l as [|x l IH]; simpl; [reflexivity|].
  destruct (q x); simpl; [destruct (p x); simpl; rewrite IH; reflexivity | exact IH].
Qed.

Lemma filter_map_length :
  forall (A B : Type) (f : A -> B) (p : B -> bool) (l : list A),
    List.length (filter p (map f l)) = List.length (filter (fun x => p (f x)) l).
Proof.
  intros A B f p l. induction l as [|x l IH]; simpl; [reflexivity|].
  destruct (p (f x)); simpl; rewrite IH; reflexivity.
Qed.

(** X22. The two counts of a broker's properties.  The dashboard
    counts the distinct properties among those the broker added and
    those assigned to the broker: every entry of [uniqueProperties] is
    a property (the lookup by id never fails) and no id occurs twice.
    GET /api/stats counts the properties the broker added plus the
    assigned ones that no broker added.  With ids unique in the
    collection the dashboard's [totalProperties] exceeds the one of
    /api/stats by exactly the number of properties that are assigned
    to the broker but were added by another broker; the two agree when
    there is none. *)
Theorem broker_property_counts :
  forall (st : Store) (userId : ObjectId),
    NoDup (map prop_id (properties st)) ->
    Forall (fun entry => exists p, entry = Some p /\ In p (properties st))
           (BrokerPages.uniqueProperties userId st)
    /\ BrokerPages.dashboard_totalProperties userId st
       = BrokerPages.stats_totalProperties userId st
         + Z.of_nat (List.length (filter (added_by_another_broker userId) (properties st))).
Proof.
  intros st userId Hnd.
  set (A := filter (BrokerPages.added_by_me userId) (properties st)).
  set (B := filter (BrokerPages.assigned_to_me userId) (properties st)).
  split.
  - unfold BrokerPages.uniqueProperties. fold A B.
    apply Forall_forall. intros entry Hin. apply in_map_iff in Hin.
    destruct Hin as [id [<- Hid]].
    apply set_from_in in Hid. destruct Hid as [Hid _].
    apply in_map_iff in Hid. destruct Hid as [p [Hp Hin]].
    destruct (find (has_id id) (A ++ B)) as [q|] eqn:F.
    + exists q. split; [reflexivity|]. apply find_some in F. destruct F as [F _].
      apply in_app_or in F. destruct F as [F|F]; apply filter_In in F; apply F.
    + exfalso. pose proof (find_none _ _ F p Hin) as Hn.
      unfold has_id in Hn. rewrite Hp, String.eqb_refl in Hn. discriminate.
  - unfold BrokerPages.dashboard_totalProperties, BrokerPages.uniqueProperties.
    fold A B. rewrite length_map, map_app.
    assert (HA : NoDup (map prop_id A)) by (apply nodup_map_filter; exact Hnd).
    assert (HB : NoDup (map prop_id B)) by (apply nodup_map_filter; exact Hnd).
    rewrite (set_from_app (map prop_id A) (map prop_id B) [] HA)
      by (intros x _ []).
    rewrite app_nil_r, length_app, (set_from_nodup_list _ _ HB), length_map.
    rewrite filter_map_length.
    assert (Hsame : filter (fun p => negb (seen_in (rev (map prop_id A)) (prop_id p))) B
                    = filter (fun p => negb (BrokerPages.added_by_me userId p)) B).
    { apply filter_ext_in. intros p Hp. f_equal.
      apply filter_In in Hp. destruct Hp as [Hp _].
      destruct (BrokerPages.added_by_me userId p) eqn:Ea.
      - apply seen_in_iff. rewrite <- in_rev. apply in_map.
        apply filter_In. split; assumption.
      - destruct (seen_in (rev (map prop_id A)) (prop_id p)) eqn:Es; [|reflexivity].
        apply seen_in_iff in Es. rewrite <- in_rev in Es. apply in_map_iff in Es.
        destruct Es as [q [Eq Hq]]. apply filter_In in Hq. destruct Hq as [Hq Hqa].
        rewrite (same_id_same_property _ q p Hnd Hq Hp Eq) in Hqa. congruence. }
    rewrite Hsame. unfold B. rewrite filter_filter.
    unfold BrokerPages.stats_totalProperties, BrokerPages.stats_addedProperties,
      BrokerPages.stats_assignedProperties. fold A.
    rewrite (filter_split_count _
               (fun p => BrokerPages.assigned_to_me userId p
                         && negb (BrokerPages.added_by_me userId p))
               (fun p => negb (Role_eqb (added_by_role p) broker_role))
               (properties st)).
    replace (filter (fun x => BrokerPages.assigned_to_me userId x
                              && negb (BrokerPages.added_by_me userId x)
                              && negb (Role_eqb (added_by_role x) broker_role))
                    (properties st))
      with (filter (fun p => BrokerPages.assigned_to_me userId p
                             && negb (Role_eqb (added_by_role p) broker_role))
                   (properties st)).
    2:{ apply filter_ext. intros p. unfold BrokerPages.added_by_me.
        destruct (BrokerPages.assigned_to_me userId p),
          (String.eqb (added_by_user p) userId),
          (Role_eqb (added_by_role p) broker_role); reflexivity. }
    replace (filter (fun x => BrokerPages.assigned_to_me userId x
                              && negb (BrokerPages.added_by_me userId x)
                              && negb (negb (Role_eqb (added_by_role x) broker_role)))
                    (properties st))
      with (filter (added_by_another_broker userId) (properties st)).
    2:{ apply filter_ext. intros p. unfold added_by_another_broker.
        destruct (BrokerPages.assigned_to_me userId p),
          (BrokerPages.added_by_me userId p),
          (Role_eqb (added_by_role p) broker_role); reflexivity. }
    lia.
Qed.

(** Three properties with broker 'broker' assigned: one the seller
    listed, one the broker added, one another broker added. *)
Lemma broker_property_counts_witness :
  let st := mkStore
              [ scenario_property;
                mkProperty "Q" live 2000000 "seller" "broker" broker_role (Some "broker")
                           unlocked 0 0;
                mkProperty "R" live 3000000 "seller" "other" broker_role (Some "broker")
                           unlocked 0 0 ]
              [] [] [] [] in
  BrokerPages.dashboard_totalProperties "broker" st = 3
  /\ BrokerPages.stats_totalProperties "broker" st = 2.
Proof.
  cbv zeta.
  pose proof (broker_property_counts
                (mkStore
                   [ scenario_property;
                     mkProperty "Q" live 2000000 "seller" "broker" broker_role (Some "broker")
                                unlocked 0 0;
                     mkProperty "R" live 3000000 "seller" "other" broker_role (Some "broker")
                                unlocked 0 0 ]
                   [] [] [] [])
                "broker") as H.
  destruct H as [_ H].
  - simpl. repeat constructor; simpl; intuition discriminate.
  - split; [rewrite H|]; reflexivity.
Defined.

(** ** What the confirming handlers answer *)

Lemma visit_confirmed_is_no_notification_type :
  forall (st : Store) (userId : ObjectId) (title : string) (propertyId : ObjectId),
    createNotification st userId "visit_confirmed" title propertyId
    = (Threw (ValidationError "Notification" "type"), st).
Proof. reflexivity. Qed.

(** X23. A confirmation through the controllers is written and then
    reported as failed.  [brokerController.confirmVisit] never answers
    success, whatever the store and the arguments; the buyer
    controller's [confirmVisit] does not either when the property
    exists.  In both the notification of type 'visit_confirmed' is no
    member of the Notification schema's enum: for an active item of the
    buyer's cart inside its visit window the buyer controller saves the
    cart with the item confirmed, stores no notification, and answers
    500 with the validation error. *)
Theorem confirmation_is_written_but_answered_500 :
  forall (st : Store) (userId propertyId : ObjectId) (now : Time),
    (forall buyerId : ObjectId,
        fst (BrokerController.confirmVisit userId propertyId buyerId now st)
        <> Json 200 true "Visit confirmed successfully")
    /\ (findById st propertyId <> None ->
        fst (BuyerController.confirmVisit userId propertyId now st)
        <> Json 200 true "Visit confirmed successfully")
    /\ (forall (cart : Cart) (item : Item) (property : Property),
          findCart st userId = Some cart ->
          find (active_for propertyId) (items cart) = Some item ->
          now <= setDate_plus (item_added_at item) (visit_window_days (settings cart)) ->
          findById st propertyId = Some property ->
          fst (BuyerController.confirmVisit userId propertyId now st)
          = Caught 500 (ValidationError "Notification" "type")
          /\ findCart (snd (BuyerController.confirmVisit userId propertyId now st)) userId
             = Some (set_items cart
                       (update_first (active_for propertyId)
                          (BuyerController.confirm_item userId now) (items cart)))
          /\ notifications (snd (BuyerController.confirmVisit userId propertyId now st))
             = notifications st).
Proof.
  intros st userId propertyId now.
  split.
  { intros buyerId. unfold BrokerController.confirmVisit. open_handler.
    destruct (findCart st buyerId) as [cart|]; [|discriminate].
    destruct (find (active_for propertyId) (items cart)); [|discriminate].
    destruct (findById st propertyId) as [property|]; [|discriminate].
    destruct (broker property) as [b|]; [|discriminate].
    destruct (negb (String.eqb b userId)); [discriminate|].
    cbv beta iota.
    destruct (negb (String.eqb (added_by_user property) userId)).
    - match goal with
      | |- context [createCommission ?s ?c] => destruct (createCommission s c) as [[|e] s']
      end; simpl; discriminate.
    - simpl. discriminate. }
  assert (Hkept : forall g : CartStatus -> CartStatus,
             forall s : Store,
               findById s propertyId <> None ->
               findById (update_cart_status s propertyId g) propertyId <> None).
  { intros g s Hs. destruct (findById s propertyId) as [p|] eqn:E; [|contradiction].
    unfold findById, update_cart_status. simpl.
    unfold findById in E. clear Hs.
    induction (properties s) as [|q l IH]; simpl in *; [discriminate|].
    destruct (has_id propertyId q) eqn:Hq; simpl.
    - unfold has_id in *. simpl. rewrite Hq. discriminate.
    - rewrite Hq. apply IH. exact E. }
  split.
  { intros Hprop. unfold BuyerController.confirmVisit. open_handler.
    destruct (findCart st userId) as [cart|]; [|discriminate].
    destruct (find (active_for propertyId) (items cart)) as [cartItem|]; [|discriminate].
    destruct (now >? _); [discriminate|].
    cbv beta iota.
    match goal with
    | |- context [findById ?s propertyId] =>
        assert (Hp : findById s propertyId <> None)
          by (apply Hkept; unfold findById in *; simpl; exact Hprop);
        destruct (findById s propertyId) as [property|]; [|contradiction]
    end.
    simpl. discriminate. }
  intros cart item property Hcart Hitem Hwindow Hprop.
  unfold BuyerController.confirmVisit. open_handler.
  rewrite Hcart, Hitem.
  rewrite (gtb_false_le _ _ Hwindow). cbv beta iota.
  match goal with
  | |- context [findById ?s propertyId] =>
      assert (Hp : findById s propertyId <> None)
        by (apply Hkept; unfold findById in *; simpl; rewrite Hprop; discriminate);
      destruct (findById s propertyId) as [property'|]; [|contradiction]
  end.
  simpl. split; [reflexivity|]. split; [|reflexivity].
  apply (findCart_save_cart st userId cart); [exact Hcart|].
  simpl. eapply findCart_buyer. exact Hcart.
Qed.

Lemma confirmation_is_written_but_answered_500_witness :
  fst (BuyerController.confirmVisit "buyerA" "P" (days 3) reserved_store)
  = Caught 500 (ValidationError "Notification" "type")
  /\ map (fun c => map item_visit_status (items c))
         (carts (snd (BuyerController.confirmVisit "buyerA" "P" (days 3) reserved_store)))
     = [[VConfirmed]].
Proof.
  destruct (confirmation_is_written_but_answered_500 reserved_store "buyerA" "P" (days 3))
    as [_ [_ H]].
  destruct (H (mkCart "buyerA" [new_item "P" 0 None] (mkSettings 5 7 60))
              (new_item "P" 0 None)
              (set_cart_status (locked_by "buyerA" 0) scenario_property)
              eq_refl eq_refl) as [H1 _].
  - vm_compute. discriminate.
  - reflexivity.
  - split; [exact H1 | reflexivity].
Defined.

(** ** The broker router's lookup and window *)

(** X24. The broker router confirms in the first cart that has some
    item for the property and some active item, not in the cart that
    holds the active item for the property.  When the first cart the
    filter [{ 'items.property', 'items.status': 'active' }] matches has
    no active item for the property, POST
    /api/visits/:propertyId/confirm answers 400 'Cart item not found'
    and changes nothing, although another buyer's cart holds the
    property's active reservation, which stays unconfirmed. *)
Theorem route_confirm_looks_in_the_first_matching_cart :
  forall (st : Store) (userId propertyId : ObjectId) (method : Method)
         (notes : option string) (now : Time)
         (property : Property) (first holder : Cart) (item : Item),
    find (fun p => has_id propertyId p
                   && match broker p with
                      | Some b => String.eqb b userId
                      | None => false
                      end) (properties st) = Some property ->
    find (BrokerRoutes.in_active_cart propertyId) (carts st) = Some first ->
    find (active_for propertyId) (items first) = None ->
    In holder (carts st) ->
    find (active_for propertyId) (items holder) = Some item ->
    BrokerRoutes.confirm userId propertyId method notes now st
    = (Json 400 false "Cart item not found", st)
    /\ In holder (carts (snd (BrokerRoutes.confirm userId propertyId method notes now st))).
Proof.
  intros st userId propertyId method notes now property first holder item
         Hprop Hfirst Hnone Hin Hitem.
  assert (E : BrokerRoutes.confirm userId propertyId method notes now st
              = (Json 400 false "Cart item not found", st)).
  { unfold BrokerRoutes.confirm. open_handler. rewrite Hprop, Hfirst, Hnone. reflexivity. }
  split; [exact E|]. rewrite E. exact Hin.
Qed.

Lemma route_confirm_looks_in_the_first_matching_cart_witness :
  BrokerRoutes.confirm "broker" "P" Manual None (days 1) passed_on_store
  = (Json 400 false "Cart item not found", passed_on_store)
  /\ map (fun c => (buyer c, map (fun it => (item_property it, item_status it,
                                             item_visit_status it)) (items c)))
         (carts passed_on_store)
     = [ ("buyerA", [("P", Removed, VPending); ("Q", Active, VPending)]);
         ("buyerB", [("P", Active, VPending)]) ].
Proof.
  destruct (route_confirm_looks_in_the_first_matching_cart passed_on_store "broker" "P"
              Manual None (days 1)
              (set_cart_status (locked_by "buyerB" 0) scenario_property)
              (mkCart "buyerA"
                 [set_item_status Removed (new_item "P" 0 None); new_item "Q" 0 None]
                 (mkSettings 5 7 60))
              (mkCart "buyerB" [new_item "P" 0 None] (mkSettings 5 7 60))
              (new_item "P" 0 None)) as [H _].
  - vm_compute. reflexivity.
  - vm_compute. reflexivity.
  - vm_compute. reflexivity.
  - vm_compute. right. left. reflexivity.
  - vm_compute. reflexivity.
  - split; [exact H|]. vm_compute. reflexivity.
Defined.

Lemma route_confirm_carts :
  forall (st : Store) (userId propertyId : ObjectId) (method : Method)
         (notes : option string) (now : Time)
         (property : Property) (cart : Cart) (item : Item),
    find (fun p => has_id propertyId p
                   && match broker p with
                      | Some b => String.eqb b userId
                      | None => false
                      end) (properties st) = Some property ->
    find (BrokerRoutes.in_active_cart propertyId) (carts st) = Some cart ->
    find (active_for propertyId) (items cart) = Some item ->
    now <= setDate_plus (item_added_at item) 7 ->
    fst (BrokerRoutes.confirm userId propertyId method notes now st)
    <> Json 400 false "Visit window has expired"
    /\ carts (snd (BrokerRoutes.confirm userId propertyId method notes now st))
       = update_first (of_buyer (buyer cart))
           (fun _ => set_items cart
                       (update_first (active_for propertyId)
                          (BrokerRoutes.confirm_item userId method notes now) (items cart)))
           (carts st).
Proof.
  intros st userId propertyId method notes now property cart item Hprop Hcart Hitem Hw.
  unfold BrokerRoutes.confirm. open_handler. rewrite Hprop, Hcart, Hitem.
  rewrite (gtb_false_le _ _ Hw). cbv beta iota.
  destruct (negb (String.eqb (added_by_user property) userId)
            || negb (Role_eqb (added_by_role property) broker_role));
    [destruct (CommissionModel.calculateCommission _ _ _ _)|];
    repeat frame_await; simpl; (split; [discriminate|]); chase; reflexivity.
Qed.

(** X25. The broker router's visit window is seven days whatever the
    cart's setting.  For the active, not yet confirmed item of the
    cart the route finds: when the cart's [visit_window_days] is more
    than seven, between day seven and the end of the cart's window the
    route refuses with 'Visit window has expired' (and changes
    nothing) what [Cart.confirmVisit] accepts; when it is less than
    seven, between the end of the cart's window and day seven the route
    confirms the item (it saves the cart with the item confirmed) what
    [Cart.confirmVisit] refuses as expired. *)
Theorem route_window_is_seven_days :
  forall (st : Store) (userId propertyId confirmedBy : ObjectId) (method : Method)
         (notes : option string) (now : Time)
         (property : Property) (cart : Cart) (item : Item),
    find (fun p => has_id propertyId p
                   && match broker p with
                      | Some b => String.eqb b userId
                      | None => false
                      end) (properties st) = Some property ->
    find (BrokerRoutes.in_active_cart propertyId) (carts st) = Some cart ->
    find (active_for propertyId) (items cart) = Some item ->
    item_visit_status item <> VConfirmed ->
    let cartExpiry := setDate_plus (item_added_at item) (visit_window_days (settings cart)) in
    let routeExpiry := setDate_plus (item_added_at item) 7 in
    (routeExpiry < now <= cartExpiry ->
     BrokerRoutes.confirm userId propertyId method notes now st
     = (Json 400 false "Visit window has expired", st)
     /\ fst (CartModel.confirmVisit cart propertyId confirmedBy method now) = Resolved)
    /\ (cartExpiry < now <= routeExpiry ->
        carts (snd (BrokerRoutes.confirm userId propertyId method notes now st))
        = update_first (of_buyer (buyer cart))
            (fun _ => set_items cart
                        (update_first (active_for propertyId)
                           (BrokerRoutes.confirm_item userId method notes now) (items cart)))
            (carts st)
        /\ fst (BrokerRoutes.confirm userId propertyId method notes now st)
           <> Json 400 false "Visit window has expired"
        /\ fst (CartModel.confirmVisit cart propertyId confirmedBy method now)
           = Threw (Error "Visit window has expired")).
Proof.
  intros st userId propertyId confirmedBy method notes now property cart item
         Hprop Hcart Hitem Hv cartExpiry routeExpiry.
  assert (Hnot : VisitStatus_eqb (item_visit_status item) VConfirmed = false)
    by (destruct (item_visit_status item); try reflexivity; exfalso; apply Hv; reflexivity).
  split.
  - intros [Hlate Hin]. split.
    + unfold BrokerRoutes.confirm. open_handler. rewrite Hprop, Hcart, Hitem.
      fold routeExpiry.
      replace (now >? routeExpiry) with true by (symmetry; apply Z.gtb_lt; lia).
      reflexivity.
    + unfold CartModel.confirmVisit. rewrite Hitem, Hnot. fold cartExpiry.
      rewrite (gtb_false_le _ _ Hin). reflexivity.
  - intros [Hlate Hin].
    destruct (route_confirm_carts st userId propertyId method notes now property cart item
                Hprop Hcart Hitem Hin) as [H1 H2].
    split; [exact H2|]. split; [exact H1|].
    unfold CartModel.confirmVisit. rewrite Hitem, Hnot. fold cartExpiry.
    replace (now >? cartExpiry) with true by (symmetry; apply Z.gtb_lt; lia).
    reflexivity.
Qed.

(** Buyer A's reservation of P in a cart whose visit window is ten
    days; the broker confirms on day 8. *)
Lemma route_window_is_seven_days_witness :
  let cart := mkCart "buyerA" [new_item "P" 0 None] (mkSettings 5 10 60) in
  let st := mkStore [set_cart_status (locked_by "buyerA" 0) scenario_property]
                    [cart] [] [] [] in
  BrokerRoutes.confirm "broker" "P" Manual None (days 8) st
  = (Json 400 false "Visit window has expired", st)
  /\ fst (CartModel.confirmVisit cart "P" "broker" Manual (days 8)) = Resolved.
Proof.
  cbv zeta.
  destruct (route_window_is_seven_days
              (mkStore [set_cart_status (locked_by "buyerA" 0) scenario_property]
                       [mkCart "buyerA" [new_item "P" 0 None] (mkSettings 5 10 60)] [] [] [])
              "broker" "P" "broker" Manual None (days 8)
              (set_cart_status (locked_by "buyerA" 0) scenario_property)
              (mkCart "buyerA" [new_item "P" 0 None] (mkSettings 5 10 60))
              (new_item "P" 0 None) eq_refl eq_refl eq_refl) as [H _].
  - discriminate.
  - apply H. split; vm_compute; [reflexivity | discriminate].
Defined.

(** ** The admin's decisions *)

Lemma findListing_stored :
  forall (listings : list PropertyModel.Listing) (propertyId : ObjectId)
         (property saved : PropertyModel.Listing),
    AdminController.findListing listings (Some propertyId) = Some property ->
    prop_id (PropertyModel.doc saved) = propertyId ->
    AdminController.findListing (AdminController.stored listings saved) (Some propertyId)
    = Some saved.
Proof.
  intros listings propertyId property saved Hfind Hid.
  unfold AdminController.findListing, AdminController.stored in *. rewrite Hid.
  induction listings as [|l listings IH]; simpl in *; [discriminate|].
  destruct (has_id propertyId (PropertyModel.doc l)) eqn:E; simpl.
  - unfold has_id. rewrite Hid, String.eqb_refl. reflexivity.
  - rewrite E. apply IH. exact Hfind.
Qed.

Lemma listing_id :
  forall (listings : list PropertyModel.Listing) (propertyId : ObjectId)
         (property : PropertyModel.Listing),
    AdminController.findListing listings (Some propertyId) = Some property ->
    prop_id (PropertyModel.doc property) = propertyId.
Proof.
  intros listings propertyId property H. apply find_some in H. destruct H as [_ H].
  apply String.eqb_eq. exact H.
Qed.

(** X26. The admin can approve, and through the admin router nothing
    else.  [approveProperty] takes the id from the body: for a pending
    listing it answers 200, stores the listing approved (or live, with
    [autoGoLive]) and stores one 'property_approved' notification for
    the seller.  [rejectProperty], [suspendProperty] and
    [makePropertyLive] read [req.params.propertyId], while the routes
    of routes/admin.js name the parameter [:id]: whatever the store,
    the id in the path and the body, the routed reject and suspend
    answer 400 (reason too short) or 404 'Property not found', the
    routed make-live answers 404, and none of them changes anything. *)
Theorem admin_router_approves_and_nothing_else :
  forall (listings : list PropertyModel.Listing) (st : Store)
         (adminId : ObjectId) (now : Time),
    (forall (propertyId : ObjectId) (property : PropertyModel.Listing)
            (autoGoLive autoApproveImages : bool),
        AdminController.findListing listings (Some propertyId) = Some property ->
        PropertyModel.status property = pending_approval ->
        exists saved : PropertyModel.Listing,
          AdminController.approveProperty adminId (Some propertyId) (Some autoGoLive)
            (Some autoApproveImages) now (listings, st)
          = (Json 200 true
               (if autoGoLive then "Property approved and made live successfully"
                else "Property approved successfully"),
             (AdminController.stored listings saved,
              mkStore (properties st) (carts st) (rules st) (commissions st)
                (notifications st
                 ++ [mkNotification (seller (PropertyModel.doc property)) "property_approved"
                                    "Property Approved" propertyId])))
          /\ AdminController.findListing (AdminController.stored listings saved)
               (Some propertyId) = Some saved
          /\ PropertyModel.status saved = (if autoGoLive then live else approved))
    /\ (forall (id : ObjectId) (reason : option JsString) (suspension_end : option Time),
          AdminRoutes.reject adminId id reason now (listings, st)
          = (if reason_too_short reason
             then Json 400 false "Rejection reason must be at least 10 characters"
             else Json 404 false "Property not found",
             (listings, st))
          /\ AdminRoutes.suspend adminId id reason suspension_end now (listings, st)
             = (if reason_too_short reason
                then Json 400 false "Suspension reason must be at least 10 characters"
                else Json 404 false "Property not found",
                (listings, st))
          /\ AdminRoutes.make_live id now (listings, st)
             = (Json 404 false "Property not found", (listings, st))).
Proof.
  intros listings st adminId now. split.
  - intros propertyId property autoGoLive autoApproveImages Hfind Hpending.
    pose proof (listing_id _ _ _ Hfind) as Hid.
    unfold AdminController.approveProperty. cbv zeta. rewrite Hfind, Hpending. simpl.
    unfold PropertyModel.approve. rewrite Hpending. simpl.
    eexists. split; [|split].
    + unfold AdminController.notify. simpl. rewrite Hid. reflexivity.
    + eapply findListing_stored; [exact Hfind|]. simpl. exact Hid.
    + destruct autoGoLive; reflexivity.
  - intros id reason suspension_end.
    unfold AdminRoutes.reject, AdminRoutes.suspend, AdminRoutes.make_live,
      AdminController.rejectProperty, AdminController.suspendProperty,
      AdminController.makePropertyLive, AdminRoutes.params_of.
    simpl. destruct (reason_too_short reason); auto.
Qed.

Lemma admin_router_approves_and_nothing_else_witness :
  (exists saved : PropertyModel.Listing,
      AdminController.approveProperty "admin" (Some "P") (Some false) (Some true) (days 1)
        ([submitted_listing], scenario_store)
      = (Json 200 true "Property approved successfully",
         (AdminController.stored [submitted_listing] saved,
          mkStore [scenario_property] [] [] []
                  [mkNotification "seller" "property_approved" "Property Approved" "P"]))
      /\ PropertyModel.status saved = approved)
  /\ AdminRoutes.reject "admin" "P" (Some (js "incomplete papers")) (days 1)
       ([submitted_listing], scenario_store)
     = (Json 404 false "Property not found", ([submitted_listing], scenario_store))
  /\ AdminRoutes.make_live "P" (days 1) ([submitted_listing], scenario_store)
     = (Json 404 false "Property not found", ([submitted_listing], scenario_store)).
Proof.
  destruct (admin_router_approves_and_nothing_else [submitted_listing] scenario_store
              "admin" (days 1)) as [Happrove Hrouted].
  split.
  - destruct (Happrove "P" submitted_listing false true eq_refl eq_refl)
      as [a [A [_ A3]]].
    exists a. split; [exact A|exact A3].
  - destruct (Hrouted "P" (Some (js "incomplete papers")) None) as [R [_ L]].
    split; [exact R|exact L].
Defined.

(** ** The countdown *)

(** X27. The countdown shows the remaining time in full.  While the
    end lies ahead ([endTime >= now]) [CountdownTimer.update] shows
    days, hours, minutes and seconds with hours below 24, minutes and
    seconds below 60, none negative, that add up to the remaining
    distance short of less than a second; at the end instant itself it
    shows 0d 0h 0m 0s, and only after it 'EXPIRED'. *)
Theorem countdown_shows_the_remaining_time :
  forall endTime now : Time,
    (now <= endTime ->
     exists d h m s : Z,
       countdown_update endTime now = Remaining d h m s
       /\ 0 <= d /\ 0 <= h < 24 /\ 0 <= m < 60 /\ 0 <= s < 60
       /\ ((d * 24 + h) * 60 + m) * 60 * 1000 + s * 1000 <= endTime - now
          < ((d * 24 + h) * 60 + m) * 60 * 1000 + s * 1000 + 1000)
    /\ (endTime < now -> countdown_update endTime now = EXPIRED)
    /\ countdown_update endTime endTime = Remaining 0 0 0 0.
Proof.
  intros endTime now. split; [|split].
  - intros H. unfold countdown_update. cbv zeta.
    replace (endTime - now <? 0) with false by (symmetry; apply Z.ltb_ge; lia).
    set (x := endTime - now). assert (Hx : 0 <= x) by (unfold x; lia).
    change (1000 * 60 * 60 * 24) with 86400000.
    change (1000 * 60 * 60) with 3600000.
    change (1000 * 60) with 60000.
    eexists. eexists. eexists. eexists. split; [reflexivity|].
    pose proof (Z.div_mod x 86400000 ltac:(lia)) as D1.
    pose proof (Z.mod_pos_bound x 86400000 ltac:(lia)) as B1.
    pose proof (Z.div_mod (x mod 86400000) 3600000 ltac:(lia)) as D2.
    pose proof (Z.mod_pos_bound (x mod 86400000) 3600000 ltac:(lia)) as B2.
    pose proof (Z.div_mod (x mod 3600000) 60000 ltac:(lia)) as D3.
    pose proof (Z.mod_pos_bound (x mod 3600000) 60000 ltac:(lia)) as B3.
    pose proof (Z.div_mod (x mod 60000) 1000 ltac:(lia)) as D4.
    pose proof (Z.mod_pos_bound (x mod 60000) 1000 ltac:(lia)) as B4.
    pose proof (Z.mod_pos_bound x 3600000 ltac:(lia)) as B5.
    pose proof (Z.mod_pos_bound x 60000 ltac:(lia)) as B6.
    assert (M1 : (x mod 86400000) mod 3600000 = x mod 3600000).
    { apply Z.mod_mod_divide. exists 24. reflexivity. }
    assert (M2 : (x mod 3600000) mod 60000 = x mod 60000).
    { apply Z.mod_mod_divide. exists 60. reflexivity. }
    rewrite M1 in D2. rewrite M2 in D3.
    pose proof (Z.div_pos x 86400000 Hx ltac:(lia)) as P1.
    pose proof (Z.div_pos (x mod 86400000) 3600000 ltac:(lia) ltac:(lia)) as P2.
    pose proof (Z.div_pos (x mod 3600000) 60000 ltac:(lia) ltac:(lia)) as P3.
    pose proof (Z.div_pos (x mod 60000) 1000 ltac:(lia) ltac:(lia)) as P4.
    pose proof (Z.div_lt_upper_bound (x mod 86400000) 3600000 24 ltac:(lia) ltac:(lia)) as U2.
    pose proof (Z.div_lt_upper_bound (x mod 3600000) 60000 60 ltac:(lia) ltac:(lia)) as U3.
    pose proof (Z.div_lt_upper_bound (x mod 60000) 1000 60 ltac:(lia) ltac:(lia)) as U4.
    repeat split; try lia.
  - intros H. unfold countdown_update. cbv zeta.
    replace (endTime - now <? 0) with true by (symmetry; apply Z.ltb_lt; lia).
    reflexivity.
  - unfold countdown_update. rewrite Z.sub_diag. reflexivity.
Qed.

Lemma countdown_shows_the_remaining_time_witness :
  countdown_update (days 7) (days 3 + 1) = Remaining 3 23 59 59.
Proof.
  destruct (countdown_shows_the_remaining_time (days 7) (days 3 + 1)) as [H _].
  destruct H as [d [h [m [s [E _]]]]]; [vm_compute; discriminate|].
  reflexivity.
Defined.
